(** * OptProd: planificación semanal de producción

    Shallow embedding of the parts of the repository that carry the
    lifecycle of a programación ([modelos/database.py]), the execution
    recorder, the calendar mapper ([utils/db_helpers.py], [app_semanal.py]),
    the KPI calculator ([utils/kpi_calculator.py]) and the CP-SAT model
    with the plan read off its solutions ([optimizador_produccion.py]).

    Python [int] is [Z]; [//] and [%] are [Z.div] and [Z.modulo] (both
    round towards minus infinity) when the divisor is not zero; SQL tables keyed by a primary key are
    finite maps; a [None] column is [option]. *)

From Stdlib Require Import ZArith List String Ascii Bool Lia QArith Qminmax Qabs.
From Stdlib Require Import DecimalString.
From Stdlib Require OrderedTypeEx DecimalZ DecimalPos.
From Stdlib Require Import Sorted.
From stdpp Require Import sorting.
From stdpp Require Import gmap strings list.

Open Scope string_scope.
Open Scope list_scope.
Open Scope Z_scope.

(** ** 0. Python string operations used by several modules *)

Module Cadenas.

(** Whitespace removed by [str.strip()] (ASCII range). *)
Definition es_espacio (c : ascii) : bool :=
  let n := nat_of_ascii c in
  ((9 <=? n)%nat && (n <=? 13)%nat) || ((28 <=? n)%nat && (n <=? 32)%nat).

Fixpoint lstrip (l : list ascii) : list ascii :=
  match l with
  | c :: r => if es_espacio c then lstrip r else l
  | [] => []
  end.

Definition strip (s : string) : string :=
  string_of_list_ascii
    (rev (lstrip (rev (lstrip (list_ascii_of_string s))))).

(** [c in s] for a character. *)
Fixpoint contiene (c : ascii) (s : string) : bool :=
  match s with
  | EmptyString => false
  | String d r => Ascii.eqb c d || contiene c r
  end.

(** [s.split(c)] *)
Fixpoint split (c : ascii) (s : string) : list string :=
  match s with
  | EmptyString => [EmptyString]
  | String d r =>
      if Ascii.eqb c d then EmptyString :: split c r
      else match split c r with
           | x :: xs => String d x :: xs
           | [] => [String d EmptyString]
           end
  end.

Definition digito (c : ascii) : option Z :=
  let n := Z.of_nat (nat_of_ascii c) in
  if (48 <=? n) && (n <=? 57) then Some (n - 48) else None.

(** Decimal digits with single underscores between them. *)
Fixpoint leer_digitos (acc : Z) (tras_digito : bool) (l : list ascii) : option Z :=
  match l with
  | [] => if tras_digito then Some acc else None
  | c :: r =>
      match digito c with
      | Some d => leer_digitos (acc * 10 + d) true r
      | None =>
          if Ascii.eqb c "_"%char && tras_digito then leer_digitos acc false r
          else None
      end
  end.

(** [int(s)] for a string: [None] stands for [ValueError]. *)
Definition int_de_cadena (s : string) : option Z :=
  match list_ascii_of_string (strip s) with
  | c :: r =>
      if Ascii.eqb c "+"%char then leer_digitos 0 false r
      else if Ascii.eqb c "-"%char then Z.opp <$> leer_digitos 0 false r
      else leer_digitos 0 false (c :: r)
  | [] => None
  end.

(** [str(z)] for an integer. *)
Definition str_de_entero (z : Z) : string :=
  NilZero.string_of_int (Z.to_int z).

(** [n] characters ['0']. *)
Fixpoint ceros (n : nat) : string :=
  match n with
  | O => ""
  | S m => String "0" (ceros m)
  end.

(** [format(z, '0<ancho>d')]: the sign, then the digits padded with zeros
    on the left up to the width. *)
Definition rellenar (ancho : nat) (z : Z) : string :=
  let digitos := str_de_entero (Z.abs z) in
  let signo := if z <? 0 then "-" else "" in
  signo
  +:+ ceros (ancho - String.length signo - String.length digitos)
  +:+ digitos.

End Cadenas.

(** ** 1. Lifecycle of a programación ([modelos/database.py]) *)

Module Ciclo.

(** [class EstadoProgramacion(enum.Enum)] of [database_models.py]. *)
Inductive EstadoProgramacion : Type :=
| SIMULACION
| PLANIFICADA
| EN_EJECUCION
| COMPLETADA
| CANCELADA.

#[global] Instance EstadoProgramacion_eq_dec : EqDecision EstadoProgramacion.
Proof. solve_decision. Defined.

(** The [.value] of each member. *)
Definition value (e : EstadoProgramacion) : string :=
  match e with
  | SIMULACION => "simulacion"
  | PLANIFICADA => "planificada"
  | EN_EJECUCION => "en_ejecucion"
  | COMPLETADA => "completada"
  | CANCELADA => "cancelada"
  end.

(** The columns of [Programacion] that the lifecycle reads or writes; the
    primary key [id] is the key of the table. *)
Record Programacion : Type := mkProgramacion {
  semana_produccion : Z;
  anio : Z;
  estado : EstadoProgramacion;
  aprobada_por : option string;
  fecha_aprobacion : option Z
}.

(** The table [programaciones]:
    [session.query(Programacion).filter(Programacion.id == prog_id).first()]
    is the lookup [db !! prog_id]. *)
Abbreviation Tabla := (gmap string Programacion).

Definition con_estado (p : Programacion) (e : EstadoProgramacion) : Programacion :=
  {| semana_produccion := semana_produccion p;
     anio := anio p;
     estado := e;
     aprobada_por := aprobada_por p;
     fecha_aprobacion := fecha_aprobacion p |}.

Definition con_aprobacion (p : Programacion) (quien : string) (ahora : Z)
  : Programacion :=
  {| semana_produccion := semana_produccion p;
     anio := anio p;
     estado := estado p;
     aprobada_por := Some quien;
     fecha_aprobacion := Some ahora |}.

(** [aprobar_programacion(prog_id, aprobada_por)]: the row, when found, gets
    [estado = PLANIFICADA] whatever its current estado is. [ahora] stands for
    [datetime.now()]. *)
Definition aprobar_programacion (prog_id : string) (quien : string) (ahora : Z)
    (db : Tabla) : Tabla * bool :=
  match db !! prog_id with
  | Some prog =>
      (<[prog_id := con_aprobacion (con_estado prog PLANIFICADA) quien ahora]> db,
       true)
  | None => (db, false)
  end.

(** The dictionary [transiciones_validas] of [cambiar_estado_programacion]. *)
Definition transiciones_validas (e : EstadoProgramacion) : list EstadoProgramacion :=
  match e with
  | SIMULACION => [PLANIFICADA; CANCELADA]
  | PLANIFICADA => [EN_EJECUCION; CANCELADA]
  | EN_EJECUCION => [COMPLETADA]
  | COMPLETADA => []
  | CANCELADA => []
  end.

(** [", ".join(...)] *)
Fixpoint join (sep : string) (l : list string) : string :=
  match l with
  | [] => ""
  | [x] => x
  | x :: r => x +:+ sep +:+ join sep r
  end.

(** Python truthiness of an optional string argument. *)
Definition verdadero (u : option string) : bool :=
  match u with
  | Some s => negb (String.eqb s "")
  | None => false
  end.

(** [cambiar_estado_programacion(prog_id, nuevo_estado, usuario)]. The
    automatic KPI computation on [COMPLETADA] writes another table and its
    failure is swallowed, so it does not show in [programaciones]. *)
Definition cambiar_estado_programacion (prog_id : string)
    (nuevo_estado : EstadoProgramacion) (usuario : option string) (ahora : Z)
    (db : Tabla) : Tabla * (bool * string) :=
  match db !! prog_id with
  | None => (db, (false, "❌ Programación " +:+ prog_id +:+ " no encontrada"))
  | Some prog =>
      let estado_actual := estado prog in
      if negb (bool_decide (nuevo_estado ∈ transiciones_validas estado_actual)) then
        let estados_validos := join ", " (map value (transiciones_validas estado_actual)) in
        if String.eqb estados_validos "" then
          (db, (false, "⛔ No se puede cambiar el estado de una programación '"
                         +:+ value estado_actual +:+ "'"))
        else
          (db, (false, "⚠️ Transición inválida: '" +:+ value estado_actual
                         +:+ "' → '" +:+ value nuevo_estado
                         +:+ "'. Estados válidos: " +:+ estados_validos))
      else
        let prog1 := con_estado prog nuevo_estado in
        let prog2 :=
          match usuario with
          | Some u =>
              if bool_decide (nuevo_estado = PLANIFICADA) && verdadero usuario
              then con_aprobacion prog1 u ahora else prog1
          | None => prog1
          end in
        (<[prog_id := prog2]> db,
         (true, "✅ Estado actualizado: " +:+ value estado_actual
                  +:+ " → " +:+ value nuevo_estado))
  end.

(** [eliminar_programacion(prog_id, forzar)]: only the row of
    [programaciones] is followed here; the ORM cascade removes its children. *)
Definition eliminar_programacion (prog_id : string) (forzar : bool)
    (db : Tabla) : Tabla * (bool * string) :=
  match db !! prog_id with
  | None => (db, (false, "Programación " +:+ prog_id +:+ " no encontrada"))
  | Some prog =>
      if negb forzar
         && bool_decide (estado prog ∈ [PLANIFICADA; EN_EJECUCION; COMPLETADA]) then
        (db, (false, "No se puede eliminar programación con estado '"
                       +:+ value (estado prog)
                       +:+ "'. Solo simulaciones y canceladas."))
      else
        (delete prog_id db,
         (true, "Programación " +:+ prog_id +:+ " eliminada exitosamente"))
  end.

(** The states that count for the week: planificada, en_ejecucion, completada. *)
Definition activa (e : EstadoProgramacion) : bool :=
  match e with
  | PLANIFICADA | EN_EJECUCION | COMPLETADA => true
  | _ => false
  end.

Definition misma_semana (p q : Programacion) : Prop :=
  anio p = anio q ∧ semana_produccion p = semana_produccion q.

(** At most one programación per [(anio, semana)] is in an active state. *)
Definition unicidad (db : Tabla) : Prop :=
  ∀ i j p q,
    db !! i = Some p → db !! j = Some q →
    misma_semana p q → activa (estado p) = true → activa (estado q) = true →
    i = j.

(** What the caller has to check before an approval: no other row of the
    week of [p] is active. *)
Definition semana_libre (db : Tabla) (prog_id : string) (p : Programacion) : Prop :=
  ∀ j q, db !! j = Some q → j ≠ prog_id → misma_semana p q →
         activa (estado q) = false.

(** Position of an estado along simulacion → planificada → en_ejecucion →
    completada; [cancelada] is a sink outside the line. *)
Definition rango (e : EstadoProgramacion) : Z :=
  match e with
  | SIMULACION => 0
  | PLANIFICADA => 1
  | EN_EJECUCION => 2
  | COMPLETADA => 3
  | CANCELADA => 4
  end.

Definition terminal (e : EstadoProgramacion) : bool :=
  match e with
  | COMPLETADA | CANCELADA => true
  | _ => false
  end.

(** Two programaciones of week 42 of 2025: one planned, one simulated. *)
Definition semana_42 : Tabla :=
  <["PROG-2025-W42-001" := mkProgramacion 42 2025 PLANIFICADA (Some "Ana") (Some 0)]>
  (<["PROG-2025-W42-002" := mkProgramacion 42 2025 SIMULACION None None]> ∅).

(** A table with one simulated programación. *)
Definition solo_simulacion : Tabla :=
  {["PROG-2025-W42-001" := mkProgramacion 42 2025 SIMULACION None None]}.

(** A table whose programación of week 41 is completed. *)
Definition semana_41_cerrada : Tabla :=
  {["PROG-2025-W41-001" := mkProgramacion 41 2025 COMPLETADA (Some "Ana") (Some 0)]}.

(** [f"PROG-{anio}-W{semana:02d}-{siguiente_numero:03d}"] *)
Definition id_de_programacion (el_anio semana numero : Z) : string :=
  "PROG-" +:+ Cadenas.str_de_entero el_anio
  +:+ "-W" +:+ Cadenas.rellenar 2 semana
  +:+ "-" +:+ Cadenas.rellenar 3 numero.

(** [int(p.id.split('-')[-1])], [None] when [int] raises. *)
Definition numero_de_id (id : string) : option Z :=
  Cadenas.int_de_cadena (List.last (Cadenas.split "-" id) "").

(** The rows of the week, and the numbers read from their ids; the rows
    whose id does not end in a number are passed over. *)
Definition numeros_usados (semana el_anio : Z) (db : Tabla) : list Z :=
  omap (λ fila : string * Programacion, numero_de_id fila.1)
       (filter (λ fila : string * Programacion,
                  semana_produccion fila.2 = semana ∧ anio fila.2 = el_anio)
               (map_to_list db)).

(** [max(numeros_usados) + 1 if numeros_usados else 1] *)
Definition siguiente_numero (numeros : list Z) : Z :=
  match numeros with
  | [] => 1
  | n :: resto => fold_left Z.max resto n + 1
  end.

(** [crear_programacion(semana, anio, ...)]: the new row is a simulation;
    [None] is the [IntegrityError] of inserting an id that is in the table.
    The other columns of the row are not read by the lifecycle. *)
Definition crear_programacion (semana el_anio : Z) (db : Tabla)
  : option (Tabla * string) :=
  let prog_id :=
    id_de_programacion el_anio semana
      (siguiente_numero (numeros_usados semana el_anio db)) in
  match db !! prog_id with
  | Some _ => None
  | None =>
      Some (<[prog_id := mkProgramacion semana el_anio SIMULACION None None]> db,
            prog_id)
  end.

(** Every id of the table is the one that [crear_programacion] writes for
    the week of its row and some number. *)
Definition ids_con_formato (db : Tabla) : Prop :=
  ∀ id p, db !! id = Some p →
          ∃ n, 0 <= n
               ∧ id = id_de_programacion (anio p) (semana_produccion p) n.

End Ciclo.

(** ** 2. Execution recorder ([modelos/database.py]) *)

Module Registro.

(** [class EstadoTarea(enum.Enum)]. *)
Inductive EstadoTarea : Type :=
| PENDIENTE
| EN_PROGRESO
| COMPLETADA
| RETRASADA
| CANCELADA.

#[global] Instance EstadoTarea_eq_dec : EqDecision EstadoTarea.
Proof. solve_decision. Defined.

(** Template task (table [tareas]); [duracion] is [nullable=False]. *)
Record Tarea : Type := mkTarea {
  trabajo_id : string;
  duracion : Z;
  tiempo_setup : option Z
}.

(** Planned task (table [tareas_planificadas]); [tarea_id] is nullable. *)
Record TareaPlanificada : Type := mkTareaPlanificada {
  programacion_id : string;
  tarea_id : option string;
  duracion_planificada : Z;
  inicio_planificado : Z;
  fin_planificado : Z
}.

(** A row of [ejecucion_real]. Datetimes are microseconds since an epoch. *)
Record EjecucionReal : Type := mkEjecucionReal {
  id : Z;
  tarea_planificada_id : Z;
  inicio_real : Z;
  fin_real : Z;
  duracion_real : Z;
  maquina_usada : string;
  operador_ejecutor : option string;
  estado : EstadoTarea;
  desviacion_duracion : Z;
  problemas_encontrados : string;
  tiempo_paradas : option Z;
  notas_operador : string;
  registrado_por : string
}.

(** The tables one session of the recorder touches. [ejecucion_real] has an
    integer primary key and no unique constraint on [tarea_planificada_id],
    so it is a list of rows in insertion order. *)
Record BD : Type := mkBD {
  programaciones : gmap string Ciclo.Programacion;
  tareas : gmap string Tarea;
  tareas_planificadas : gmap Z TareaPlanificada;
  ejecucion_real : list EjecucionReal
}.

(** [tid.split('.')[0] if '.' in tid else tid] *)
Definition tarea_id_base (tid : string) : string :=
  if Cadenas.contiene "."%char tid
  then hd tid (Cadenas.split "."%char tid)
  else tid.

(** [int((fin_real - inicio_real).total_seconds() / 60)]: whole minutes,
    truncated towards zero. *)
Definition minutos_entre (inicio fin : Z) : Z :=
  Z.quot (fin - inicio) 60000000.

(** [tiempo_paradas or 0] *)
Definition o_cero (x : option Z) : Z :=
  match x with
  | Some v => v
  | None => 0
  end.

(** The next value of the integer primary key. *)
Definition siguiente_id (l : list EjecucionReal) : Z :=
  1 + fold_right Z.max 0 (map id l).

(** Outcome of a call: a value, or the exception it raises. *)
Inductive Resultado (A : Type) : Type :=
| Devuelve (a : A)
| ValueError (mensaje : string)
| TypeError.
Arguments Devuelve {A} a.
Arguments ValueError {A} mensaje.
Arguments TypeError {A}.

(** [registrar_ejecucion_real]: looks up the planned task, computes the real
    duration and its deviation against the template task's [duracion], derives
    the estado and inserts a row. It reads neither [ejecucion_real] nor the
    estado of the owning programación. *)
Definition registrar_ejecucion_real (tp_id : Z) (inicio fin : Z)
    (maquina : string) (operador : option string)
    (problemas notas : string) (paradas : option Z) (registrador : string)
    (db : BD) : BD * Resultado Z :=
  match tareas_planificadas db !! tp_id with
  | None =>
      (db, ValueError ("Tarea planificada " +:+ Cadenas.str_de_entero tp_id
                       +:+ " no encontrada"))
  | Some tarea_plan =>
      match tarea_id tarea_plan with
      | None => (db, TypeError)
      | Some tid =>
          let duracion_real := minutos_entre inicio fin in
          let tarea_original := tareas db !! tarea_id_base tid in
          let duracion_original :=
            match tarea_original with
            | Some t => duracion t
            | None => duracion_planificada tarea_plan
            end in
          let dur_real_sin_setup := Z.max 0 (duracion_real - o_cero paradas) in
          let desviacion := dur_real_sin_setup - duracion_original in
          let est := if 30 <? desviacion then RETRASADA else COMPLETADA in
          let nuevo := siguiente_id (ejecucion_real db) in
          let ejecucion :=
            {| id := nuevo;
               tarea_planificada_id := tp_id;
               inicio_real := inicio;
               fin_real := fin;
               duracion_real := duracion_real;
               maquina_usada := maquina;
               operador_ejecutor := operador;
               estado := est;
               desviacion_duracion := desviacion;
               problemas_encontrados := problemas;
               tiempo_paradas := paradas;
               notas_operador := notas;
               registrado_por := registrador |} in
          ({| programaciones := programaciones db;
              tareas := tareas db;
              tareas_planificadas := tareas_planificadas db;
              ejecucion_real := ejecucion_real db ++ [ejecucion] |},
           Devuelve nuevo)
      end
  end.

(** The rows recorded for one planned task. *)
Definition ejecuciones_de (db : BD) (tp_id : Z) : list EjecucionReal :=
  filter (λ e, tarea_planificada_id e = tp_id) (ejecucion_real db).

(** The estado of the programación that owns a planned task. *)
Definition estado_de_programacion (db : BD) (tp_id : Z)
  : option Ciclo.EstadoProgramacion :=
  match tareas_planificadas db !! tp_id with
  | Some tp => Ciclo.estado <$> (programaciones db !! programacion_id tp)
  | None => None
  end.

(** A database with one planned part of task A2, owned by a programación
    that is still a simulation, and one execution already recorded for it. *)
Definition bd_simulada : BD :=
  {| programaciones :=
       {["PROG-2025-W42-001" :=
           Ciclo.mkProgramacion 42 2025 Ciclo.SIMULACION None None]};
     tareas := {["A2" := mkTarea "A" 60 (Some 0)]};
     tareas_planificadas :=
       {[1 := mkTareaPlanificada "PROG-2025-W42-001" (Some "A2.P1") 45 0 45]};
     ejecucion_real :=
       [ mkEjecucionReal 1 1 0 3600000000 60 "M1" None COMPLETADA 0 ""
           (Some 0) "" "Operador" ] |}.

(** The planned tasks of a programación, with their primary keys. *)
Definition planificadas_de (db : BD) (prog_id : string)
  : list (Z * TareaPlanificada) :=
  filter (λ fila, programacion_id fila.2 = prog_id)
         (map_to_list (tareas_planificadas db)).

(** The execution belongs to a planned task of the programación: a row of
    the [JOIN] of [tareas_planificadas] with [ejecucion_real] filtered by
    [programacion_id]. *)
Definition es_de (db : BD) (prog_id : string) (e : EjecucionReal) : bool :=
  match tareas_planificadas db !! tarea_planificada_id e with
  | Some tp => bool_decide (programacion_id tp = prog_id)
  | None => false
  end.

(** [verificar_programacion_completa(programacion_id)]: both counts are
    [count()] of a query, so the second counts the rows of the join. *)
Definition verificar_programacion_completa (prog_id : string) (db : BD)
  : bool * Z * Z :=
  let total_tareas := Z.of_nat (length (planificadas_de db prog_id)) in
  let tareas_registradas :=
    Z.of_nat (length (filter (λ e, es_de db prog_id e = true)
                             (ejecucion_real db))) in
  let esta_completa :=
    (0 <? total_tareas) && (tareas_registradas =? total_tareas) in
  (esta_completa, total_tareas, tareas_registradas).

(** [ORDER BY inicio_planificado] *)
Definition empieza_antes (a b : Z * TareaPlanificada) : Prop :=
  inicio_planificado a.2 <= inicio_planificado b.2.

#[global] Instance empieza_antes_dec a b : Decision (empieza_antes a b).
Proof. unfold empieza_antes. apply _. Defined.

(** The query of [obtener_tareas_sin_ejecucion_real]: the planned tasks of
    the programación whose id is not among those with an execution, by
    [inicio_planificado]. Rows with the same start keep the order of the
    table, which SQL leaves open. *)
Definition pendientes_de (db : BD) (prog_id : string)
  : list (Z * TareaPlanificada) :=
  merge_sort empieza_antes
    (filter (λ fila, ejecuciones_de db fila.1 = [])
            (planificadas_de db prog_id)).

(** One dictionary of [tareas_pendientes], without the descriptive columns. *)
Record Pendiente : Type := mkPendiente {
  pen_tarea_planificada_id : Z;
  pen_tarea_id : string;
  pen_trabajo_id : string;
  pen_inicio_planificado : Z;
  pen_fin_planificado : Z;
  pen_duracion_planificada : Z
}.

(** [s[0] if len(s) > 0 else 'N/A'] *)
Definition primera_letra (s : string) : string :=
  match s with
  | String c _ => String c EmptyString
  | EmptyString => "N/A"
  end.

(** The loop over the rows of the query; ['.' in tarea_id_full] raises
    [TypeError] when the column is [None]. *)
Fixpoint filas_pendientes (filas : list (Z * TareaPlanificada))
  : Resultado (list Pendiente) :=
  match filas with
  | [] => Devuelve []
  | (k, tarea_plan) :: resto =>
      match tarea_id tarea_plan with
      | None => TypeError
      | Some tarea_id_full =>
          match filas_pendientes resto with
          | Devuelve l =>
              Devuelve
                ({| pen_tarea_planificada_id := k;
                    pen_tarea_id := tarea_id_full;
                    pen_trabajo_id := primera_letra (tarea_id_base tarea_id_full);
                    pen_inicio_planificado := inicio_planificado tarea_plan;
                    pen_fin_planificado := fin_planificado tarea_plan;
                    pen_duracion_planificada := duracion_planificada tarea_plan |}
                 :: l)
          | ValueError m => ValueError m
          | TypeError => TypeError
          end
      end
  end.

(** [obtener_tareas_sin_ejecucion_real(programacion_id)]. *)
Definition obtener_tareas_sin_ejecucion_real (prog_id : string) (db : BD)
  : Resultado (list Pendiente) :=
  filas_pendientes (pendientes_de db prog_id).

(** [obtener_ejecucion_real(tarea_planificada_id)]: the first row, in the
    order of insertion. *)
Definition obtener_ejecucion_real (tp_id : Z) (db : BD) : option EjecucionReal :=
  head (ejecuciones_de db tp_id).

(** [session.query(EjecucionReal).filter(EjecucionReal.id == k).first()] *)
Definition ejecucion_con_id (db : BD) (k : Z) : option EjecucionReal :=
  head (filter (λ e, id e = k) (ejecucion_real db)).

(** [eliminar_ejecucion_real(ejecucion_id)]: deletes the row with that
    primary key. *)
Definition eliminar_ejecucion_real (ejecucion_id : Z) (db : BD) : BD * bool :=
  match ejecucion_con_id db ejecucion_id with
  | None => (db, false)
  | Some _ =>
      ({| programaciones := programaciones db;
          tareas := tareas db;
          tareas_planificadas := tareas_planificadas db;
          ejecucion_real :=
            filter (λ e, id e ≠ ejecucion_id) (ejecucion_real db) |},
       true)
  end.

(** [x if x is not None else actual] *)
Definition si_se_da {A : Type} (nuevo : option A) (actual : A) : A :=
  match nuevo with
  | Some v => v
  | None => actual
  end.

(** The body of [actualizar_ejecucion_real] on the row found: the fields
    given are replaced; when a time is given the derived fields are computed
    again. [ejecucion.inicio_real - inicio_plan] subtracts the integer column
    [inicio_planificado] from a [datetime], which raises [TypeError] unless
    the [if inicio_plan:] above it skips it; likewise for [fin_plan]. The
    estado is not assigned. *)
Definition actualizar_fila (db : BD) (ejecucion : EjecucionReal)
    (inicio_real_nuevo fin_real_nuevo : option Z)
    (maquina operador problemas notas : option string) (paradas : option Z)
  : Resultado EjecucionReal :=
  let con_campos :=
    {| id := id ejecucion;
       tarea_planificada_id := tarea_planificada_id ejecucion;
       inicio_real := si_se_da inicio_real_nuevo (inicio_real ejecucion);
       fin_real := si_se_da fin_real_nuevo (fin_real ejecucion);
       duracion_real := duracion_real ejecucion;
       maquina_usada := si_se_da maquina (maquina_usada ejecucion);
       operador_ejecutor :=
         match operador with
         | Some o => Some o
         | None => operador_ejecutor ejecucion
         end;
       estado := estado ejecucion;
       desviacion_duracion := desviacion_duracion ejecucion;
       problemas_encontrados := si_se_da problemas (problemas_encontrados ejecucion);
       tiempo_paradas :=
         match paradas with
         | Some p => Some p
         | None => tiempo_paradas ejecucion
         end;
       notas_operador := si_se_da notas (notas_operador ejecucion);
       registrado_por := registrado_por ejecucion |} in
  match inicio_real_nuevo, fin_real_nuevo with
  | None, None => Devuelve con_campos
  | _, _ =>
      match tareas_planificadas db !! tarea_planificada_id con_campos with
      | None => Devuelve con_campos
      | Some tarea_plan =>
          if negb (inicio_planificado tarea_plan =? 0) then TypeError
          else if negb (fin_planificado tarea_plan =? 0) then TypeError
          else
            match tarea_id tarea_plan with
            | None => TypeError
            | Some tid =>
                let duracion_real :=
                  minutos_entre (inicio_real con_campos) (fin_real con_campos) in
                let duracion_original :=
                  match tareas db !! tarea_id_base tid with
                  | Some t => duracion t
                  | None => duracion_planificada tarea_plan
                  end in
                let dur_real_sin_setup :=
                  Z.max 0 (duracion_real - o_cero (tiempo_paradas con_campos)) in
                Devuelve
                  {| id := id con_campos;
                     tarea_planificada_id := tarea_planificada_id con_campos;
                     inicio_real := inicio_real con_campos;
                     fin_real := fin_real con_campos;
                     duracion_real := duracion_real;
                     maquina_usada := maquina_usada con_campos;
                     operador_ejecutor := operador_ejecutor con_campos;
                     estado := estado con_campos;
                     desviacion_duracion := dur_real_sin_setup - duracion_original;
                     problemas_encontrados := problemas_encontrados con_campos;
                     tiempo_paradas := tiempo_paradas con_campos;
                     notas_operador := notas_operador con_campos;
                     registrado_por := registrado_por con_campos |}
            end
      end
  end.

(** [actualizar_ejecucion_real(ejecucion_id, ...)]: [False] when no row has
    the id; an exception leaves the tables as they were (the session is
    rolled back). *)
Definition actualizar_ejecucion_real (ejecucion_id : Z)
    (inicio_real_nuevo fin_real_nuevo : option Z)
    (maquina operador problemas notas : option string) (paradas : option Z)
    (db : BD) : BD * Resultado bool :=
  match ejecucion_con_id db ejecucion_id with
  | None => (db, Devuelve false)
  | Some ejecucion =>
      match actualizar_fila db ejecucion inicio_real_nuevo fin_real_nuevo
              maquina operador problemas notas paradas with
      | Devuelve nueva =>
          ({| programaciones := programaciones db;
              tareas := tareas db;
              tareas_planificadas := tareas_planificadas db;
              ejecucion_real :=
                map (λ e, if decide (id e = ejecucion_id) then nueva else e)
                    (ejecucion_real db) |},
           Devuelve true)
      | ValueError m => (db, ValueError m)
      | TypeError => (db, TypeError)
      end
  end.

(** Every planned task has at most one execution: what the caller keeps by
    registering only tasks that have none. *)
Definition una_por_tarea (db : BD) : Prop :=
  ∀ tp_id, (length (ejecuciones_de db tp_id) <= 1)%nat.

(** Two planned tasks of programación W42, the first with two executions
    recorded and the second with none. *)
Definition bd_duplicada : BD :=
  {| programaciones :=
       {["PROG-2025-W42-001" :=
           Ciclo.mkProgramacion 42 2025 Ciclo.EN_EJECUCION None None]};
     tareas := ∅;
     tareas_planificadas :=
       {[1 := mkTareaPlanificada "PROG-2025-W42-001" (Some "A1") 60 0 60;
         2 := mkTareaPlanificada "PROG-2025-W42-001" (Some "A2") 30 60 90]};
     ejecucion_real :=
       [ mkEjecucionReal 1 1 0 3600000000 60 "M1" None COMPLETADA 0 ""
           (Some 0) "" "Operador";
         mkEjecucionReal 2 1 0 3600000000 60 "M1" None COMPLETADA 0 ""
           (Some 0) "" "Operador" ] |}.

End Registro.

(** ** 3. Calendar mapper ([utils/db_helpers.py], [app_semanal.py]) *)

Module Calendario.

(** Outcome of a computation with a [while] loop: the value, the
    [ZeroDivisionError] of [//] and [%], or fuel exhausted before the loop
    ended. *)
Inductive Salida (A : Type) : Type :=
| Termina (a : A)
| ZeroDivisionError
| SinCombustible.
Arguments Termina {A} a.
Arguments ZeroDivisionError {A}.
Arguments SinCombustible {A}.

#[global] Instance Salida_bind : MBind Salida := λ A B f x,
  match x with
  | Termina a => f a
  | ZeroDivisionError => ZeroDivisionError
  | SinCombustible => SinCombustible
  end.

(** The dictionary [asig] of the solver: keys ['inicio'] and ['fin']. *)
Record Asignacion : Type := mkAsignacion {
  asig_inicio : Z;
  asig_fin : Z
}.

(** One element of the list returned by [dividir_tarea_en_partes]. *)
Record Parte : Type := mkParte {
  inicio : Z;
  fin : Z;
  duracion : Z;
  es_dividida : bool;
  parte_numero : Z
}.

(** The [while tiempo_actual < fin_min] loop of [dividir_tarea_en_partes]
    (db_helpers.py, second definition, the one bound at import). *)
Fixpoint bucle_partes (combustible : nat) (minutos_por_dia fin_min : Z)
    (tiempo_actual parte_numero : Z) : Salida (list Parte) :=
  if tiempo_actual <? fin_min then
    match combustible with
    | O => SinCombustible
    | S resto =>
        let dia_actual := tiempo_actual / minutos_por_dia in
        let fin_dia_actual := (dia_actual + 1) * minutos_por_dia in
        let fin_parte := Z.min fin_dia_actual fin_min in
        partes ← bucle_partes resto minutos_por_dia fin_min fin_parte
                   (parte_numero + 1);
        Termina ({| inicio := tiempo_actual;
                    fin := fin_parte;
                    duracion := fin_parte - tiempo_actual;
                    es_dividida := true;
                    parte_numero := parte_numero |} :: partes)
    end
  else Termina [].

(** [dividir_tarea_en_partes(asig, minutos_por_dia)]. *)
Definition dividir_tarea_en_partes (combustible : nat) (asig : Asignacion)
    (minutos_por_dia : Z) : Salida (list Parte) :=
  let inicio_min := asig_inicio asig in
  let fin_min := asig_fin asig in
  let duracion_total := fin_min - inicio_min in
  if minutos_por_dia =? 0 then ZeroDivisionError else
  let dia_inicio := inicio_min / minutos_por_dia in
  let dia_fin := fin_min / minutos_por_dia in
  if dia_inicio =? dia_fin then
    Termina [ {| inicio := inicio_min;
                 fin := fin_min;
                 duracion := duracion_total;
                 es_dividida := false;
                 parte_numero := 1 |} ]
  else bucle_partes combustible minutos_por_dia fin_min inicio_min 1.

(** Iterations that suffice for the loop: each one advances at least a minute. *)
Definition combustible_suficiente (asig : Asignacion) : nat :=
  Z.to_nat (asig_fin asig - asig_inicio asig).

(** The first definition of the same name in db_helpers.py, rebound by the
    second one when the module is loaded. *)
Module Anterior.

Record Parte : Type := mkParte {
  inicio : Z;
  fin : Z;
  duracion : Z;
  dia : Z;
  parte_numero : Z;
  es_dividida : bool
}.

(** The [while tiempo_restante > 0] loop; [hechas] is [len(partes)]. *)
Fixpoint bucle_partes (combustible : nat) (minutos_por_dia duracion_total : Z)
    (inicio inicio_dia dia_inicio tiempo_restante parte_numero : Z)
    (hechas : nat) : Salida (list Parte) :=
  if 0 <? tiempo_restante then
    match combustible with
    | O => SinCombustible
    | S resto =>
        let tiempo_restante_dia := minutos_por_dia - inicio_dia in
        if tiempo_restante <=? tiempo_restante_dia then
          let duracion_parte := tiempo_restante in
          let fin_parte := inicio + duracion_parte in
          Termina [ {| inicio := inicio;
                       fin := fin_parte;
                       duracion := duracion_parte;
                       dia := dia_inicio;
                       parte_numero := parte_numero;
                       es_dividida := (0 <? hechas)%nat
                                      || (tiempo_restante <? duracion_total) |} ]
        else
          let duracion_parte := tiempo_restante_dia in
          let fin_parte := inicio + duracion_parte in
          let dia_siguiente := dia_inicio + 1 in
          partes ← bucle_partes resto minutos_por_dia duracion_total
                     (dia_siguiente * minutos_por_dia) 0 dia_siguiente
                     (tiempo_restante - duracion_parte) (parte_numero + 1)
                     (S hechas);
          Termina ({| inicio := inicio;
                      fin := fin_parte;
                      duracion := duracion_parte;
                      dia := dia_inicio;
                      parte_numero := parte_numero;
                      es_dividida := true |} :: partes)
    end
  else Termina [].

Definition dividir_tarea_en_partes (combustible : nat) (asig : Asignacion)
    (minutos_por_dia_laboral : Z) : Salida (list Parte) :=
  let inicio := asig_inicio asig in
  let fin := asig_fin asig in
  let duracion_total := fin - inicio in
  if minutos_por_dia_laboral =? 0 then ZeroDivisionError else
  let dia_inicio := inicio / minutos_por_dia_laboral in
  let inicio_dia := inicio mod minutos_por_dia_laboral in
  bucle_partes combustible minutos_por_dia_laboral duracion_total
    inicio inicio_dia dia_inicio duracion_total 1 O.

Fixpoint encadenadas (desde : Z) (partes : list Parte) (hasta : Z) : Prop :=
  match partes with
  | [] => desde = hasta
  | p :: resto => inicio p = desde ∧ encadenadas (fin p) resto hasta
  end.

Fixpoint numeradas (n : Z) (partes : list Parte) : Prop :=
  match partes with
  | [] => True
  | p :: resto => parte_numero p = n ∧ numeradas (n + 1) resto
  end.

Definition en_un_dia (minutos_por_dia : Z) (p : Parte) : Prop :=
  (dia p * minutos_por_dia <= inicio p ∧ fin p <= (dia p + 1) * minutos_por_dia)
  ∧ inicio p <= fin p
  ∧ duracion p = fin p - inicio p.

Definition suma_duraciones (partes : list Parte) : Z :=
  fold_right Z.add 0 (map duracion partes).

End Anterior.

(** [datetime.time(hour, minute)]. *)
Record dt_time : Type := mk_time {
  hour : Z;
  minute : Z
}.

#[global] Instance dt_time_eq_dec : EqDecision dt_time.
Proof. solve_decision. Defined.

(** Two decimal digits, as [%H] and [%M] print them. *)
Definition dos_digitos (n : Z) : string :=
  String (ascii_of_nat (48 + Z.to_nat (n / 10)))
    (String (ascii_of_nat (48 + Z.to_nat (n mod 10))) EmptyString).

(** [t.strftime('%H:%M')] *)
Definition strftime_HM (t : dt_time) : string :=
  dos_digitos (hour t) +:+ ":" +:+ dos_digitos (minute t).

(** The keys of [st.session_state] the mapper reads. The shift bounds are the
    [datetime.time] values the configuration form stores. *)
Record SessionState : Type := mkSessionState {
  hora_inicio : option dt_time;
  hora_fin : option dt_time;
  minutos_por_dia_laboral : option Z
}.

(** [minutos_a_hora_dia(minutos_acumulativos, minutos_por_dia_laboral)]
    (app_semanal.py). *)
Definition minutos_a_hora_dia (st : SessionState)
    (minutos_acumulativos : option Z) (minutos_por_dia_arg : option Z)
    : Salida dt_time :=
  match minutos_acumulativos with
  | None =>
      match hora_inicio st with
      | Some h => Termina h
      | None => Termina (mk_time 8 0)
      end
  | Some acumulados =>
      let h_inicio := default (mk_time 8 0) (hora_inicio st) in
      let h_fin := default (mk_time 18 0) (hora_fin st) in
      let por_dia :=
        match minutos_por_dia_arg with
        | Some m => m
        | None => default 540 (minutos_por_dia_laboral st)
        end in
      if por_dia =? 0 then ZeroDivisionError else
      let minutos_del_dia := acumulados mod por_dia in
      if (minutos_del_dia =? 0) && (0 <? acumulados) then Termina h_inicio else
      let horas_agregadas := minutos_del_dia / 60 in
      let minutos_agregados := minutos_del_dia mod 60 in
      let hora0 := hour h_inicio + horas_agregadas in
      let minuto0 := minute h_inicio + minutos_agregados in
      let hora_del_dia_int := if 60 <=? minuto0 then hora0 + 1 else hora0 in
      let minuto_del_dia_int := if 60 <=? minuto0 then minuto0 - 60 else minuto0 in
      let hora_inicio_minutos := hour h_inicio * 60 + minute h_inicio in
      let hora_fin_minutos := hour h_fin * 60 + minute h_fin in
      let hora_calculada_minutos := hora_del_dia_int * 60 + minuto_del_dia_int in
      if hora_fin_minutos <=? hora_calculada_minutos then Termina h_fin
      else if hora_calculada_minutos <? hora_inicio_minutos then Termina h_inicio
      else Termina (mk_time hora_del_dia_int minuto_del_dia_int)
  end.

(** The [CASO ESPECIAL] of [obtener_datos_programacion_detallada] and of
    [procesar_tareas_desde_bd]: the clock time emitted for the end of a part. *)
Definition fin_real_de (st : SessionState) (fin_parte minutos_por_dia : Z)
    : Salida dt_time :=
  if minutos_por_dia =? 0 then ZeroDivisionError else
  if (0 <? fin_parte) && (fin_parte mod minutos_por_dia =? 0)
  then Termina (mk_time 18 0)
  else minutos_a_hora_dia st (Some fin_parte) (Some minutos_por_dia).

(** One entry of [programacion_data], without the descriptive columns. *)
Record ParteDetallada : Type := mkParteDetallada {
  inicio_planificado : string;
  fin_planificado : string;
  duracion_planificada : Z;
  det_es_dividida : bool;
  det_parte_numero : Z;
  dia_numero : Z
}.

(** The [while tiempo_restante > 0] loop of
    [obtener_datos_programacion_detallada]. *)
Fixpoint bucle_detallado (combustible : nat) (st : SessionState)
    (minutos_por_dia tiempo_actual tiempo_restante parte_num : Z)
    : Salida (list ParteDetallada) :=
  if 0 <? tiempo_restante then
    match combustible with
    | O => SinCombustible
    | S resto =>
        if minutos_por_dia =? 0 then ZeroDivisionError else
        let dia := tiempo_actual / minutos_por_dia in
        let fin_dia_actual := (dia + 1) * minutos_por_dia in
        let tiempo_disponible_dia := fin_dia_actual - tiempo_actual in
        let duracion_parte := Z.min tiempo_restante tiempo_disponible_dia in
        let fin_parte := tiempo_actual + duracion_parte in
        inicio_real ← minutos_a_hora_dia st (Some tiempo_actual) (Some minutos_por_dia);
        fin_real ← fin_real_de st fin_parte minutos_por_dia;
        partes ← bucle_detallado resto st minutos_por_dia fin_parte
                   (tiempo_restante - duracion_parte) (parte_num + 1);
        Termina ({| inicio_planificado := strftime_HM inicio_real;
                    fin_planificado := strftime_HM fin_real;
                    duracion_planificada := duracion_parte;
                    det_es_dividida := true;
                    det_parte_numero := parte_num;
                    dia_numero := dia |} :: partes)
    end
  else Termina [].

(** The body of the loop over the solver's assignments in
    [obtener_datos_programacion_detallada], for one assignment. *)
Definition detalle_de_asignacion (combustible : nat) (st : SessionState)
    (asig : Asignacion) : Salida (list ParteDetallada) :=
  let minutos_por_dia := default 540 (minutos_por_dia_laboral st) in
  let inicio_min := asig_inicio asig in
  let fin_min := asig_fin asig in
  let duracion_asignada := fin_min - inicio_min in
  if minutos_por_dia =? 0 then ZeroDivisionError else
  let dia_inicio := inicio_min / minutos_por_dia in
  let dia_fin := fin_min / minutos_por_dia in
  if negb (dia_inicio =? dia_fin) then
    bucle_detallado combustible st minutos_por_dia inicio_min duracion_asignada 1
  else
    inicio_real ← minutos_a_hora_dia st (Some inicio_min) (Some minutos_por_dia);
    fin_real ← minutos_a_hora_dia st (Some fin_min) (Some minutos_por_dia);
    Termina [ {| inicio_planificado := strftime_HM inicio_real;
                 fin_planificado := strftime_HM fin_real;
                 duracion_planificada := duracion_asignada;
                 det_es_dividida := false;
                 det_parte_numero := 1;
                 dia_numero := dia_inicio |} ].

(** Parts chained from [desde] to [hasta]: the first starts at [desde], each
    ends where the next starts, the last ends at [hasta]. *)
Fixpoint encadenadas (desde : Z) (partes : list Parte) (hasta : Z) : Prop :=
  match partes with
  | [] => desde = hasta
  | p :: resto => inicio p = desde ∧ encadenadas (fin p) resto hasta
  end.

(** [parte_numero] counts up from [n]. *)
Fixpoint numeradas (n : Z) (partes : list Parte) : Prop :=
  match partes with
  | [] => True
  | p :: resto => parte_numero p = n ∧ numeradas (n + 1) resto
  end.

(** The part lies in the window of one day and its [duracion] is its length. *)
Definition en_un_dia (minutos_por_dia : Z) (p : Parte) : Prop :=
  (∃ k, k * minutos_por_dia <= inicio p ∧ fin p <= (k + 1) * minutos_por_dia)
  ∧ inicio p <= fin p
  ∧ duracion p = fin p - inicio p.

Definition suma_duraciones (partes : list Parte) : Z :=
  fold_right Z.add 0 (map duracion partes).

(** A shift from 08:00 to 17:00 with 480 effective minutes per day. *)
Definition turno_hasta_las_17 : SessionState :=
  {| hora_inicio := Some (mk_time 8 0);
     hora_fin := Some (mk_time 17 0);
     minutos_por_dia_laboral := Some 480 |}.

(** Minutes from midnight of a time of day. *)
Definition minutos_del_reloj (t : dt_time) : Z := hour t * 60 + minute t.

(** A value that [datetime.time(hour, minute)] accepts. *)
Definition hora_valida (t : dt_time) : Prop :=
  0 <= hour t <= 23 ∧ 0 <= minute t <= 59.

(** The session state holds times of day, where it holds them. *)
Definition sesion_valida (st : SessionState) : Prop :=
  hora_valida (default (mk_time 8 0) (hora_inicio st))
  ∧ hora_valida (default (mk_time 18 0) (hora_fin st)).

(** What a part of [dividir_tarea_en_partes] and an entry of
    [obtener_datos_programacion_detallada] have in common: duration, number,
    split mark and day, and the clock times printed for the part's bounds. *)
Definition misma_parte (st : SessionState) (minutos_por_dia : Z)
    (p : Parte) (d : ParteDetallada) : Prop :=
  duracion_planificada d = duracion p
  ∧ det_parte_numero d = parte_numero p
  ∧ det_es_dividida d = es_dividida p
  ∧ dia_numero d = inicio p / minutos_por_dia
  ∧ (∃ inicio_real,
       minutos_a_hora_dia st (Some (inicio p)) (Some minutos_por_dia)
       = Termina inicio_real
       ∧ inicio_planificado d = strftime_HM inicio_real)
  ∧ (∃ fin_real,
       (if es_dividida p
        then fin_real_de st (fin p) minutos_por_dia
        else minutos_a_hora_dia st (Some (fin p)) (Some minutos_por_dia))
       = Termina fin_real
       ∧ fin_planificado d = strftime_HM fin_real).

(** The keys of the dictionary [tarea_info] that depend on the split, as
    [guardar_simulacion_con_tareas_divididas] passes them to
    [crear_tarea_planificada] when it is given no processed data. *)
Record TareaInfo : Type := mkTareaInfo {
  info_tarea_id : string;
  info_inicio_planificado : Z;
  info_fin_planificado : Z;
  info_duracion_planificada : Z;
  info_es_dividida : bool;
  info_parte_numero : option Z
}.

(** [for i, parte in enumerate(partes_tarea)]: one dictionary per part. *)
Definition tareas_info_de (tarea_id : string) (partes_tarea : list Parte)
  : list TareaInfo :=
  let varias := (1 <? length partes_tarea)%nat in
  imap (λ i parte,
          {| info_tarea_id :=
               if varias
               then tarea_id +:+ ".P" +:+ Cadenas.str_de_entero (Z.of_nat i + 1)
               else tarea_id;
             info_inicio_planificado := inicio parte;
             info_fin_planificado := fin parte;
             info_duracion_planificada := duracion parte;
             info_es_dividida := varias;
             info_parte_numero :=
               if varias then Some (Z.of_nat i + 1) else None |})
       partes_tarea.

(** What [guardar_simulacion_con_tareas_divididas] stores for one assignment
    of the solver whose task is known. *)
Definition guardar_asignacion (combustible : nat) (tarea_id : string)
    (asig : Asignacion) (minutos_por_dia : Z) : Salida (list TareaInfo) :=
  partes_tarea ← dividir_tarea_en_partes combustible asig minutos_por_dia;
  Termina (tareas_info_de tarea_id partes_tarea).

(** The keys of [tarea_info] in [guardar_programacion_desde_resultado] that
    depend on the split. *)
Record FilaResultado : Type := mkFilaResultado {
  res_tarea_id : string;
  res_duracion_planificada : Z;
  res_inicio_planificado : Z;
  res_fin_planificado : Z;
  res_dia_semana : Z;
  res_es_dividida : bool;
  res_parte_numero : Z
}.

(** [for parte in partes_tarea: ... tarea_info = {...}]: the value of the
    variable [tarea_info] when the loop ends; it keeps its earlier value when
    there is no part. *)
Definition tarea_info_tras (tarea_id : string) (minutos_por_dia : Z)
    (partes_tarea : list Parte) (tarea_info : option FilaResultado)
  : option FilaResultado :=
  fold_left
    (λ _ parte,
       Some {| res_tarea_id := tarea_id;
               res_duracion_planificada := duracion parte;
               res_inicio_planificado := inicio parte;
               res_fin_planificado := fin parte;
               res_dia_semana := inicio parte / minutos_por_dia;
               res_es_dividida := es_dividida parte;
               res_parte_numero := parte_numero parte |})
    partes_tarea tarea_info.

(** The loop [for asig in resultado['solucion']['programacion']] of
    [guardar_programacion_desde_resultado] when it is given no processed
    data: [crear_tarea_planificada] is called after the inner loop, once per
    assignment, with the current [tarea_info]. The result [None] is the
    [UnboundLocalError] of reading [tarea_info] before any part has bound it. *)
Fixpoint guardar_asignaciones (combustible : nat) (minutos_por_dia : Z)
    (asignaciones : list (string * Asignacion))
    (tarea_info : option FilaResultado)
  : Salida (option (list FilaResultado)) :=
  match asignaciones with
  | [] => Termina (Some [])
  | (tarea_id, asig) :: resto =>
      partes_tarea ← dividir_tarea_en_partes combustible asig minutos_por_dia;
      match tarea_info_tras tarea_id minutos_por_dia partes_tarea tarea_info with
      | None => Termina None
      | Some fila =>
          guardadas ← guardar_asignaciones combustible minutos_por_dia resto
                        (Some fila);
          Termina ((fila ::.) <$> guardadas)
      end
  end.

(** A day boundary falls strictly inside the assignment. *)
Definition cruza_un_dia (asig : Asignacion) (minutos_por_dia : Z) : Prop :=
  (asig_inicio asig / minutos_por_dia + 1) * minutos_por_dia < asig_fin asig.

#[global] Instance cruza_un_dia_dec (asig : Asignacion) (minutos_por_dia : Z)
  : Decision (cruza_un_dia asig minutos_por_dia).
Proof. unfold cruza_un_dia. apply _. Defined.

End Calendario.

(** ** 4. KPI calculator ([utils/kpi_calculator.py])

    Python floats are taken as exact rationals ([Q]); rounding of the float
    operations is not followed. *)

Module KPI.

Import Cadenas.

(** A key of the dictionary of one execution: absent, bound to [None], or
    bound to a value. *)
Inductive Campo (A : Type) : Type :=
| Ausente
| Nulo
| Valor (a : A).
Arguments Ausente {A}.
Arguments Nulo {A}.
Arguments Valor {A} a.

(** [e.get(k)] *)
Definition get {A : Type} (c : Campo A) : option A :=
  match c with
  | Valor a => Some a
  | _ => None
  end.

(** [e.get(k, d)]: the default only replaces an absent key. *)
Definition get_con {A : Type} (c : Campo A) (d : A) : option A :=
  match c with
  | Ausente => Some d
  | Nulo => None
  | Valor a => Some a
  end.

(** The keys the calculator reads from an execution joined with its planned
    task. Real datetimes are microseconds since an epoch. *)
Record Ejecucion : Type := mkEjecucion {
  inicio_hora : Campo string;
  fin_hora : Campo string;
  dia_semana : Campo Z;
  inicio_real : Campo Z;
  fin_real : Campo Z;
  duracion_real : Campo Z;
  duracion_planificada : Campo Z;
  desviacion_duracion : Campo Z;
  tiempo_paradas : Campo Z;
  problemas_encontrados : Campo string;
  maquina_usada : Campo string;
  maquina_planificada : Campo string
}.

(** The attributes set by [KPIExporter.__init__]. *)
Record KPIExporter : Type := mkKPIExporter {
  dias_laborales : Z;
  minutos_por_dia : Z;
  num_maquinas : Z
}.

Definition Q100 : Q := inject_Z 100.

(** [calcular_oee(disponibilidad, rendimiento, calidad)]. *)
Definition calcular_oee (disponibilidad rendimiento calidad : Q) : Q :=
  (disponibilidad * rendimiento * calidad / inject_Z 10000)%Q.

(** [sum(e.get(k, 0) for e in ejecuciones if e.get(k) is not None)] *)
Definition suma_no_nulos (campo : Ejecucion → Campo Z) (l : list Ejecucion) : Z :=
  fold_right Z.add 0 (omap (λ e, get (campo e)) l).

(** [_calcular_disponibilidad(ejecuciones)]. *)
Definition _calcular_disponibilidad (ejecuciones : list Ejecucion) : Q :=
  match ejecuciones with
  | [] => 0%Q
  | _ =>
      let tiempo_planificado_total := suma_no_nulos duracion_planificada ejecuciones in
      let tiempo_paradas_total := suma_no_nulos tiempo_paradas ejecuciones in
      let tiempo_produccion_real :=
        Z.max 0 (tiempo_planificado_total - tiempo_paradas_total) in
      if 0 <? tiempo_planificado_total then
        let disponibilidad :=
          (inject_Z tiempo_produccion_real / inject_Z tiempo_planificado_total
           * Q100)%Q in
        Qmin Q100 (Qmax 0%Q disponibilidad)
      else Q100
  end.

(** The condition counted by [_calcular_calidad]: no problem text, or a text
    of whitespace only. *)
Definition sin_problemas (e : Ejecucion) : bool :=
  match get (problemas_encontrados e) with
  | None => true
  | Some s => String.eqb s "" || (String.length (strip s) =? 0)%nat
  end.

(** [_calcular_calidad(ejecuciones)]. *)
Definition _calcular_calidad (ejecuciones : list Ejecucion) : Q :=
  match ejecuciones with
  | [] => 0%Q
  | _ =>
      let total := Z.of_nat (length ejecuciones) in
      let tareas_sin_problemas := Z.of_nat (length (filter (λ e, sin_problemas e = true) ejecuciones)) in
      if 0 <? total then (inject_Z tareas_sin_problemas / inject_Z total * Q100)%Q
      else Q100
  end.

(** Days before January 1st of year [y] in the proleptic Gregorian calendar
    ([date.toordinal] of that day, minus one). *)
Definition dias_antes_de_anio (y : Z) : Z :=
  let a := y - 1 in a * 365 + a / 4 - a / 100 + a / 400.

(** [date.max.toordinal()] and the largest [timedelta.days]. *)
Definition ordinal_max : Z := 3652059.
Definition delta_max : Z := 999999999.

Definition fecha_valida (o : Z) : bool := (1 <=? o) && (o <=? ordinal_max).
Definition delta_valido (d : Z) : bool := Z.abs d <=? delta_max.

(** [_construir_datetime_planificado(inicio_hora, dia_semana, semana, anio)]:
    the datetime as minutes from ordinal day 0, [None] when the function
    returns [None] (every exception is caught there). *)
Definition _construir_datetime_planificado (inicio_hora : string)
    (dia_semana semana_produccion anio : Z) : option Z :=
  if String.eqb inicio_hora "" || negb (contiene ":"%char inicio_hora) then None
  else
    match map int_de_cadena (split ":"%char inicio_hora) with
    | [Some h; Some m] =>
        if negb ((1 <=? anio) && (anio <=? 9999)) then None else
        let fecha_semana_1 := dias_antes_de_anio anio + 4 in
        let lunes_semana_1 := fecha_semana_1 - (fecha_semana_1 + 6) mod 7 in
        let semanas_desde_semana_1 := semana_produccion - 1 in
        let lunes_semana_produccion := lunes_semana_1 + semanas_desde_semana_1 * 7 in
        let fecha_completa := lunes_semana_produccion + dia_semana in
        if fecha_valida lunes_semana_1
           && delta_valido (semanas_desde_semana_1 * 7)
           && fecha_valida lunes_semana_produccion
           && delta_valido dia_semana
           && fecha_valida fecha_completa
           && (0 <=? h) && (h <=? 23) && (0 <=? m) && (m <=? 59)
        then Some (fecha_completa * 1440 + h * 60 + m)
        else None
    | _ => None
    end.

(** Truthiness of an optional integer argument ([semana_produccion and anio]). *)
Definition cierto (x : option Z) : bool :=
  match x with
  | Some v => negb (v =? 0)
  | None => false
  end.

Definition cadena_cierta (c : Campo string) : option string :=
  match c with
  | Valor s => if String.eqb s "" then None else Some s
  | _ => None
  end.

(** The planned total duration, in minutes, rebuilt from [inicio_hora] and
    [fin_hora]; [None] when the keys are missing or a datetime cannot be
    built. *)
Definition dur_plan_total (e : Ejecucion) (semana_produccion anio : option Z)
  : option Z :=
  match cadena_cierta (inicio_hora e), cadena_cierta (fin_hora e),
        get (dia_semana e), semana_produccion, anio with
  | Some ih, Some fh, Some ds, Some sem, Some an =>
      if cierto semana_produccion && cierto anio then
        match _construir_datetime_planificado ih ds sem an,
              _construir_datetime_planificado fh ds sem an with
        | Some inicio_plan_dt, Some fin_plan_dt => Some (fin_plan_dt - inicio_plan_dt)
        | _, _ => None
        end
      else None
  | _, _, _, _, _ => None
  end.

(** [_calcular_rendimiento(ejecuciones, semana_produccion, anio)]. *)
Definition _calcular_rendimiento (ejecuciones : list Ejecucion)
    (semana_produccion anio : option Z) : Q :=
  match ejecuciones with
  | [] => 0%Q
  | _ =>
      let tiempo_real_total := suma_no_nulos duracion_real ejecuciones in
      let desde_horas :=
        fold_left (λ acc e, match dur_plan_total e semana_produccion anio with
                            | Some d => acc + d
                            | None => acc
                            end) ejecuciones 0 in
      let tiempo_planificado_total :=
        if desde_horas =? 0 then suma_no_nulos duracion_planificada ejecuciones
        else desde_horas in
      if 0 <? tiempo_real_total then
        (inject_Z tiempo_planificado_total / inject_Z tiempo_real_total * Q100)%Q
      else Q100
  end.

(** [e.get('tiempo_paradas', 0) or 0] *)
Definition paradas_o_cero (e : Ejecucion) : Z :=
  match get (tiempo_paradas e) with
  | Some v => v
  | None => 0
  end.

(** Real total duration in minutes: the stored [duracion_real], else the
    difference of the real datetimes. *)
Definition dur_real_total (e : Ejecucion) : option Q :=
  match get (duracion_real e) with
  | Some d => Some (inject_Z d)
  | None =>
      match get (inicio_real e), get (fin_real e) with
      | Some i, Some f => Some (inject_Z (f - i) / inject_Z 60000000)%Q
      | _, _ => None
      end
  end.

(** The deviation [desv] that [calcular_cumplimiento_plazos] derives for one
    execution. *)
Definition desviacion (e : Ejecucion) (semana_produccion anio : option Z) : Q :=
  let prioridad_1 :=
    match dur_plan_total e semana_produccion anio with
    | Some plan =>
        match dur_real_total e with
        | Some real =>
            Some (Qmax 0%Q (real - inject_Z (paradas_o_cero e)) - inject_Z plan)%Q
        | None => None
        end
    | None => None
    end in
  match prioridad_1 with
  | Some d => d
  | None =>
      match get (duracion_planificada e), get (duracion_real e) with
      | Some dur_plan_bd, Some dur_real_bd =>
          inject_Z (Z.max 0 (dur_real_bd - paradas_o_cero e) - dur_plan_bd)
      | _, _ => 0%Q
      end
  end.

(** How one execution is counted. *)
Inductive Puntualidad : Type :=
| A_TIEMPO
| CON_RETRASO
| ADELANTADA.

#[global] Instance Puntualidad_eq_dec : EqDecision Puntualidad.
Proof. solve_decision. Defined.

Definition clasificar (desv : Q) (tolerancia_minutos : Z) : Puntualidad :=
  if Qeq_bool desv 0%Q || Qle_bool (Qabs desv) (inject_Z tolerancia_minutos)
  then A_TIEMPO
  else if negb (Qle_bool desv (inject_Z tolerancia_minutos)) then CON_RETRASO
  else ADELANTADA.

(** The dictionary returned by [calcular_cumplimiento_plazos]. *)
Record Cumplimiento : Type := mkCumplimiento {
  otif_porcentaje : Q;
  tareas_a_tiempo : Z;
  tareas_retrasadas : Z;
  tareas_adelantadas : Z;
  total_tareas : Z;
  tolerancia_usada : Z
}.

Definition contar (p : Puntualidad) (l : list Puntualidad) : Z :=
  Z.of_nat (length (filter (λ x, x = p) l)).

(** [calcular_cumplimiento_plazos(ejecuciones, tolerancia_minutos, semana, anio)]. *)
Definition calcular_cumplimiento_plazos (ejecuciones : list Ejecucion)
    (tolerancia_minutos : Z) (semana_produccion anio : option Z) : Cumplimiento :=
  match ejecuciones with
  | [] =>
      {| otif_porcentaje := 0%Q;
         tareas_a_tiempo := 0;
         tareas_retrasadas := 0;
         tareas_adelantadas := 0;
         total_tareas := 0;
         tolerancia_usada := tolerancia_minutos |}
  | _ =>
      let total := Z.of_nat (length ejecuciones) in
      let clases :=
        map (λ e, clasificar (desviacion e semana_produccion anio) tolerancia_minutos)
            ejecuciones in
      let a_tiempo := contar A_TIEMPO clases in
      {| otif_porcentaje :=
           if 0 <? total then (inject_Z a_tiempo / inject_Z total * Q100)%Q
           else 0%Q;
         tareas_a_tiempo := a_tiempo;
         tareas_retrasadas := contar CON_RETRASO clases;
         tareas_adelantadas := contar ADELANTADA clases;
         total_tareas := total;
         tolerancia_usada := tolerancia_minutos |}
  end.

(** The per-machine accumulators of [calcular_eficiencia_machines]. *)
Record Acumulado : Type := mkAcumulado {
  tiempo_productivo : Z;
  tiempo_planificado : Z;
  tiempo_setup : Z;
  num_tareas : Z
}.

(** The per-machine entry once the percentages are added. *)
Record DatosMaquina : Type := mkDatosMaquina {
  acumulado : Acumulado;
  eficiencia : Q;
  tiempo_ocioso : Z;
  tiempo_total : Z;
  utilizacion_total : Q;
  utilizacion_productiva : Q;
  utilizacion_setup : Q;
  utilizacion_ociosa : Q
}.

(** [ejec.get('maquina_usada') or ejec.get('maquina_planificada')], [None]
    when the result is falsy. *)
Definition maquina_de (e : Ejecucion) : option string :=
  match cadena_cierta (maquina_usada e) with
  | Some m => Some m
  | None => cadena_cierta (maquina_planificada e)
  end.

(** [maquinas[maq][...] += ...] on a dictionary kept in insertion order. *)
Fixpoint acumular (maq : string) (dur_real dur_plan paradas : Z)
    (maquinas : list (string * Acumulado)) : list (string * Acumulado) :=
  match maquinas with
  | [] => [(maq, {| tiempo_productivo := 0 + dur_real;
                    tiempo_planificado := 0 + dur_plan;
                    tiempo_setup := 0 + paradas;
                    num_tareas := 0 + 1 |})]
  | (k, a) :: resto =>
      if String.eqb k maq then
        (k, {| tiempo_productivo := tiempo_productivo a + dur_real;
               tiempo_planificado := tiempo_planificado a + dur_plan;
               tiempo_setup := tiempo_setup a + paradas;
               num_tareas := num_tareas a + 1 |}) :: resto
      else (k, a) :: acumular maq dur_real dur_plan paradas resto
  end.

(** The accumulation loop; [None] is the [TypeError] of adding [None]. *)
Fixpoint acumular_todas (ejecuciones : list Ejecucion)
    (maquinas : list (string * Acumulado)) : option (list (string * Acumulado)) :=
  match ejecuciones with
  | [] => Some maquinas
  | ejec :: resto =>
      match maquina_de ejec with
      | None => acumular_todas resto maquinas
      | Some maq =>
          match get_con (duracion_real ejec) 0,
                get_con (duracion_planificada ejec) 0,
                get_con (tiempo_paradas ejec) 0 with
          | Some dur_real, Some dur_plan, Some paradas =>
              acumular_todas resto (acumular maq dur_real dur_plan paradas maquinas)
          | _, _, _ => None
          end
      end
  end.

(** The percentages of one machine against the configured capacity. *)
Definition completar (k : KPIExporter) (data : Acumulado) : DatosMaquina :=
  let tiempo_disponible_maq := dias_laborales k * minutos_por_dia k in
  let ocioso :=
    Z.max 0 (tiempo_disponible_maq - tiempo_productivo data - tiempo_setup data) in
  let sobre (x : Z) (si_no : Q) : Q :=
    if 0 <? tiempo_disponible_maq
    then (inject_Z x / inject_Z tiempo_disponible_maq * Q100)%Q
    else si_no in
  {| acumulado := data;
     eficiencia :=
       if 0 <? tiempo_productivo data
       then (inject_Z (tiempo_planificado data) / inject_Z (tiempo_productivo data)
             * Q100)%Q
       else Q100;
     tiempo_ocioso := ocioso;
     tiempo_total := tiempo_disponible_maq;
     utilizacion_total := sobre (tiempo_productivo data + tiempo_setup data) 0%Q;
     utilizacion_productiva := sobre (tiempo_productivo data) 0%Q;
     utilizacion_setup := sobre (tiempo_setup data) 0%Q;
     utilizacion_ociosa := sobre ocioso Q100 |}.

(** [calcular_eficiencia_machines(ejecuciones)]. *)
Definition calcular_eficiencia_machines (k : KPIExporter)
    (ejecuciones : list Ejecucion) : option (list (string * DatosMaquina)) :=
  match ejecuciones with
  | [] => Some []
  | _ =>
      maquinas ← acumular_todas ejecuciones [];
      Some (map (λ '(maq, data), (maq, completar k data)) maquinas)
  end.

(** The OEE that [calcular_metricas_completas] derives from the three
    factors, before it is rounded for display. *)
Definition oee_global (ejecuciones : list Ejecucion)
    (semana_produccion anio : option Z) : Q :=
  calcular_oee (_calcular_disponibilidad ejecuciones)
               (_calcular_rendimiento ejecuciones semana_produccion anio)
               (_calcular_calidad ejecuciones).

(** A percentage. *)
Definition en_porcentaje (x : Q) : Prop := (0 <= x)%Q ∧ (x <= Q100)%Q.

Definition no_negativo (c : Campo Z) : Prop :=
  match c with
  | Valor v => 0 <= v
  | _ => True
  end.

(** The record holds durations as the data model has them: none is
    negative, and the planned end is not before the planned start. *)
Definition bien_formada (semana_produccion anio : option Z) (e : Ejecucion)
  : Prop :=
  no_negativo (duracion_real e)
  ∧ no_negativo (duracion_planificada e)
  ∧ no_negativo (tiempo_paradas e)
  ∧ match dur_plan_total e semana_produccion anio with
    | Some d => 0 <= d
    | None => True
    end.

(** A task planned from 08:00 to 09:40 on Monday and done in 50 minutes,
    without stops or problems. *)
Definition ejecucion_rapida : Ejecucion :=
  {| inicio_hora := Valor "08:00";
     fin_hora := Valor "09:40";
     dia_semana := Valor 0;
     inicio_real := Nulo;
     fin_real := Nulo;
     duracion_real := Valor 50;
     duracion_planificada := Valor 100;
     desviacion_duracion := Valor (-50);
     tiempo_paradas := Valor 0;
     problemas_encontrados := Valor "";
     maquina_usada := Valor "M1";
     maquina_planificada := Valor "M1" |}.

(** A task planned for 8 hours that took 3200 minutes, over several days. *)
Definition ejecucion_larga : Ejecucion :=
  {| inicio_hora := Valor "08:00";
     fin_hora := Valor "16:00";
     dia_semana := Valor 0;
     inicio_real := Nulo;
     fin_real := Nulo;
     duracion_real := Valor 3200;
     duracion_planificada := Valor 480;
     desviacion_duracion := Valor 2720;
     tiempo_paradas := Valor 0;
     problemas_encontrados := Valor "";
     maquina_usada := Valor "M1";
     maquina_planificada := Valor "M1" |}.

(** The calculator with its default capacity: 5 days of 600 minutes. *)
Definition calculadora : KPIExporter :=
  {| dias_laborales := 5; minutos_por_dia := 600; num_maquinas := 3 |}.

(** Scenarios S5 and S6: a task planned from 08:00 to 09:00 on Monday,
    executed in [real] minutes with [paradas] minutes stopped. *)
Definition ejecucion_de_una_hora (real paradas : Z) : Ejecucion :=
  {| inicio_hora := Valor "08:00";
     fin_hora := Valor "09:00";
     dia_semana := Valor 0;
     inicio_real := Nulo;
     fin_real := Nulo;
     duracion_real := Valor real;
     duracion_planificada := Valor 60;
     desviacion_duracion := Nulo;
     tiempo_paradas := Valor paradas;
     problemas_encontrados := Valor "";
     maquina_usada := Valor "M1";
     maquina_planificada := Valor "M1" |}.

Definition ejecuciones_S5 : list Ejecucion :=
  repeat (ejecucion_de_una_hora 63 0) 9 ++ [ejecucion_de_una_hora 80 0].

Definition ejecuciones_S6 : list Ejecucion :=
  repeat (ejecucion_de_una_hora 60 5) 4.

(** Accumulated times that are not negative. *)
Definition tiempos_no_negativos (x : string * Acumulado) : Prop :=
  0 <= tiempo_productivo x.2 ∧ 0 <= tiempo_setup x.2.

(** [maquinas.get(maq)] on the dictionary kept in insertion order. *)
Fixpoint entrada_de (maq : string) (maquinas : list (string * Acumulado))
  : option Acumulado :=
  match maquinas with
  | [] => None
  | (k, a) :: resto =>
      if String.eqb k maq then Some a else entrada_de maq resto
  end.

(** An execution with a machine whose real duration, planned duration or
    stop time is bound to [None]. *)
Definition con_dato_nulo (e : Ejecucion) : Prop :=
  is_Some (maquina_de e)
  ∧ (duracion_real e = Nulo ∨ duracion_planificada e = Nulo
     ∨ tiempo_paradas e = Nulo).

(** [max((data['tiempo_productivo'] for data in maquinas.values()), default=0)] *)
Definition max_tiempo_productivo (maquinas : list (string * DatosMaquina)) : Z :=
  match map (λ x, tiempo_productivo (acumulado x.2)) maquinas with
  | [] => 0
  | t :: resto => fold_left Z.max resto t
  end.

(** The test of the loop of [identificar_cuellos_botella]. *)
Definition es_cuello (max_tiempo : Z) (x : string * DatosMaquina) : bool :=
  negb (Qle_bool (utilizacion_total x.2) (inject_Z 85))
  && (tiempo_productivo (acumulado x.2) =? max_tiempo).

(** [identificar_cuellos_botella(ejecuciones)]; the outer [None] is the
    [TypeError] of [calcular_eficiencia_machines]. *)
Definition identificar_cuellos_botella (k : KPIExporter)
    (ejecuciones : list Ejecucion) : option (option string) :=
  maquinas ← calcular_eficiencia_machines k ejecuciones;
  match maquinas with
  | [] => Some None
  | _ =>
      let max_tiempo := max_tiempo_productivo maquinas in
      Some (fst <$> find (es_cuello max_tiempo) maquinas)
  end.

End KPI.

(** ** 5. The CP-SAT model of [OptimizadorProduccion.crear_modelo]

    A candidate solution gives a value to every variable the builder may
    create; each [self.model.Add(...)] and each variable domain is a boolean
    test on the candidate, and [self.model.Minimize(e)] names the
    expression that an optimal solution makes least. *)

Module Optimizador.

Import Cadenas.

(** One row of [tareas_df]. [trabajo] is [None] when the column is absent or
    NaN; [tiempo_setup] is [0] when the column is absent. *)
Record Tarea : Type := mkTarea {
  id : string;
  trabajo : option string;
  duracion : Z;
  tiempo_setup : Z;
  maquina : string
}.

Definition tarea_vacia : Tarea :=
  {| id := ""; trabajo := None; duracion := 0; tiempo_setup := 0; maquina := "" |}.

(** [tareas_df.iloc[i]] *)
Definition iloc (tareas_df : list Tarea) (i : nat) : Tarea :=
  nth i tareas_df tarea_vacia.

(** [spec in ['M?', 'CUALQUIERA', '?']] *)
Definition es_comodin (spec : string) : bool :=
  bool_decide (spec ∈ ["M?"; "CUALQUIERA"; "?"]).

(** [',' in str(spec)] *)
Definition tiene_coma (spec : string) : bool := contiene ","%char spec.

(** A set of strings kept in the order [sorted] gives. *)
Fixpoint insertar (x : string) (l : list string) : list string :=
  match l with
  | [] => [x]
  | y :: r =>
      match String.compare x y with
      | Lt => x :: l
      | Eq => l
      | Gt => y :: insertar x r
      end
  end.

(** [sorted(tareas_df['maquina'].unique().tolist())] *)
Definition maquinas_disponibles (tareas_df : list Tarea) : list string :=
  fold_right insertar [] (map maquina tareas_df).

(** [[m.strip() for m in str(maq).split(',')]] *)
Definition lista_de (maq : string) : list string :=
  map strip (split ","%char maq).

(** The set [todas_las_maquinas], then its default, sorted. *)
Definition maquinas_fijas (tareas_df : list Tarea) : list string :=
  let todas_las_maquinas :=
    fold_left
      (λ todas maq,
         if es_comodin maq then todas
         else if tiene_coma maq then fold_right insertar todas (lista_de maq)
         else insertar maq todas)
      (maquinas_disponibles tareas_df) [] in
  match todas_las_maquinas with
  | [] => ["M1"; "M2"; "M3"]
  | _ => todas_las_maquinas
  end.

(** [l.index(m)], for an [m] of the list. *)
Fixpoint indice (m : string) (l : list string) : option Z :=
  match l with
  | [] => None
  | y :: r => if String.eqb y m then Some 0 else Z.succ <$> indice m r
  end.

(** [list(range(len(maquinas_fijas)))] *)
Definition todos_los_indices (fijas : list string) : list Z :=
  map Z.of_nat (seq 0 (length fijas)).

(** [maquinas_permitidas_por_tarea[i]]. *)
Definition maquinas_permitidas (fijas : list string) (maquina_spec : string)
  : list Z :=
  if es_comodin maquina_spec then todos_los_indices fijas
  else if tiene_coma maquina_spec then
    match omap (λ m, indice m fijas) (lista_de maquina_spec) with
    | [] => todos_los_indices fijas
    | permitidas => permitidas
    end
  else
    match indice maquina_spec fijas with
    | Some k => [k]
    | None => todos_los_indices fijas
    end.

(** The decision variables every objective shares. The pair variables are
    indexed by [(i, j)] with [i < j]. *)
Record Nucleo : Type := mkNucleo {
  start_time : nat → Z;
  end_time : nat → Z;
  operator_assignment : nat → Z;
  machine_var : nat → Z;
  same_machine : nat → nat → bool;
  task_i_before_j : nat → nat → bool;
  task_j_before_i : nat → nat → bool;
  same_operator : nat → nat → bool;
  before : nat → nat → bool;
  after : nat → nat → bool
}.

(** [machine_assignment[i]]: the constant when one machine is allowed, the
    variable [machine_i] otherwise. *)
Definition machine_assignment (permitidas : list Z) (x : Nucleo) (i : nat) : Z :=
  match permitidas with
  | [k] => k
  | _ => machine_var x i
  end.

(** [b.OnlyEnforceIf(lit)]: the test holds or the literal is false. *)
Definition solo_si (lit test : bool) : bool := negb lit || test.

Definition Z_de_bool (b : bool) : Z := if b then 1 else 0.

Definition en_rango (lo hi v : Z) : bool := (lo <=? v) && (v <=? hi).

(** Python truthiness of [num_operadores]. *)
Definition hay_operadores (num_operadores : option Z) : option Z :=
  match num_operadores with
  | Some k => if k =? 0 then None else Some k
  | None => None
  end.

(** A constraint on the shared variables. *)
Definition Restriccion : Type := Nucleo → bool.

Fixpoint minimo (l : list Z) : Z :=
  match l with
  | [] => 0
  | [x] => x
  | x :: r => Z.min x (minimo r)
  end.

Fixpoint maximo (l : list Z) : Z :=
  match l with
  | [] => 0
  | [x] => x
  | x :: r => Z.max x (maximo r)
  end.

(** [for i in range(n): for j in range(i + 1, n): ...] *)
Definition pares {A : Type} (n : nat) (f : nat → nat → list A) : list A :=
  flat_map (λ i, flat_map (f i) (seq (S i) (n - S i))) (seq 0 n).

(** All digits of a non-empty tail, up to the end of the string (or to a
    final newline, where [$] also matches). *)
Fixpoint digitos_hasta_el_fin (acc : Z) (visto : bool) (s : string) : option Z :=
  match s with
  | EmptyString => if visto then Some acc else None
  | String c r =>
      match digito c with
      | Some d => digitos_hasta_el_fin (acc * 10 + d) true r
      | None =>
          if visto && Ascii.eqb c (ascii_of_nat 10) && String.eqb r ""
          then Some acc else None
      end
  end.

(** [re.search(r'-(\d+)$', s)] *)
Fixpoint buscar_guion (s : string) : option Z :=
  match s with
  | EmptyString => None
  | String c r =>
      if Ascii.eqb c "-"%char then
        match digitos_hasta_el_fin 0 false r with
        | Some v => Some v
        | None => buscar_guion r
        end
      else buscar_guion r
  end.

(** The digits at the head of a string. *)
Fixpoint leer_prefijo (acc : Z) (s : string) : Z :=
  match s with
  | EmptyString => acc
  | String c r =>
      match digito c with
      | Some d => leer_prefijo (acc * 10 + d) r
      | None => acc
      end
  end.

(** [re.search(r'\d+', s)] *)
Fixpoint buscar_digitos (s : string) : option Z :=
  match s with
  | EmptyString => None
  | String c r =>
      match digito c with
      | Some _ => Some (leer_prefijo 0 s)
      | None => buscar_digitos r
      end
  end.

(** [extraer_subindice]: the sort key of a task inside its job. *)
Definition extraer_subindice (tarea_id : string) : Z :=
  if contiene "-"%char tarea_id then default 0 (buscar_guion tarea_id)
  else default 0 (buscar_digitos tarea_id).

(** The key under which a task is grouped, [None] when it is falsy. *)
Definition trabajo_id_de (t : Tarea) : option string :=
  let clave :=
    match trabajo t with
    | Some s => Some s
    | None =>
        match id t with
        | String c _ => Some (String c EmptyString)
        | EmptyString => None
        end
    end in
  match clave with
  | Some s => if String.eqb s "" then None else Some s
  | None => None
  end.

(** [trabajos[trabajo_id].append(i)] on a dictionary in insertion order. *)
Fixpoint agregar (k : string) (i : nat) (g : list (string * list nat))
  : list (string * list nat) :=
  match g with
  | [] => [(k, [i])]
  | (k', l) :: r =>
      if String.eqb k' k then (k', (l ++ [i])%list) :: r
      else (k', l) :: agregar k i r
  end.

(** Stable insertion by key, the order [sorted(..., key=...)] gives. *)
Fixpoint insertar_por (clave : nat → Z) (i : nat) (l : list nat) : list nat :=
  match l with
  | [] => [i]
  | j :: r => if clave i <=? clave j then i :: l else j :: insertar_por clave i r
  end.

Definition ordenar_por (clave : nat → Z) (l : list nat) : list nat :=
  fold_right (insertar_por clave) [] l.

(** [end_time[k] <= start_time[k + 1]] along a sorted job. *)
Fixpoint consecutivas (l : list nat) : list Restriccion :=
  match l with
  | a :: ((b :: _) as r) =>
      (λ x, end_time x a <=? start_time x b) :: consecutivas r
  | _ => []
  end.

Section Comunes.

Variable tareas_df : list Tarea.
Variable num_operadores : option Z.
Variable horizon : Z.

Definition num_tareas : nat := length tareas_df.

Definition permitidas (i : nat) : list Z :=
  maquinas_permitidas (maquinas_fijas tareas_df) (maquina (iloc tareas_df i)).

(** The variables of task [i] with their domains. *)
Definition variables_de (i : nat) : list Restriccion :=
  [ (λ x, en_rango 0 horizon (start_time x i));
    (λ x, en_rango 0 horizon (end_time x i)) ]
  ++ match hay_operadores num_operadores with
     | Some k => [ λ x, en_rango 0 (k - 1) (operator_assignment x i) ]
     | None => []
     end
  ++ match permitidas i with
     | [_] => []
     | p => [ (λ x, en_rango (minimo p) (maximo p) (machine_var x i));
              (λ x, bool_decide (machine_var x i ∈ p)) ]
     end.

(** [end_time[i] == start_time[i] + duracion_total] *)
Definition duracion_de (i : nat) : Restriccion :=
  let duracion_total :=
    duracion (iloc tareas_df i) + tiempo_setup (iloc tareas_df i) in
  λ x, end_time x i =? start_time x i + duracion_total.

Definition es_flexible (spec : string) : bool :=
  es_comodin spec || tiene_coma spec.

(** The body of the machine no-overlap loop for the pair [(i, j)]. *)
Definition no_superposicion_maquinas (i j : nat) : list Restriccion :=
  let maquina_i := maquina (iloc tareas_df i) in
  let maquina_j := maquina (iloc tareas_df j) in
  let ambas_misma_fija :=
    String.eqb maquina_i maquina_j
    && negb (es_flexible maquina_i) && negb (es_flexible maquina_j) in
  (if ambas_misma_fija then
     [ λ x, Z_de_bool (same_machine x i j) =? 1 ]
   else
     [ (λ x, solo_si (same_machine x i j)
               (machine_assignment (permitidas i) x i
                =? machine_assignment (permitidas j) x j));
       (λ x, solo_si (negb (same_machine x i j))
               (negb (machine_assignment (permitidas i) x i
                      =? machine_assignment (permitidas j) x j))) ])
  ++ [ (λ x, solo_si (same_machine x i j)
               (Z_de_bool (task_i_before_j x i j)
                + Z_de_bool (task_j_before_i x i j) =? 1));
       (λ x, solo_si (negb (same_machine x i j))
               (Z_de_bool (task_i_before_j x i j) =? 0));
       (λ x, solo_si (negb (same_machine x i j))
               (Z_de_bool (task_j_before_i x i j) =? 0));
       (λ x, solo_si (task_i_before_j x i j) (end_time x i <=? start_time x j));
       (λ x, solo_si (task_j_before_i x i j) (end_time x j <=? start_time x i)) ].

(** The body of the operator no-overlap loop for the pair [(i, j)]. *)
Definition no_superposicion_operadores (i j : nat) : list Restriccion :=
  [ (λ x, solo_si (same_operator x i j)
            (operator_assignment x i =? operator_assignment x j));
    (λ x, solo_si (negb (same_operator x i j))
            (negb (operator_assignment x i =? operator_assignment x j)));
    (λ x, solo_si (before x i j) (end_time x i <=? start_time x j));
    (λ x, solo_si (after x i j) (end_time x j <=? start_time x i));
    (λ x, Z_de_bool (before x i j) + Z_de_bool (after x i j)
          =? Z_de_bool (same_operator x i j)) ].

(** The dictionary [trabajos]: task indices by job, in insertion order. *)
Definition trabajos : list (string * list nat) :=
  fold_left
    (λ g i, match trabajo_id_de (iloc tareas_df i) with
            | Some k => agregar k i g
            | None => g
            end)
    (seq 0 num_tareas) [].

Definition precedencias : list Restriccion :=
  flat_map
    (λ '(_, tareas_trabajo),
       if (1 <? length tareas_trabajo)%nat then
         consecutivas
           (ordenar_por (λ i, extraer_subindice (id (iloc tareas_df i)))
                        tareas_trabajo)
       else [])
    trabajos.

(** Everything [crear_modelo] adds before it looks at [objetivo]. *)
Definition restricciones_comunes : list Restriccion :=
  flat_map variables_de (seq 0 num_tareas)
  ++ map duracion_de (seq 0 num_tareas)
  ++ pares num_tareas no_superposicion_maquinas
  ++ match hay_operadores num_operadores with
     | Some _ => pares num_tareas no_superposicion_operadores
     | None => []
     end
  ++ precedencias.

End Comunes.

(** A candidate solution: the shared variables and the auxiliary variables
    of the objectives. *)
Record Asignacion : Type := mkAsignacion {
  nucleo : Nucleo;
  makespan : Z;
  tiempo_maq : nat → Z;
  en_esta_maquina : nat → nat → bool;
  tiempo_max : Z;
  tiempo_min : Z;
  objetivo_utilizacion : Z;
  tiempo_total_ocupacion : Z;
  tiempo_ocupacion_maquina : string → Z;
  tiempo_ocioso_total : Z;
  tiempo_total_maquina : string → Z;
  tiempo_ocioso_maquina : string → Z;
  objetivo_balanceado : Z
}.

(** What [crear_modelo] leaves in [self.model]. *)
Record Modelo : Type := mkModelo {
  restricciones : list (Asignacion → bool);
  minimizar : Asignacion → Z
}.

(** [tareas_df['maquina'].unique()]: first occurrences, in order. *)
Fixpoint unique (l : list string) : list string :=
  match l with
  | [] => []
  | x :: r => x :: filter (λ y, y ≠ x) (unique r)
  end.

Definition suma (l : list Z) : Z := fold_right Z.add 0 l.

Section Objetivos.

Variable tareas_df : list Tarea.
Variable horizon : Z.

Let n : nat := num_tareas tareas_df.

(** [makespan = NewIntVar(0, horizon)] and [makespan >= end_time[i]]. *)
Definition con_makespan : list (Asignacion → bool) :=
  (λ a, en_rango 0 horizon (makespan a))
  :: map (λ i a, end_time (nucleo a) i <=? makespan a) (seq 0 n).

(** [tareas_df[tareas_df['maquina'] == maquina].index.tolist()] *)
Definition tareas_maquina (maq : string) : list nat :=
  filter (λ i, maquina (iloc tareas_df i) = maq) (seq 0 n).

(** Branch ["Maximizar utilización"]. *)
Definition objetivo_maximizar_utilizacion : Modelo :=
  let num_maquinas := length (maquinas_fijas tareas_df) in
  if (1 <? num_maquinas)%nat then
    {| restricciones :=
         con_makespan
         ++ flat_map
              (λ idx_maquina,
                 (λ a, en_rango 0 horizon (tiempo_maq a idx_maquina))
                 :: flat_map
                      (λ i,
                         [ (λ a, solo_si (en_esta_maquina a idx_maquina i)
                                   (machine_assignment (permitidas tareas_df i)
                                      (nucleo a) i
                                    =? Z.of_nat idx_maquina));
                           (λ a, solo_si (en_esta_maquina a idx_maquina i)
                                   (end_time (nucleo a) i
                                    <=? tiempo_maq a idx_maquina)) ])
                      (seq 0 n))
              (seq 0 num_maquinas)
         ++ [ (λ a, en_rango 0 horizon (tiempo_max a));
              (λ a, en_rango 0 horizon (tiempo_min a)) ]
         ++ flat_map
              (λ idx_maquina,
                 [ (λ a, tiempo_maq a idx_maquina <=? tiempo_max a);
                   (λ a, tiempo_min a <=? tiempo_maq a idx_maquina) ])
              (seq 0 num_maquinas)
         ++ [ (λ a, en_rango 0 (horizon * 100) (objetivo_utilizacion a));
              (λ a, objetivo_utilizacion a
                    =? makespan a * 5 + (tiempo_max a - tiempo_min a) * 10) ];
       minimizar := objetivo_utilizacion |}
  else
    {| restricciones := con_makespan; minimizar := makespan |}.

(** The machines whose occupation enters [suma_tiempos]. *)
Definition maquinas_con_tareas : list string :=
  filter (λ maq, tareas_maquina maq ≠ [])
         (unique (map maquina tareas_df)).

(** Branch ["Minimizar costos"]. *)
Definition objetivo_minimizar_costos : Modelo :=
  let suma_tiempos := maquinas_con_tareas in
  {| restricciones :=
       con_makespan
       ++ [ λ a, en_rango 0 (horizon * 1000) (tiempo_total_ocupacion a) ]
       ++ flat_map
            (λ maq,
               (λ a, en_rango 0 horizon (tiempo_ocupacion_maquina a maq))
               :: map (λ i a, end_time (nucleo a) i
                              <=? tiempo_ocupacion_maquina a maq)
                      (tareas_maquina maq))
            suma_tiempos
       ++ match suma_tiempos with
          | [] => []
          | _ => [ λ a, tiempo_total_ocupacion a
                        =? suma (map (tiempo_ocupacion_maquina a) suma_tiempos) ]
          end;
     minimizar :=
       match suma_tiempos with
       | [] => makespan
       | _ => tiempo_total_ocupacion
       end |}.

(** The machines with more than one task, whose idle time enters
    [suma_tiempo_ocioso]. *)
Definition maquinas_con_varias : list string :=
  filter (λ maq, (1 < length (tareas_maquina maq))%nat)
         (unique (map maquina tareas_df)).

(** [sum(tareas_df.iloc[i]['duracion'] for i in tareas_maquina)] *)
Definition tiempo_trabajo_maquina (maq : string) : Z :=
  suma (map (λ i, duracion (iloc tareas_df i)) (tareas_maquina maq)).

(** Branch ["Balanceado"]. *)
Definition objetivo_balanceado_modelo : Modelo :=
  let suma_tiempo_ocioso := maquinas_con_varias in
  {| restricciones :=
       con_makespan
       ++ [ λ a, en_rango 0 (horizon * Z.of_nat n) (tiempo_ocioso_total a) ]
       ++ flat_map
            (λ maq,
               (λ a, en_rango 0 horizon (tiempo_total_maquina a maq))
               :: map (λ i a, end_time (nucleo a) i <=? tiempo_total_maquina a maq)
                      (tareas_maquina maq)
               ++ [ (λ a, en_rango 0 horizon (tiempo_ocioso_maquina a maq));
                    (λ a, tiempo_ocioso_maquina a maq
                          =? tiempo_total_maquina a maq
                             - tiempo_trabajo_maquina maq) ])
            suma_tiempo_ocioso
       ++ match suma_tiempo_ocioso with
          | [] => []
          | _ =>
              [ (λ a, tiempo_ocioso_total a
                      =? suma (map (tiempo_ocioso_maquina a) suma_tiempo_ocioso));
                (λ a, en_rango 0 (horizon * 1000) (objetivo_balanceado a));
                (λ a, objetivo_balanceado a
                      =? makespan a * 7 + tiempo_ocioso_total a * 3) ]
          end;
     minimizar :=
       match suma_tiempo_ocioso with
       | [] => makespan
       | _ => objetivo_balanceado
       end |}.

(** Branch ["Minimizar tiempo total"], and the final [else]. *)
Definition objetivo_makespan : Modelo :=
  {| restricciones := con_makespan; minimizar := makespan |}.

(** The [if objetivo == ...] chain. *)
Definition seleccionar_objetivo (objetivo : string) : Modelo :=
  if String.eqb objetivo "Minimizar tiempo total" then objetivo_makespan
  else if String.eqb objetivo "Maximizar utilización" then
    objetivo_maximizar_utilizacion
  else if String.eqb objetivo "Minimizar costos" then objetivo_minimizar_costos
  else if String.eqb objetivo "Balanceado" then objetivo_balanceado_modelo
  else objetivo_makespan.

End Objetivos.

Definition dias_semana : list string :=
  ["Lunes"; "Martes"; "Miércoles"; "Jueves"; "Viernes"; "Sábado"; "Domingo"].

(** [int(x)] of a number: truncation towards zero. *)
Definition int_de (x : Q) : Z := Z.quot (Qnum x) (Zpos (Qden x)).

(** The horizon computed at the top of [crear_modelo]. *)
Definition horizonte (tareas_df : list Tarea)
    (dias_laborales : option (list string)) (horas_por_dia : Q) : Z :=
  match dias_laborales with
  | Some (d :: ds) =>
      let dias_laborales_num := filter (λ dia, dia ∈ dias_semana) (d :: ds) in
      let minutos_por_dia_laboral := int_de (horas_por_dia * inject_Z 60)%Q in
      Z.of_nat (length dias_laborales_num) * minutos_por_dia_laboral
  | _ =>
      let duracion_total := suma (map duracion tareas_df) in
      Z.max (24 * 60) (duracion_total * 2)
  end.

(** The model with a given horizon. *)
Definition modelo_con (tareas_df : list Tarea) (num_operadores : option Z)
    (horizon : Z) (objetivo : string) : Modelo :=
  let m := seleccionar_objetivo tareas_df horizon objetivo in
  {| restricciones :=
       map (λ (c : Restriccion) a, c (nucleo a))
           (restricciones_comunes tareas_df num_operadores horizon)
       ++ restricciones m;
     minimizar := minimizar m |}.

(** [crear_modelo(tareas_df, num_operadores, dias_laborales, objetivo,
    horas_por_dia)]. *)
Definition crear_modelo (tareas_df : list Tarea) (num_operadores : option Z)
    (dias_laborales : option (list string)) (objetivo : string)
    (horas_por_dia : Q) : Modelo :=
  modelo_con tareas_df num_operadores
    (horizonte tareas_df dias_laborales horas_por_dia) objetivo.

(** A candidate satisfies every constraint of the model. *)
Definition factible (m : Modelo) (a : Asignacion) : bool :=
  forallb (λ c, c a) (restricciones m).

(** What the solver reports as [OPTIMAL]: feasible, and no feasible
    candidate has a smaller objective. *)
Definition optimo (m : Modelo) (a : Asignacion) : Prop :=
  factible m a = true ∧
  ∀ b, factible m b = true → minimizar m a <= minimizar m b.

(** The tasks all name the one machine [m], by a plain identifier. *)
Definition una_sola_maquina (tareas_df : list Tarea) (m : string) : Prop :=
  es_flexible m = false ∧ ∀ t, In t tareas_df → maquina t = m.

(** Durations as the data model has them. *)
Definition bien_formadas (tareas_df : list Tarea) : Prop :=
  ∀ t, In t tareas_df → 0 <= duracion t ∧ 0 <= tiempo_setup t.

(** Scenario S1: job A with two tasks on machine M1. *)
Definition tareas_S1 : list Tarea :=
  [ {| id := "A1"; trabajo := Some "A"; duracion := 60; tiempo_setup := 0;
       maquina := "M1" |};
    {| id := "A2"; trabajo := Some "A"; duracion := 30; tiempo_setup := 0;
       maquina := "M1" |} ].

(** The schedule of S1: A1 on [0, 60], then A2 on [60, 90], both by the
    only operator. *)
Definition plan_S1 : Nucleo :=
  {| start_time := λ i, match i with 1%nat => 60 | _ => 0 end;
     end_time := λ i, match i with 0%nat => 60 | 1%nat => 90 | _ => 0 end;
     operator_assignment := λ _, 0;
     machine_var := λ _, 0;
     same_machine := λ _ _, true;
     task_i_before_j := λ _ _, true;
     task_j_before_i := λ _ _, false;
     same_operator := λ _ _, true;
     before := λ _ _, true;
     after := λ _ _, false |}.

Definition solucion_S1 : Asignacion :=
  {| nucleo := plan_S1;
     makespan := 90;
     tiempo_maq := λ _, 0;
     en_esta_maquina := λ _ _, false;
     tiempo_max := 0;
     tiempo_min := 0;
     objetivo_utilizacion := 0;
     tiempo_total_ocupacion := 0;
     tiempo_ocupacion_maquina := λ _, 0;
     tiempo_ocioso_total := 0;
     tiempo_total_maquina := λ _, 0;
     tiempo_ocioso_maquina := λ _, 0;
     objetivo_balanceado := 0 |}.

(** The candidate [a] passes every test of the list. *)
Definition cumple (a : Asignacion) (l : list (Asignacion → bool)) : Prop :=
  Forall (λ c, c a = true) l.

(** The shared constraints only read the shared variables. *)
Definition comunes_ok (tareas_df : list Tarea) (num_operadores : option Z)
    (horizon : Z) (x : Nucleo) : Prop :=
  Forall (λ c : Restriccion, c x = true)
         (restricciones_comunes tareas_df num_operadores horizon).

(** Every task ends by [v]. *)
Definition acotadas (n : nat) (x : Nucleo) (v : Z) : Prop :=
  ∀ i, (i < n)%nat → end_time x i <= v.

(** The optimal decisions of the model for [objetivo], as a set. *)
Definition decisiones_optimas (tareas_df : list Tarea) (num_operadores : option Z)
    (horizon : Z) (objetivo : string) (x : Nucleo) : Prop :=
  ∃ a, optimo (modelo_con tareas_df num_operadores horizon objetivo) a
       ∧ nucleo a = x.

(** A candidate of the makespan model, completed for the cost model: the
    occupation of every machine and the total are the makespan. *)
Definition para_costos (c : Asignacion) : Asignacion :=
  {| nucleo := nucleo c;
     makespan := makespan c;
     tiempo_maq := tiempo_maq c;
     en_esta_maquina := en_esta_maquina c;
     tiempo_max := tiempo_max c;
     tiempo_min := tiempo_min c;
     objetivo_utilizacion := objetivo_utilizacion c;
     tiempo_total_ocupacion := makespan c;
     tiempo_ocupacion_maquina := λ _, makespan c;
     tiempo_ocioso_total := tiempo_ocioso_total c;
     tiempo_total_maquina := tiempo_total_maquina c;
     tiempo_ocioso_maquina := tiempo_ocioso_maquina c;
     objetivo_balanceado := objetivo_balanceado c |}.

(** The same candidate with another value for [makespan]. *)
Definition con_valor_makespan (v : Z) (a : Asignacion) : Asignacion :=
  {| nucleo := nucleo a;
     makespan := v;
     tiempo_maq := tiempo_maq a;
     en_esta_maquina := en_esta_maquina a;
     tiempo_max := tiempo_max a;
     tiempo_min := tiempo_min a;
     objetivo_utilizacion := objetivo_utilizacion a;
     tiempo_total_ocupacion := tiempo_total_ocupacion a;
     tiempo_ocupacion_maquina := tiempo_ocupacion_maquina a;
     tiempo_ocioso_total := tiempo_ocioso_total a;
     tiempo_total_maquina := tiempo_total_maquina a;
     tiempo_ocioso_maquina := tiempo_ocioso_maquina a;
     objetivo_balanceado := objetivo_balanceado a |}.

(** A candidate of the makespan model, completed for the balanced model:
    the machine is busy until the makespan and idle for the makespan minus
    its work [w]. *)
Definition para_balanceado (w : Z) (c : Asignacion) : Asignacion :=
  {| nucleo := nucleo c;
     makespan := makespan c;
     tiempo_maq := tiempo_maq c;
     en_esta_maquina := en_esta_maquina c;
     tiempo_max := tiempo_max c;
     tiempo_min := tiempo_min c;
     objetivo_utilizacion := objetivo_utilizacion c;
     tiempo_total_ocupacion := tiempo_total_ocupacion c;
     tiempo_ocupacion_maquina := tiempo_ocupacion_maquina c;
     tiempo_ocioso_total := makespan c - w;
     tiempo_total_maquina := λ _, makespan c;
     tiempo_ocioso_maquina := λ _, makespan c - w;
     objetivo_balanceado := makespan c * 7 + (makespan c - w) * 3 |}.

(** The same candidate with no idle time in total. *)
Definition sin_ocio_total (c : Asignacion) : Asignacion :=
  {| nucleo := nucleo c;
     makespan := makespan c;
     tiempo_maq := tiempo_maq c;
     en_esta_maquina := en_esta_maquina c;
     tiempo_max := tiempo_max c;
     tiempo_min := tiempo_min c;
     objetivo_utilizacion := objetivo_utilizacion c;
     tiempo_total_ocupacion := tiempo_total_ocupacion c;
     tiempo_ocupacion_maquina := tiempo_ocupacion_maquina c;
     tiempo_ocioso_total := 0;
     tiempo_total_maquina := tiempo_total_maquina c;
     tiempo_ocioso_maquina := tiempo_ocioso_maquina c;
     objetivo_balanceado := objetivo_balanceado c |}.

(** A candidate of the makespan model, completed for the utilization model
    without tasks: every machine time is zero. *)
Definition para_utilizacion (c : Asignacion) : Asignacion :=
  {| nucleo := nucleo c;
     makespan := makespan c;
     tiempo_maq := λ _, 0;
     en_esta_maquina := en_esta_maquina c;
     tiempo_max := 0;
     tiempo_min := 0;
     objetivo_utilizacion := makespan c * 5;
     tiempo_total_ocupacion := tiempo_total_ocupacion c;
     tiempo_ocupacion_maquina := tiempo_ocupacion_maquina c;
     tiempo_ocioso_total := tiempo_ocioso_total c;
     tiempo_total_maquina := tiempo_total_maquina c;
     tiempo_ocioso_maquina := tiempo_ocioso_maquina c;
     objetivo_balanceado := objetivo_balanceado c |}.

(** One entry of the list ['programacion'] that [_extraer_solucion] builds. *)
Record TareaInfo : Type := mkTareaInfo {
  sol_tarea_id : string;
  sol_tarea_indice : nat;
  sol_inicio : Z;
  sol_fin : Z;
  sol_duracion : Z;
  sol_dia : Z;
  sol_maquina : string;
  sol_operador : string
}.

(** The dictionary [_extraer_solucion] returns. *)
Record Solucion : Type := mkSolucion {
  tiempo_total : Z;
  programacion : list TareaInfo
}.

(** [l[k]] for a Python list: a negative index counts from the end, [None]
    is [IndexError]. *)
Definition elemento (l : list string) (k : Z) : option string :=
  let n := Z.of_nat (length l) in
  if 0 <=? k then l !! Z.to_nat k
  else if - n <=? k then l !! Z.to_nat (n + k)
  else None.

(** [self.minutos_por_dia_laboral], set by [crear_modelo] only when
    [dias_laborales] is given. *)
Definition minutos_por_dia_laboral (dias_laborales : option (list string))
    (horas_por_dia : Q) : option Z :=
  match dias_laborales with
  | Some (_ :: _) => Some (int_de (horas_por_dia * inject_Z 60)%Q)
  | _ => None
  end.

(** [_extraer_solucion()], on the optimizer that [crear_modelo] has just set
    up and for the values [x] the solver holds. *)
Definition _extraer_solucion (tareas_df : list Tarea) (num_operadores : option Z)
    (dias_laborales : option (list string)) (horas_por_dia : Q) (x : Nucleo)
  : Solucion :=
  let fijas := maquinas_fijas tareas_df in
  let programacion :=
    map (λ i,
           let start_val := start_time x i in
           let end_val := end_time x i in
           let dia_calculado :=
             match minutos_por_dia_laboral dias_laborales horas_por_dia with
             | Some m => if 0 <? m then start_val / m else 0
             | None => 0
             end in
           let machine_val := machine_assignment (permitidas tareas_df i) x i in
           let maquina_asignada :=
             if machine_val <? Z.of_nat (length fijas)
             then default "N/A" (elemento fijas machine_val)
             else "N/A" in
           {| sol_tarea_id := id (iloc tareas_df i);
              sol_tarea_indice := i;
              sol_inicio := start_val;
              sol_fin := end_val;
              sol_duracion := end_val - start_val;
              sol_dia := dia_calculado;
              sol_maquina := maquina_asignada;
              sol_operador :=
                match hay_operadores num_operadores with
                | Some _ => "OP" +:+ str_de_entero (operator_assignment x i + 1)
                | None => "N/A"
                end |})
        (seq 0 (num_tareas tareas_df)) in
  {| tiempo_total :=
       match programacion with
       | [] => 0
       | _ => maximo (map sol_fin programacion)
       end;
     programacion := programacion |}.

(** The order [sorted] puts strings in. *)
Definition antes (a b : string) : Prop := String.compare a b = Lt.

(** The step of the loop that fills [todas_las_maquinas]. *)
Definition paso (todas : list string) (maq : string) : list string :=
  if es_comodin maq then todas
  else if tiene_coma maq then fold_right insertar todas (lista_de maq)
  else insertar maq todas.

(** What a column value contributes to the set of machines. *)
Definition nombra (spec y : string) : Prop :=
  es_comodin spec = false
  ∧ if tiene_coma spec then y ∈ lista_de spec else y = spec.

(** Task [i] goes before task [j] in its job: smaller subindex, or the same
    subindex and an earlier row ([sorted] is stable). *)
Definition precede (tareas_df : list Tarea) (i j : nat) : Prop :=
  let clave := λ i, extraer_subindice (id (iloc tareas_df i)) in
  clave i < clave j ∨ (clave i = clave j ∧ (i < j)%nat).

(** [trabajos.get(k)] on the dictionary kept as a list. *)
Fixpoint buscar (k : string) (g : list (string * list nat)) : option (list nat) :=
  match g with
  | [] => None
  | (k', l) :: r => if String.eqb k' k then Some l else buscar k r
  end.

(** The dictionary after the rows [hechas]: under each key, the rows of that
    key in order, and no key without rows. *)
Definition agrupadas (clave_de : nat → option string) (hechas : list nat)
    (g : list (string * list nat)) : Prop :=
  NoDup (map fst g)
  ∧ ∀ k, buscar k g
         = match filter (λ i, clave_de i = Some k) hechas with
           | [] => None
           | l => Some l
           end.

End Optimizador.

(** * Properties *)

(** ** Strings *)

Module CadenasProps.

Import Cadenas.

Lemma int_of_string_str_de_entero (z : Z) :
  NilZero.int_of_string (str_de_entero z) = Some (Z.to_int z).
Proof.
  apply NilZero.isi; destruct z; cbn; try done;
    intros [= H]; by apply DecimalPos.Unsigned.to_uint_nonnil in H.
Qed.

Lemma str_de_entero_inyectiva (u v : Z) :
  str_de_entero u = str_de_entero v → u = v.
Proof.
  intros H. apply DecimalZ.to_int_inj.
  assert (Some (Z.to_int u) = Some (Z.to_int v)) as [= Hi]; [| done].
  by rewrite <- !int_of_string_str_de_entero, H.
Qed.

Lemma append_vacia (s : string) : "" +:+ s = s.
Proof. reflexivity. Qed.

Lemma append_String (c : ascii) (s r : string) :
  String c s +:+ r = String c (s +:+ r).
Proof. reflexivity. Qed.

Lemma append_cancela (s a b : string) : s +:+ a = s +:+ b → a = b.
Proof.
  induction s as [|c s IH]; [done |].
  rewrite !append_String. intros [= H]. by apply IH.
Qed.

(** The first component of [s.split(c)] does not change when a suffix that
    starts with [c] is appended. *)
Lemma primera_de_split (c : ascii) (s r : string) :
  hd "" (split c (s +:+ String c r)) = hd "" (split c s).
Proof.
  induction s as [|d s IH].
  - rewrite append_vacia. cbn. by rewrite Ascii.eqb_refl.
  - rewrite append_String. cbn [split].
    destruct (Ascii.eqb c d); [done |].
    destruct (split c (s +:+ String c r)) as [|x xs] eqn:E1;
      destruct (split c s) as [|y ys] eqn:E2; cbn in *; congruence.
Qed.

Lemma contiene_append (c : ascii) (s r : string) :
  contiene c (s +:+ String c r) = true.
Proof.
  induction s as [|d s IH].
  - rewrite append_vacia. cbn. by rewrite Ascii.eqb_refl.
  - rewrite append_String. cbn [contiene]. by rewrite IH, orb_true_r.
Qed.

Lemma split_sin (c : ascii) (s : string) :
  contiene c s = false → split c s = [s].
Proof.
  induction s as [|d s IH]; cbn; [done |].
  intros [H1 H2]%orb_false_iff. rewrite H1, (IH H2). done.
Qed.

Lemma split_no_vacia (c : ascii) (s : string) : split c s ≠ [].
Proof.
  induction s as [|d r IH]; cbn; [done |].
  destruct (Ascii.eqb c d); [done |]. by destruct (split c r).
Qed.

(** *** Numbers written and read back *)

Lemma digito_caracter (c : ascii) (d : Z) :
  digito c = Some d →
  0 <= d <= 9 ∧ es_espacio c = false
  ∧ Ascii.eqb c "+" = false ∧ Ascii.eqb c "-" = false.
Proof.
  destruct c as [[] [] [] [] [] [] [] []]; vm_compute; intros [= <-];
    repeat split; done.
Qed.

Lemma leer_uint_acc (d : Decimal.uint) (acc : positive) :
  leer_digitos (Z.pos acc) true
    (list_ascii_of_string (NilEmpty.string_of_uint d))
  = Some (Z.pos (Pos.of_uint_acc d acc)).
Proof.
  revert acc. induction d; intros acc; cbn [NilEmpty.string_of_uint
    list_ascii_of_string leer_digitos Pos.of_uint_acc]; [done | ..];
    match goal with
    | |- context [digito ?c] =>
        let v := eval vm_compute in (digito c) in
        change (digito c) with v; cbv iota
    end;
    rewrite <- IHd; f_equal; lia.
Qed.

Lemma leer_uint (d : Decimal.uint) (tras : bool) :
  d ≠ Decimal.Nil ∨ tras = true →
  leer_digitos 0 tras (list_ascii_of_string (NilEmpty.string_of_uint d))
  = Some (Z.of_N (Pos.of_uint d)).
Proof.
  revert tras. induction d; intros tras Hd;
    cbn [NilEmpty.string_of_uint list_ascii_of_string leer_digitos Pos.of_uint].
  - destruct Hd as [?| ->]; done.
  - apply IHd. by right.
  - apply (leer_uint_acc d 1).
  - apply (leer_uint_acc d 2).
  - apply (leer_uint_acc d 3).
  - apply (leer_uint_acc d 4).
  - apply (leer_uint_acc d 5).
  - apply (leer_uint_acc d 6).
  - apply (leer_uint_acc d 7).
  - apply (leer_uint_acc d 8).
  - apply (leer_uint_acc d 9).
Qed.

Lemma lista_de_append (a b : string) :
  list_ascii_of_string (a +:+ b)
  = list_ascii_of_string a ++ list_ascii_of_string b.
Proof.
  induction a as [|c a IH]; [done |].
  rewrite append_String. cbn. by rewrite IH.
Qed.

Lemma lstrip_sin_espacios (l : list ascii) :
  Forall (λ c, es_espacio c = false) l → lstrip l = l.
Proof. destruct 1 as [|c l Hc _]; cbn; [done | by rewrite Hc]. Qed.

Lemma strip_sin_espacios (s : string) :
  Forall (λ c, es_espacio c = false) (list_ascii_of_string s) → strip s = s.
Proof.
  intros Hs. unfold strip.
  rewrite (lstrip_sin_espacios _ Hs).
  rewrite lstrip_sin_espacios by (by apply Forall_rev).
  by rewrite rev_involutive, string_of_list_ascii_of_string.
Qed.

Lemma digitos_de_uint (d : Decimal.uint) :
  Forall (λ c, is_Some (digito c))
         (list_ascii_of_string (NilEmpty.string_of_uint d)).
Proof.
  induction d; cbn [NilEmpty.string_of_uint list_ascii_of_string];
    [constructor | ..]; (constructor; [by eexists | done]).
Qed.

Lemma str_de_entero_abs (z : Z) :
  ∃ d, str_de_entero (Z.abs z) = NilEmpty.string_of_uint d
       ∧ d ≠ Decimal.Nil
       ∧ Z.of_N (Pos.of_uint d) = Z.abs z.
Proof.
  assert (∀ p, ∃ d, NilZero.string_of_uint (Pos.to_uint p)
                    = NilEmpty.string_of_uint d
                    ∧ d ≠ Decimal.Nil
                    ∧ Z.of_N (Pos.of_uint d) = Z.pos p) as Hp.
  { intros p. exists (Pos.to_uint p).
    assert (Pos.to_uint p ≠ Decimal.Nil) as Hnil
      by apply DecimalPos.Unsigned.to_uint_nonnil.
    split; [by destruct (Pos.to_uint p) |]. split; [done |].
    by rewrite DecimalPos.Unsigned.of_to. }
  destruct z as [|p|p]; [by exists (Decimal.D0 Decimal.Nil) | apply Hp..].
Qed.

Lemma digitos_de_ceros (n : nat) :
  Forall (λ c, is_Some (digito c)) (list_ascii_of_string (ceros n)).
Proof. induction n; cbn; constructor; [by eexists | done]. Qed.

Lemma leer_ceros (n : nat) (tras : bool) (l : list ascii) :
  leer_digitos 0 tras (list_ascii_of_string (ceros n) ++ l)
  = leer_digitos 0 (tras || (0 <? n)%nat) l.
Proof.
  revert tras. induction n as [|n IH]; intros tras.
  - cbn. by rewrite orb_false_r.
  - cbn [ceros list_ascii_of_string app leer_digitos].
    change (digito "0") with (Some 0). cbv iota.
    change (0 * 10 + 0) with 0. rewrite IH. cbn. by rewrite orb_true_r.
Qed.

(** The characters of a formatted number: an optional sign, then digits. *)
Lemma rellenar_caracteres (ancho : nat) (z : Z) :
  ∃ cifras,
    list_ascii_of_string (rellenar ancho z)
    = (if z <? 0 then ["-"%char] else []) ++ cifras
    ∧ cifras ≠ []
    ∧ Forall (λ c, is_Some (digito c)) cifras
    ∧ leer_digitos 0 false cifras = Some (Z.abs z).
Proof.
  unfold rellenar. cbv zeta.
  destruct (str_de_entero_abs z) as (d & -> & Hd & Hv).
  set (n := (ancho - _ - _)%nat). clearbody n.
  exists (list_ascii_of_string (ceros n)
          ++ list_ascii_of_string (NilEmpty.string_of_uint d)).
  split; [| split; [| split]].
  - rewrite !lista_de_append. by destruct (z <? 0).
  - destruct d; try done; by destruct n.
  - apply Forall_app. split; [apply digitos_de_ceros | apply digitos_de_uint].
  - rewrite leer_ceros, leer_uint, Hv; [done | by left].
Qed.

(** [int(format(z, '0<ancho>d')) == z]. *)
Lemma int_de_cadena_rellenar (ancho : nat) (z : Z) :
  int_de_cadena (rellenar ancho z) = Some z.
Proof.
  destruct (rellenar_caracteres ancho z) as (cifras & Hc & Hne & Hdig & Hleer).
  unfold int_de_cadena. rewrite strip_sin_espacios.
  2:{ rewrite Hc. apply Forall_app. split.
      - destruct (z <? 0); constructor; [done | constructor].
      - eapply Forall_impl; [exact Hdig |].
        intros c [v Hv]. by apply digito_caracter in Hv as (_ & ? & _). }
  rewrite Hc. destruct (z <? 0) eqn:Hz.
  - cbn. rewrite Hleer. cbn. f_equal. lia.
  - cbn [app]. destruct cifras as [|c r]; [done |].
    apply Forall_cons in Hdig as [[v Hv] _].
    apply digito_caracter in Hv as (_ & _ & -> & ->).
    rewrite Hleer. f_equal. lia.
Qed.

Lemma contiene_lista (c : ascii) (s : string) :
  contiene c s = true ↔ c ∈ list_ascii_of_string s.
Proof.
  induction s as [|d s IH]; cbn.
  - split; [done | by intros ?%elem_of_nil].
  - rewrite orb_true_iff, elem_of_cons, IH.
    destruct (Ascii.eqb_spec c d); intuition congruence.
Qed.

Lemma rellenar_sin_guion (ancho : nat) (z : Z) :
  0 <= z → contiene "-" (rellenar ancho z) = false.
Proof.
  intros Hz. apply not_true_iff_false. rewrite contiene_lista.
  destruct (rellenar_caracteres ancho z) as (cifras & -> & _ & Hdig & _).
  replace (z <? 0) with false by lia. cbn [app]. intros Hin.
  apply (proj1 (Forall_forall _ _) Hdig) in Hin as [v Hv]. done.
Qed.

Lemma str_de_entero_rellenar (z : Z) : str_de_entero z = rellenar 0 z.
Proof. by destruct z. Qed.

Lemma rellenar_inyectiva (ancho : nat) (u v : Z) :
  rellenar ancho u = rellenar ancho v → u = v.
Proof.
  intros H. assert (Some u = Some v) as [= ->]; [| done].
  by rewrite <- !(int_de_cadena_rellenar ancho), H.
Qed.

(** A formatted number holds no character other than the sign and digits. *)
Lemma rellenar_sin (c : ascii) (ancho : nat) (z : Z) :
  digito c = None → c ≠ "-"%char → contiene c (rellenar ancho z) = false.
Proof.
  intros Hc Hg. apply not_true_iff_false. rewrite contiene_lista.
  destruct (rellenar_caracteres ancho z) as (cifras & -> & _ & Hdig & _).
  intros [Hin|Hin]%elem_of_app.
  - destruct (z <? 0); [| by apply elem_of_nil in Hin].
    by apply list_elem_of_singleton in Hin.
  - apply (proj1 (Forall_forall _ _) Hdig) in Hin as [v Hv]. congruence.
Qed.

(** *** Splitting at a character *)

Lemma split_append (c : ascii) (s r : string) :
  split c (s +:+ String c r) = split c s ++ split c r.
Proof.
  induction s as [|d s IH].
  - rewrite append_vacia. cbn. by rewrite Ascii.eqb_refl.
  - rewrite append_String. cbn [split]. rewrite IH.
    destruct (Ascii.eqb c d); [done |].
    pose proof (split_no_vacia c s). by destruct (split c s).
Qed.

Lemma ultima_de_split (c : ascii) (s r : string) :
  contiene c r = false → List.last (split c (s +:+ String c r)) "" = r.
Proof.
  intros Hr. rewrite split_append, (split_sin c r Hr).
  by rewrite last_last.
Qed.

Lemma partes_de_split_sin (c : ascii) (s : string) :
  Forall (λ x, contiene c x = false) (split c s).
Proof.
  induction s as [|d s IH]; cbn [split].
  - by constructor.
  - destruct (Ascii.eqb c d) eqn:Hcd; [by constructor |].
    pose proof (split_no_vacia c s).
    destruct (split c s) as [|x xs]; [done |].
    apply Forall_cons in IH as [Hx Hxs]. constructor; [| done].
    cbn. by rewrite Hcd, Hx.
Qed.

Lemma ultima_de_split_sin (c : ascii) (s : string) :
  contiene c (List.last (split c s) "") = false.
Proof.
  pose proof (partes_de_split_sin c s) as Hall.
  pose proof (split_no_vacia c s) as Hne.
  destruct (exists_last Hne) as (l & x & Heq). rewrite Heq in Hall |- *.
  rewrite last_last. apply Forall_app in Hall as [_ Hx].
  by apply Forall_cons in Hx as [Hx _].
Qed.

(** Two strings that agree after the first [c] of each agree before it. *)
Lemma primera_aparicion (c : ascii) (x x' r r' : string) :
  contiene c x = false → contiene c x' = false →
  x +:+ String c r = x' +:+ String c r' → x = x' ∧ r = r'.
Proof.
  revert x'. induction x as [|d x IH]; intros [|d' x'];
    rewrite ?append_vacia, ?append_String; cbn [contiene].
  - by intros _ _ [= ->].
  - intros _ [Hd _]%orb_false_iff [= <- _]. by rewrite Ascii.eqb_refl in Hd.
  - intros [Hd _]%orb_false_iff _ [= -> _]. by rewrite Ascii.eqb_refl in Hd.
  - intros [_ Hx]%orb_false_iff [_ Hx']%orb_false_iff [= -> H].
    destruct (IH x' Hx Hx' H) as [-> ->]. done.
Qed.

(** Two strings that agree before the last [c] of each agree after it. *)
Lemma ultima_aparicion (c : ascii) (x x' r r' : string) :
  contiene c r = false → contiene c r' = false →
  x +:+ String c r = x' +:+ String c r' → x = x' ∧ r = r'.
Proof.
  intros Hr Hr'. revert x'. induction x as [|d x IH]; intros [|d' x'];
    rewrite ?append_vacia, ?append_String.
  - by intros [= ->].
  - intros [= <- ->]. by rewrite contiene_append in Hr.
  - intros [= -> <-]. by rewrite contiene_append in Hr'.
  - intros [= -> H]. destruct (IH x' H) as [-> ->]. done.
Qed.

Lemma append_asociativa (a b c : string) : (a +:+ b) +:+ c = a +:+ (b +:+ c).
Proof.
  induction a as [|d a IH]; [done |]. rewrite !append_String. by rewrite IH.
Qed.

(** *** Numbers read from a string without a minus sign *)

Lemma leer_digitos_no_negativo (l : list ascii) :
  ∀ acc tras v, leer_digitos acc tras l = Some v → 0 <= acc → 0 <= v.
Proof.
  induction l as [|c l IH]; intros acc tras v; cbn [leer_digitos].
  - destruct tras; [by intros [= <-] | done].
  - destruct (digito c) as [d|] eqn:Hd.
    + apply digito_caracter in Hd as [Hd _]. intros H ?.
      apply (IH _ _ _ H). lia.
    + destruct (_ && _); [| done]. apply IH.
Qed.

Lemma lstrip_sublista (l : list ascii) (c : ascii) : c ∈ lstrip l → c ∈ l.
Proof.
  induction l as [|d l IH]; cbn [lstrip]; [done |].
  destruct (es_espacio d); [| done]. intros H. apply elem_of_cons. right. auto.
Qed.

Lemma strip_sublista (s : string) (c : ascii) :
  c ∈ list_ascii_of_string (strip s) → contiene c s = true.
Proof.
  unfold strip. rewrite list_ascii_of_string_of_list_ascii, contiene_lista.
  intros H. apply lstrip_sublista.
  apply list_elem_of_In, in_rev, list_elem_of_In, lstrip_sublista.
  by apply list_elem_of_In, in_rev, list_elem_of_In in H.
Qed.

Lemma int_de_cadena_sin_guion (s : string) (v : Z) :
  int_de_cadena s = Some v → contiene "-" s = false → 0 <= v.
Proof.
  unfold int_de_cadena. intros H Hs.
  destruct (list_ascii_of_string (strip s)) as [|c r] eqn:Hl; [done |].
  destruct (Ascii.eqb c "+").
  { by apply leer_digitos_no_negativo in H. }
  destruct (Ascii.eqb_spec c "-") as [->|_].
  { assert (contiene "-" s = true); [| congruence].
    apply strip_sublista. rewrite Hl. apply elem_of_cons. by left. }
  by apply leer_digitos_no_negativo in H.
Qed.

Lemma contiene_de_append (c : ascii) (a b : string) :
  contiene c (a +:+ b) = contiene c a || contiene c b.
Proof.
  induction a as [|d a IH]; [done |].
  rewrite append_String. cbn. by rewrite IH, orb_assoc.
Qed.

(** *** The largest number of a list *)

Lemma fold_left_max_cota (l : list Z) (t : Z) :
  t <= fold_left Z.max l t ∧ Forall (λ x, x <= fold_left Z.max l t) l.
Proof.
  revert t. induction l as [|x l IH]; intros t; cbn [fold_left].
  - split; [lia | constructor].
  - destruct (IH (Z.max t x)) as [H1 H2]. split; [lia |].
    constructor; [lia | done].
Qed.

End CadenasProps.

(** ** Lifecycle *)

Module CicloProps.

Import Ciclo.

Lemma misma_semana_con_estado p e : misma_semana (con_estado p e) p.
Proof. by split. Qed.

Lemma misma_semana_sym p q : misma_semana p q → misma_semana q p.
Proof. intros [? ?]; by split. Qed.

Lemma misma_semana_trans p q r :
  misma_semana p q → misma_semana q r → misma_semana p r.
Proof. intros [? ?] [? ?]; split; congruence. Qed.

(** Replacing a row by one of the same week keeps the invariant when the new
    row is active only if the old one was, or if the week was free. *)
Lemma unicidad_insert (db : Tabla) prog_id p p' :
  unicidad db →
  db !! prog_id = Some p →
  misma_semana p' p →
  (activa (estado p') = true →
   activa (estado p) = true ∨ semana_libre db prog_id p) →
  unicidad (<[prog_id := p']> db).
Proof.
  intros Hu Hp Hs Hact i j a b Hi Hj Hab Ha Hb.
  destruct (decide (i = prog_id)) as [->|Hni];
    destruct (decide (j = prog_id)) as [->|Hnj]; [done | | |].
  - rewrite lookup_insert_eq in Hi. rewrite lookup_insert_ne in Hj by done.
    injection Hi as <-.
    destruct (Hact Ha) as [Hpa | Hlibre].
    + apply (Hu prog_id j p b); try done.
      eapply misma_semana_trans; [apply misma_semana_sym, Hs | done].
    + assert (activa (estado b) = false) as Hf; [| congruence].
      apply (Hlibre j b); try done.
      eapply misma_semana_trans; [apply misma_semana_sym, Hs | done].
  - rewrite lookup_insert_ne in Hi by done. rewrite lookup_insert_eq in Hj.
    injection Hj as <-.
    destruct (Hact Hb) as [Hpa | Hlibre].
    + apply (Hu i prog_id a p); try done.
      eapply misma_semana_trans; [done | apply Hs].
    + assert (activa (estado a) = false) as Hf; [| congruence].
      apply (Hlibre i a); try done.
      eapply misma_semana_trans; [apply misma_semana_sym, Hs |].
      by apply misma_semana_sym.
  - rewrite lookup_insert_ne in Hi by done. rewrite lookup_insert_ne in Hj by done.
    by apply (Hu i j a b).
Qed.

(** The result of an accepted call of [cambiar_estado_programacion]. *)
Lemma cambiar_estado_aceptado (db : Tabla) prog_id nuevo usuario ahora p :
  db !! prog_id = Some p →
  nuevo ∈ transiciones_validas (estado p) →
  ∃ p', (cambiar_estado_programacion prog_id nuevo usuario ahora db).1
        = <[prog_id := p']> db
        ∧ estado p' = nuevo ∧ misma_semana p' p
        ∧ (cambiar_estado_programacion prog_id nuevo usuario ahora db).2.1 = true.
Proof.
  intros Hp Hin. unfold cambiar_estado_programacion. rewrite Hp. cbn zeta.
  rewrite bool_decide_eq_true_2 by done. cbn [negb].
  destruct usuario as [u|]; [destruct (_ && _) |]; eexists; (split; [done|]);
    by repeat split.
Qed.

(** A rejected call leaves the table as it was and explains why. *)
Lemma cambiar_estado_rechazado (db : Tabla) prog_id nuevo usuario ahora p :
  db !! prog_id = Some p →
  nuevo ∉ transiciones_validas (estado p) →
  let r := cambiar_estado_programacion prog_id nuevo usuario ahora db in
  r.1 = db ∧ r.2.1 = false ∧
  (r.2.2 = "⛔ No se puede cambiar el estado de una programación '"
             +:+ value (estado p) +:+ "'"
   ∨ r.2.2 = "⚠️ Transición inválida: '" +:+ value (estado p)
             +:+ "' → '" +:+ value nuevo +:+ "'. Estados válidos: "
             +:+ join ", " (map value (transiciones_validas (estado p)))).
Proof.
  intros Hp Hin. unfold cambiar_estado_programacion. rewrite Hp. cbn zeta.
  rewrite bool_decide_eq_false_2 by done. cbn [negb].
  destruct (String.eqb _ ""); cbn; auto.
Qed.

(** Under [cambiar_estado_programacion] an estado only moves forward along
    the line, or into [cancelada], and a terminal estado stays. *)
Lemma cambiar_estado_avanza (db : Tabla) prog_id nuevo usuario ahora p p' :
  db !! prog_id = Some p →
  (cambiar_estado_programacion prog_id nuevo usuario ahora db).1 !! prog_id
    = Some p' →
  estado p' = estado p ∨
  (terminal (estado p) = false ∧ rango (estado p) < rango (estado p')).
Proof.
  intros Hp Hp'.
  destruct (decide (nuevo ∈ transiciones_validas (estado p))) as [Hin|Hin].
  - destruct (cambiar_estado_aceptado db prog_id nuevo usuario ahora p Hp Hin)
      as (q & Hq & Hest & _ & _).
    rewrite Hq, lookup_insert_eq in Hp'. injection Hp' as <-. right.
    rewrite Hest. clear -Hin.
    destruct (estado p), nuevo;
      (split; [done | cbn; lia])
      || (exfalso; revert Hin; apply (bool_decide_eq_false_1 _); reflexivity).
  - destruct (cambiar_estado_rechazado db prog_id nuevo usuario ahora p Hp Hin)
      as (Hq & _). cbn zeta in Hq. rewrite Hq, Hp in Hp'. left. congruence.
Qed.


Lemma unicidad_semana_42 : unicidad semana_42.
Proof.
  intros i j p q Hi Hj _ Hp Hq. unfold semana_42 in *.
  destruct (decide (i = "PROG-2025-W42-001")) as [->|Hni];
    destruct (decide (j = "PROG-2025-W42-001")) as [->|Hnj]; [done | | |].
  - rewrite lookup_insert_ne in Hj by done.
    destruct (decide (j = "PROG-2025-W42-002")) as [->|Hnj2].
    + rewrite lookup_insert_eq in Hj. by injection Hj as <-.
    + rewrite lookup_insert_ne in Hj by done. by rewrite lookup_empty in Hj.
  - rewrite lookup_insert_ne in Hi by done.
    destruct (decide (i = "PROG-2025-W42-002")) as [->|Hni2].
    + rewrite lookup_insert_eq in Hi. by injection Hi as <-.
    + rewrite lookup_insert_ne in Hi by done. by rewrite lookup_empty in Hi.
  - rewrite lookup_insert_ne in Hi by done.
    destruct (decide (i = "PROG-2025-W42-002")) as [->|Hni2].
    + rewrite lookup_insert_eq in Hi. by injection Hi as <-.
    + rewrite lookup_insert_ne in Hi by done. by rewrite lookup_empty in Hi.
Qed.




(** C2, on [cambiar_estado_programacion] alone: the stored estado never moves
    backwards, a terminal estado never changes, and a transition outside the
    table is rejected with a message and leaves the row as it was. *)
Lemma cambiar_estado_programacion_monotono (db : Tabla) prog_id nuevo usuario ahora p :
  db !! prog_id = Some p →
  let r := cambiar_estado_programacion prog_id nuevo usuario ahora db in
  (∃ p', r.1 !! prog_id = Some p'
         ∧ rango (estado p) <= rango (estado p')
         ∧ (terminal (estado p) = true → estado p' = estado p))
  ∧ (nuevo ∉ transiciones_validas (estado p) →
     r.1 = db ∧ r.2.1 = false ∧ r.2.2 ≠ "").
Proof.
  intros Hp r. split.
  - destruct (decide (nuevo ∈ transiciones_validas (estado p))) as [Hin|Hin].
    + destruct (cambiar_estado_aceptado db prog_id nuevo usuario ahora p Hp Hin)
        as (q & Hq & Hest & _ & _).
      exists q. subst r. rewrite Hq, lookup_insert_eq. split; [done |].
      pose proof (cambiar_estado_avanza db prog_id nuevo usuario ahora p q Hp) as Hav.
      rewrite Hq, lookup_insert_eq in Hav.
      destruct (Hav eq_refl) as [-> | [Hnt Hlt]]; [split; [lia | done] |].
      split; [lia | intros Ht; congruence].
    + destruct (cambiar_estado_rechazado db prog_id nuevo usuario ahora p Hp Hin)
        as (Hq & _). cbn zeta in Hq.
      exists p. subst r. rewrite Hq. split; [done |]. split; [lia | done].
  - intros Hin.
    destruct (cambiar_estado_rechazado db prog_id nuevo usuario ahora p Hp Hin)
      as (Hq & Hf & Hm). cbn zeta in Hq, Hf, Hm.
    subst r. split; [done |]. split; [done |].
    destruct Hm as [-> | ->]; discriminate.
Qed.

(** C2 at the failing input: [aprobar_programacion] on a completed
    programación answers [True] and stores [planificada], three steps back
    along the lifecycle, while [cambiar_estado_programacion] rejects the same
    request and leaves the row completed. *)
Theorem aprobar_programacion_reabre_completada :
  (aprobar_programacion "PROG-2025-W41-001" "Luis" 1 semana_41_cerrada).2 = true
  ∧ estado <$> (aprobar_programacion "PROG-2025-W41-001" "Luis" 1
                  semana_41_cerrada).1 !! "PROG-2025-W41-001"
    = Some PLANIFICADA
  ∧ rango PLANIFICADA < rango COMPLETADA
  ∧ terminal COMPLETADA = true
  ∧ (cambiar_estado_programacion "PROG-2025-W41-001" PLANIFICADA (Some "Luis") 1
       semana_41_cerrada)
    = (semana_41_cerrada,
       (false, "⛔ No se puede cambiar el estado de una programación 'completada'")).
Proof.
  split; [reflexivity |]. split; [| repeat split].
  unfold aprobar_programacion, semana_41_cerrada.
  rewrite lookup_singleton_eq. cbn. by rewrite lookup_insert_eq.
Qed.

(** C3, as stated, fails: with [forzar = True] a completed programación, and
    one in execution, are deleted. *)
Lemma eliminar_forzado_borra_completada :
  eliminar_programacion "PROG-2025-W41-001" true semana_41_cerrada
  = (delete "PROG-2025-W41-001" semana_41_cerrada,
     (true, "Programación PROG-2025-W41-001 eliminada exitosamente"))
  ∧ (eliminar_programacion "PROG-2025-W41-001" true semana_41_cerrada).1
      !! "PROG-2025-W41-001" = None
  ∧ (eliminar_programacion "P" true
       {["P" := mkProgramacion 41 2025 EN_EJECUCION None None]}).1 !! "P" = None.
Proof.
  split; [| split].
  - unfold eliminar_programacion, semana_41_cerrada.
    by rewrite lookup_singleton_eq.
  - unfold eliminar_programacion, semana_41_cerrada.
    rewrite lookup_singleton_eq. cbn. apply lookup_delete_eq.
  - unfold eliminar_programacion.
    rewrite lookup_singleton_eq. cbn. apply lookup_delete_eq.
Qed.

(** C3, amended: without the flag only [simulacion] and [cancelada] are
    deleted; with the flag the programación is deleted whatever its estado;
    a refused call returns failure and leaves the table as it was. *)
Theorem eliminar_programacion_politica (db : Tabla) prog_id forzar :
  let r := eliminar_programacion prog_id forzar db in
  match db !! prog_id with
  | None => r.1 = db ∧ r.2.1 = false
  | Some p =>
      if forzar || bool_decide (estado p ∈ [SIMULACION; CANCELADA])
      then r.1 = delete prog_id db ∧ r.1 !! prog_id = None ∧ r.2.1 = true
      else r.1 = db ∧ r.2.1 = false
           ∧ estado p ∈ [PLANIFICADA; EN_EJECUCION; COMPLETADA]
  end.
Proof.
  unfold eliminar_programacion.
  destruct (db !! prog_id) as [p|] eqn:Hp; [| done].
  destruct forzar; cbn [negb andb orb].
  - split; [done |]. split; [apply lookup_delete_eq | done].
  - destruct (estado p); cbn; repeat split; try done;
      try apply lookup_delete_eq; set_solver.
Qed.

Import Cadenas CadenasProps.

(** *** Ids of new programaciones *)

Lemma id_de_programacion_partes (a s n : Z) :
  id_de_programacion a s n
  = ("PROG-" +:+ str_de_entero a +:+ "-W" +:+ rellenar 2 s)
    +:+ String "-" (rellenar 3 n).
Proof. unfold id_de_programacion. by rewrite !append_asociativa. Qed.

(** The number of an id is read back from it. *)
Lemma numero_de_id_de_programacion (a s n : Z) :
  0 <= n → numero_de_id (id_de_programacion a s n) = Some n.
Proof.
  intros Hn. unfold numero_de_id. rewrite id_de_programacion_partes.
  rewrite ultima_de_split by (by apply rellenar_sin_guion).
  apply int_de_cadena_rellenar.
Qed.

(** The id tells the year, the week and the number. *)
Lemma id_de_programacion_inyectiva (a s n a' s' n' : Z) :
  0 <= n → 0 <= n' →
  id_de_programacion a s n = id_de_programacion a' s' n' →
  a = a' ∧ s = s' ∧ n = n'.
Proof.
  intros Hn Hn'. rewrite !id_de_programacion_partes.
  intros [H Hnn]%ultima_aparicion; [| by apply rellenar_sin_guion..].
  apply rellenar_inyectiva in Hnn as ->.
  apply append_cancela in H.
  change ("-W" +:+ rellenar 2 s) with ("-" +:+ String "W" (rellenar 2 s)) in H.
  change ("-W" +:+ rellenar 2 s') with ("-" +:+ String "W" (rellenar 2 s')) in H.
  rewrite <- !append_asociativa in H.
  assert (∀ z, contiene "W" (str_de_entero z +:+ "-") = false) as Hsin.
  { intros z. rewrite contiene_de_append, str_de_entero_rellenar.
    by rewrite rellenar_sin. }
  apply primera_aparicion in H as [Ha Hs]; [| apply Hsin..].
  apply rellenar_inyectiva in Hs as ->.
  apply (ultima_aparicion "-" _ _ "" "") in Ha as [Ha _]; [| done..].
  by apply str_de_entero_inyectiva in Ha as ->.
Qed.

Lemma numeros_usados_spec (semana el_anio : Z) (db : Tabla) (n : Z) :
  n ∈ numeros_usados semana el_anio db
  ↔ ∃ id p, db !! id = Some p ∧ semana_produccion p = semana
            ∧ anio p = el_anio ∧ numero_de_id id = Some n.
Proof.
  unfold numeros_usados. rewrite list_elem_of_omap. split.
  - intros ([id p] & [[? ?] Hin]%list_elem_of_filter & Hn).
    apply elem_of_map_to_list in Hin. by exists id, p.
  - intros (id & p & Hp & ? & ? & Hn). exists (id, p). split; [| done].
    apply list_elem_of_filter. split; [done |]. by apply elem_of_map_to_list.
Qed.

Lemma numeros_usados_no_negativos (semana el_anio : Z) (db : Tabla) (n : Z) :
  n ∈ numeros_usados semana el_anio db → 0 <= n.
Proof.
  intros (id & p & _ & _ & _ & Hn)%numeros_usados_spec.
  apply (int_de_cadena_sin_guion _ _ Hn), ultima_de_split_sin.
Qed.

Lemma siguiente_numero_mayor (numeros : list Z) :
  (∀ n, n ∈ numeros → 0 <= n) →
  1 <= siguiente_numero numeros
  ∧ ∀ n, n ∈ numeros → n < siguiente_numero numeros.
Proof.
  intros Hpos. destruct numeros as [|t r]; cbn [siguiente_numero].
  - split; [lia |]. by intros n ?%elem_of_nil.
  - destruct (fold_left_max_cota r t) as [Ht Hr].
    assert (0 <= t) by (apply Hpos, elem_of_cons; by left).
    split; [lia |]. intros n [->|Hn]%elem_of_cons; [lia |].
    apply (proj1 (Forall_forall _ _) Hr) in Hn. lia.
Qed.

Lemma id_nuevo_no_esta (semana el_anio : Z) (db : Tabla) (id : string)
    (p : Programacion) :
  db !! id = Some p → semana_produccion p = semana → anio p = el_anio →
  id ≠ id_de_programacion el_anio semana
         (siguiente_numero (numeros_usados semana el_anio db)).
Proof.
  intros Hp Hs Ha Hid.
  destruct (siguiente_numero_mayor (numeros_usados semana el_anio db))
    as [Huno Hmayor]; [apply numeros_usados_no_negativos |].
  assert (siguiente_numero (numeros_usados semana el_anio db)
          ∈ numeros_usados semana el_anio db) as Hin.
  { apply numeros_usados_spec. exists id, p. repeat (split; [done |]).
    rewrite Hid. apply numero_de_id_de_programacion. lia. }
  apply Hmayor in Hin. lia.
Qed.

(** X1: the id that [crear_programacion] builds differs from the id of every
    programación of the same week and year that the table holds, whatever
    ids the table holds: the number it appends is at least 1 and larger than
    every number that ends an id of that week. *)
Theorem crear_programacion_id_nuevo_en_la_semana (semana el_anio : Z)
    (db : Tabla) (id : string) (p : Programacion) :
  db !! id = Some p → semana_produccion p = semana → anio p = el_anio →
  let numero := siguiente_numero (numeros_usados semana el_anio db) in
  id ≠ id_de_programacion el_anio semana numero
  ∧ 1 <= numero
  ∧ ∀ n, numero_de_id id = Some n → n < numero.
Proof.
  intros Hp Hs Ha. cbv zeta. split; [by eapply id_nuevo_no_esta |].
  destruct (siguiente_numero_mayor (numeros_usados semana el_anio db))
    as [Huno Hmayor]; [apply numeros_usados_no_negativos |].
  split; [done |]. intros n Hn. apply Hmayor, numeros_usados_spec.
  by exists id, p.
Qed.

Lemma crear_programacion_id_nuevo_en_la_semana_testigo :
  semana_42 !! "PROG-2025-W42-002"
  = Some (mkProgramacion 42 2025 SIMULACION None None)
  ∧ 1 <= siguiente_numero (numeros_usados 42 2025 semana_42)
  ∧ (∀ n, numero_de_id "PROG-2025-W42-002" = Some n →
          n < siguiente_numero (numeros_usados 42 2025 semana_42)).
Proof.
  split; [by vm_compute |].
  apply (crear_programacion_id_nuevo_en_la_semana 42 2025 semana_42
           "PROG-2025-W42-002" (mkProgramacion 42 2025 SIMULACION None None));
    by vm_compute.
Defined.

(** X2: on a table whose ids all have the form that [crear_programacion]
    writes, [crear_programacion] does not fail: it adds one row under an id
    that was not in the table, as a simulation of the given week, and leaves
    every other row as it was; the ids of the new table have that form
    again, and the table still has at most one active programación per week
    if it had. *)
Theorem crear_programacion_agrega_simulacion (semana el_anio : Z) (db : Tabla) :
  ids_con_formato db →
  ∃ prog_id,
    crear_programacion semana el_anio db
    = Some (<[prog_id := mkProgramacion semana el_anio SIMULACION None None]> db,
            prog_id)
    ∧ db !! prog_id = None
    ∧ ids_con_formato
        (<[prog_id := mkProgramacion semana el_anio SIMULACION None None]> db)
    ∧ (unicidad db →
       unicidad
         (<[prog_id := mkProgramacion semana el_anio SIMULACION None None]> db)).
Proof.
  intros Hfmt. unfold crear_programacion. cbv zeta.
  set (numero := siguiente_numero (numeros_usados semana el_anio db)).
  set (prog_id := id_de_programacion el_anio semana numero).
  assert (1 <= numero) as Huno.
  { apply siguiente_numero_mayor, numeros_usados_no_negativos. }
  assert (db !! prog_id = None) as Hnuevo.
  { destruct (db !! prog_id) as [p|] eqn:Hp; [| done]. exfalso.
    destruct (Hfmt _ _ Hp) as (n & Hn & Hid).
    apply id_de_programacion_inyectiva in Hid as (Ha & Hs & _); [| lia | done].
    by apply (id_nuevo_no_esta semana el_anio db prog_id p). }
  exists prog_id. rewrite Hnuevo. split; [done |]. split; [done |]. split.
  - intros id p. destruct (decide (id = prog_id)) as [->|Hne].
    + rewrite lookup_insert_eq. intros [= <-]. exists numero. split; [lia | done].
    + rewrite lookup_insert_ne by done. apply Hfmt.
  - intros Hu i j a b Hi Hj Hab Ha Hb.
    destruct (decide (i = prog_id)) as [->|Hni].
    { rewrite lookup_insert_eq in Hi. by injection Hi as <-. }
    destruct (decide (j = prog_id)) as [->|Hnj].
    { rewrite lookup_insert_eq in Hj. by injection Hj as <-. }
    rewrite lookup_insert_ne in Hi by done.
    rewrite lookup_insert_ne in Hj by done.
    by apply (Hu i j a b).
Qed.

Lemma crear_programacion_agrega_simulacion_testigo :
  ∃ prog_id, semana_42 !! prog_id = None
             ∧ is_Some (crear_programacion 42 2025 semana_42).
Proof.
  destruct (crear_programacion_agrega_simulacion 42 2025 semana_42)
    as (prog_id & Hc & Hn & _).
  - intros id p Hp. unfold semana_42 in Hp.
    destruct (decide (id = "PROG-2025-W42-001")) as [->|H1].
    { rewrite lookup_insert_eq in Hp. injection Hp as <-.
      exists 1. split; [lia | by vm_compute]. }
    rewrite lookup_insert_ne in Hp by done.
    destruct (decide (id = "PROG-2025-W42-002")) as [->|H2].
    { rewrite lookup_insert_eq in Hp. injection Hp as <-.
      exists 2. split; [lia | by vm_compute]. }
    rewrite lookup_insert_ne in Hp by done. done.
  - exists prog_id. split; [done |]. rewrite Hc. by eexists.
Defined.

(** X3: deleting the programación that [crear_programacion] has just added,
    without the [forzar] flag, succeeds and gives back the table as it was
    before the creation, so the next creation for that week builds the same
    id again. *)
Theorem eliminar_deshace_crear (semana el_anio : Z) (db db' : Tabla)
    (prog_id : string) :
  crear_programacion semana el_anio db = Some (db', prog_id) →
  eliminar_programacion prog_id false db'
  = (db, (true, "Programación " +:+ prog_id +:+ " eliminada exitosamente"))
  ∧ crear_programacion semana el_anio (eliminar_programacion prog_id false db').1
    = Some (db', prog_id).
Proof.
  intros Hc.
  assert (eliminar_programacion prog_id false db'
          = (db, (true, "Programación " +:+ prog_id
                          +:+ " eliminada exitosamente"))) as He.
  { revert Hc. unfold crear_programacion. cbv zeta.
    destruct (db !! _) eqn:Hn; [done |]. intros [= <- <-].
    unfold eliminar_programacion. rewrite lookup_insert_eq.
    cbn [negb andb estado]. rewrite bool_decide_eq_false_2.
    - by rewrite delete_insert_id.
    - by intros [?|[?|[?|?%elem_of_nil]%elem_of_cons]%elem_of_cons]%elem_of_cons. }
  split; [done |]. by rewrite He.
Qed.

Lemma eliminar_deshace_crear_testigo :
  eliminar_programacion "PROG-2025-W42-003" false
    (<["PROG-2025-W42-003" := mkProgramacion 42 2025 SIMULACION None None]>
       semana_42)
  = (semana_42,
     (true, "Programación PROG-2025-W42-003 eliminada exitosamente")).
Proof.
  apply (eliminar_deshace_crear 42 2025 semana_42). by vm_compute.
Defined.

End CicloProps.

(** ** Execution recorder *)

Module RegistroProps.

Import Registro.

Lemma ejecuciones_de_app tp_id (l : list EjecucionReal) e :
  filter (λ x, tarea_planificada_id x = tp_id) (l ++ [e])
  = filter (λ x, tarea_planificada_id x = tp_id) l
    ++ (if decide (tarea_planificada_id e = tp_id) then [e] else []).
Proof.
  rewrite filter_app. reflexivity.
Qed.

(** C4, as stated, fails: the planned task already has an execution and its
    programación is a simulation, yet the call returns a new id and the
    planned task ends with two executions. *)
Lemma registrar_ejecucion_real_no_comprueba :
  length (ejecuciones_de bd_simulada 1) = 1%nat
  ∧ estado_de_programacion bd_simulada 1 = Some Ciclo.SIMULACION
  ∧ (registrar_ejecucion_real 1 0 6000000000 "M1" None "" "" (Some 0) "Operador"
       bd_simulada).2 = Devuelve 2
  ∧ length (ejecuciones_de
              (registrar_ejecucion_real 1 0 6000000000 "M1" None "" ""
                 (Some 0) "Operador" bd_simulada).1 1) = 2%nat.
Proof.
  split; [reflexivity |]. split.
  - unfold estado_de_programacion, bd_simulada. cbn.
    rewrite lookup_singleton_eq. cbn. by rewrite lookup_singleton_eq.
  - unfold registrar_ejecucion_real, bd_simulada. cbn.
    rewrite lookup_singleton_eq. cbn. split; reflexivity.
Qed.

(** C4, amended: the call fails only when the planned task is missing (or
    has no task id), and then creates nothing; otherwise it appends exactly
    one execution for the planned task, whatever is already recorded and
    whatever the estado of the programación. So a planned task keeps at most
    one execution when the caller registers only tasks that have none. *)
Theorem registrar_ejecucion_real_inserta (db : BD) tp_id inicio fin maquina
    operador problemas notas paradas registrador :
  let r := registrar_ejecucion_real tp_id inicio fin maquina operador
             problemas notas paradas registrador db in
  match tareas_planificadas db !! tp_id with
  | None =>
      r = (db, ValueError ("Tarea planificada " +:+ Cadenas.str_de_entero tp_id
                           +:+ " no encontrada"))
  | Some tp =>
      match tarea_id tp with
      | None => r = (db, TypeError)
      | Some _ =>
          r.2 = Devuelve (siguiente_id (ejecucion_real db))
          ∧ length (ejecuciones_de r.1 tp_id)
            = S (length (ejecuciones_de db tp_id))
          ∧ programaciones r.1 = programaciones db
          ∧ tareas_planificadas r.1 = tareas_planificadas db
      end
  end.
Proof.
  unfold registrar_ejecucion_real.
  destruct (tareas_planificadas db !! tp_id) as [tp|]; [| done].
  destruct (tarea_id tp) as [tid|]; [| done].
  cbn. split; [done |]. split; [| done].
  unfold ejecuciones_de. cbn. rewrite ejecuciones_de_app. cbn.
  rewrite decide_True by done. rewrite length_app. cbn. lia.
Qed.



(** *** Completeness of a programación *)

Lemma length_filter_complemento {A : Type} (P : A → Prop) `{∀ x, Decision (P x)}
    (l : list A) :
  (length (filter P l) + length (filter (λ x, ¬ P x) l))%nat = length l.
Proof.
  induction l as [|x r IH]; [done |].
  destruct (decide (P x)).
  - rewrite (filter_cons_True P), (filter_cons_False (λ x, ¬ P x)) by tauto.
    cbn. lia.
  - rewrite (filter_cons_False P), (filter_cons_True (λ x, ¬ P x)) by tauto.
    cbn. lia.
Qed.

Lemma length_filter_iguales {A : Type} (P Q : A → Prop)
    `{∀ x, Decision (P x)} `{∀ x, Decision (Q x)} (l : list A) :
  (∀ x, x ∈ l → P x ↔ Q x) → length (filter P l) = length (filter Q l).
Proof.
  induction l as [|x r IH]; intros Hpq; [done |].
  assert (length (filter P r) = length (filter Q r)) as Hr.
  { apply IH. intros y Hy. apply Hpq. by right. }
  pose proof (Hpq x ltac:(left)) as Hx.
  destruct (decide (P x)).
  - rewrite (filter_cons_True P), (filter_cons_True Q) by tauto. cbn. lia.
  - rewrite (filter_cons_False P), (filter_cons_False Q) by tauto. done.
Qed.

Lemma length_filter_clave {A : Type} (k : Z) (l : list (Z * A)) :
  NoDup (map fst l) →
  length (filter (λ fila, fila.1 = k) l)
  = if decide (k ∈ map fst l) then 1%nat else 0%nat.
Proof.
  induction l as [|[k0 a] r IH]; intros Hnd.
  - cbn. destruct (decide _) as [H|]; [by apply elem_of_nil in H | done].
  - cbn [map fst] in Hnd. apply NoDup_cons in Hnd as [Hk0 Hr].
    specialize (IH Hr). cbn [map fst].
    destruct (decide (k0 = k)) as [->|Hne].
    + rewrite filter_cons_True by done. cbn [length]. rewrite IH.
      rewrite decide_False by done. rewrite decide_True by (by left). done.
    + rewrite filter_cons_False by done. rewrite IH.
      destruct (decide (k ∈ map fst r)) as [H|H].
      * rewrite decide_True by (by right). done.
      * rewrite decide_False; [done |]. by intros [->|?]%elem_of_cons.
Qed.

Section Conteo.

Variable db : BD.
Variable prog_id : string.

Let L : list (Z * TareaPlanificada) := planificadas_de db prog_id.

Lemma planificadas_de_spec (k : Z) (tp : TareaPlanificada) :
  (k, tp) ∈ planificadas_de db prog_id
  ↔ tareas_planificadas db !! k = Some tp ∧ programacion_id tp = prog_id.
Proof.
  unfold planificadas_de. rewrite list_elem_of_filter, elem_of_map_to_list.
  cbn. tauto.
Qed.

Lemma planificadas_de_NoDup : NoDup (map fst L).
Proof.
  unfold L, planificadas_de.
  pose proof (NoDup_fst_map_to_list (tareas_planificadas db)) as Hnd.
  induction (map_to_list (tareas_planificadas db)) as [|x r IH]; [constructor |].
  cbn [map] in Hnd. apply NoDup_cons in Hnd as [Hx Hr].
  destruct (decide (programacion_id x.2 = prog_id)).
  - rewrite filter_cons_True by done. cbn [map]. apply NoDup_cons.
    split; [| by apply IH].
    intros (y & Hy1 & [_ Hy2]%list_elem_of_filter)%list_elem_of_fmap.
    apply Hx. apply list_elem_of_fmap. by exists y.
  - rewrite filter_cons_False by done. by apply IH.
Qed.

Lemma es_de_spec (e : EjecucionReal) :
  es_de db prog_id e = true ↔ tarea_planificada_id e ∈ map fst L.
Proof.
  unfold es_de. split.
  - destruct (tareas_planificadas db !! tarea_planificada_id e) as [tp|] eqn:E;
      [| done].
    intros Hp%bool_decide_eq_true_1. apply list_elem_of_fmap.
    exists (tarea_planificada_id e, tp). split; [done |].
    by apply planificadas_de_spec.
  - intros ([k tp] & Hk & Hin)%list_elem_of_fmap. cbn in Hk. subst k.
    apply planificadas_de_spec in Hin as [-> Hp]. by apply bool_decide_eq_true_2.
Qed.

(** With at most one execution per planned task, the rows of the join are as
    many as the planned tasks that have an execution. *)
Lemma filas_del_join (E : list EjecucionReal) :
  (∀ k, (length (filter (λ e, tarea_planificada_id e = k) E) <= 1)%nat) →
  length (filter (λ e, es_de db prog_id e = true) E)
  = length (filter (λ fila, filter (λ e, tarea_planificada_id e = fila.1) E ≠ [])
                   L).
Proof.
  induction E as [|e E' IH]; intros Huna.
  - rewrite filter_nil. clear Huna. induction L as [|x r IHr]; [done |].
    rewrite filter_cons_False; [done |]. intros H. by apply H.
  - pose proof (Huna (tarea_planificada_id e)) as He.
    rewrite filter_cons_True in He by done. cbn in He.
    assert (filter (λ e0, tarea_planificada_id e0 = tarea_planificada_id e) E' = [])
      as Hsin by (apply length_zero_iff_nil; lia).
    assert (∀ k, (length (filter (λ e, tarea_planificada_id e = k) E') <= 1)%nat)
      as Huna'.
    { intros k. specialize (Huna k).
      destruct (decide (tarea_planificada_id e = k)).
      - rewrite filter_cons_True in Huna by done. cbn in Huna. lia.
      - by rewrite filter_cons_False in Huna by done. }
    specialize (IH Huna').
    set (k0 := tarea_planificada_id e) in *.
    assert (length (filter (λ fila, filter (λ e0, tarea_planificada_id e0 = fila.1)
                                      (e :: E') ≠ []) L)
            = (length (filter (λ fila, fila.1 = k0) L)
               + length (filter (λ fila, filter (λ e0, tarea_planificada_id e0 = fila.1)
                                           E' ≠ []) L))%nat) as Hsuma.
    { clear IH. induction L as [|fila r IHr]; [done |].
      destruct (decide (fila.1 = k0)) as [Hk|Hk].
      - rewrite (filter_cons_True (λ fila, fila.1 = k0)) by done.
        rewrite (filter_cons_True (λ fila, filter _ (e :: E') ≠ [])).
        2:{ cbn beta. rewrite filter_cons_True by done. done. }
        rewrite (filter_cons_False (λ fila, filter _ E' ≠ [])).
        2:{ cbn beta. rewrite Hk, Hsin. tauto. }
        cbn [length]. rewrite IHr. lia.
      - rewrite (filter_cons_False (λ fila, fila.1 = k0)) by done.
        destruct (decide (filter (λ e0, tarea_planificada_id e0 = fila.1) E' = []))
          as [Hv|Hv].
        + rewrite (filter_cons_False (λ fila, filter _ (e :: E') ≠ [])).
          2:{ cbn beta. rewrite filter_cons_False by (fold k0; congruence). tauto. }
          rewrite (filter_cons_False (λ fila, filter _ E' ≠ [])) by (cbn beta; tauto).
          exact IHr.
        + rewrite (filter_cons_True (λ fila, filter _ (e :: E') ≠ [])).
          2:{ cbn beta. by rewrite filter_cons_False by (fold k0; congruence). }
          rewrite (filter_cons_True (λ fila, filter _ E' ≠ [])) by done.
          cbn [length]. rewrite IHr. lia. }
    rewrite Hsuma, <- IH, (length_filter_clave k0 L planificadas_de_NoDup).
    destruct (decide (k0 ∈ map fst L)) as [Hin|Hin].
    + rewrite filter_cons_True by (by apply es_de_spec). done.
    + rewrite filter_cons_False; [done |]. by rewrite es_de_spec.
Qed.

End Conteo.

Lemma filas_pendientes_length (filas : list (Z * TareaPlanificada))
    (l : list Pendiente) :
  filas_pendientes filas = Devuelve l → length l = length filas.
Proof.
  revert l. induction filas as [|[k tp] r IH]; intros l; cbn.
  - by intros [= <-].
  - destruct (tarea_id tp); [| done].
    destruct (filas_pendientes r) as [l'| |]; [| done | done].
    intros [= <-]. cbn. by rewrite (IH l').
Qed.

(** With two executions recorded for the first planned task and none for
    the second, the counts agree and the programación is reported complete,
    although a task is pending. *)
Example verificar_cuenta_duplicados :
  verificar_programacion_completa "PROG-2025-W42-001" bd_duplicada = (true, 2, 2)
  ∧ length (pendientes_de bd_duplicada "PROG-2025-W42-001") = 1%nat.
Proof. split; by vm_compute. Qed.

(** X4: when every planned task has at most one execution,
    [verificar_programacion_completa] and [obtener_tareas_sin_ejecucion_real]
    agree: the registered tasks plus the pending ones are all the planned
    tasks of the programación, and the programación is reported complete
    exactly when it has a planned task and none is pending. *)
Theorem verificar_programacion_completa_pendientes (db : BD) (prog_id : string) :
  una_por_tarea db →
  let '(esta_completa, total_tareas, tareas_registradas) :=
    verificar_programacion_completa prog_id db in
  tareas_registradas + Z.of_nat (length (pendientes_de db prog_id)) = total_tareas
  ∧ (esta_completa = true
     ↔ 0 < total_tareas ∧ pendientes_de db prog_id = [])
  ∧ ∀ l, obtener_tareas_sin_ejecucion_real prog_id db = Devuelve l →
         length l = length (pendientes_de db prog_id).
Proof.
  intros Huna. unfold verificar_programacion_completa. cbn zeta.
  pose proof (filas_del_join db prog_id (ejecucion_real db) Huna) as Hjoin.
  pose proof (length_filter_complemento
                (λ fila : Z * TareaPlanificada, ejecuciones_de db fila.1 = [])
                (planificadas_de db prog_id)) as Hpart.
  assert (length (pendientes_de db prog_id)
          = length (filter (λ fila : Z * TareaPlanificada,
                              ejecuciones_de db fila.1 = [])
                           (planificadas_de db prog_id))) as Hpen.
  { unfold pendientes_de. apply Permutation_length, merge_sort_Permutation. }
  unfold ejecuciones_de in Hpart, Hpen.
  assert (Z.of_nat (length (filter (λ e, es_de db prog_id e = true)
                                   (ejecucion_real db)))
          + Z.of_nat (length (pendientes_de db prog_id))
          = Z.of_nat (length (planificadas_de db prog_id))) as Hsuma by lia.
  split; [exact Hsuma |]. split.
  - rewrite andb_true_iff, Z.ltb_lt, Z.eqb_eq.
    rewrite <- length_zero_iff_nil. lia.
  - intros l Hl. by apply filas_pendientes_length.
Qed.

Lemma verificar_programacion_completa_pendientes_testigo :
  una_por_tarea bd_simulada
  ∧ verificar_programacion_completa "PROG-2025-W42-001" bd_simulada = (true, 1, 1)
  ∧ pendientes_de bd_simulada "PROG-2025-W42-001" = [].
Proof.
  assert (una_por_tarea bd_simulada) as Huna.
  { intros k. unfold ejecuciones_de, bd_simulada. cbn [ejecucion_real].
    destruct (decide (1 = k)) as [<-|Hne].
    - by vm_compute.
    - rewrite filter_cons_False by done. cbn. lia. }
  split; [exact Huna |]. split; [by vm_compute |].
  pose proof (verificar_programacion_completa_pendientes bd_simulada
                "PROG-2025-W42-001" Huna) as H.
  change (verificar_programacion_completa "PROG-2025-W42-001" bd_simulada)
    with (true, 1, 1) in H.
  destruct H as (_ & H & _). by apply H.
Defined.

(** *** Registering, looking up and deleting an execution *)

Lemma siguiente_id_mayor (l : list EjecucionReal) (e : EjecucionReal) :
  e ∈ l → id e < siguiente_id l.
Proof.
  unfold siguiente_id. induction l as [|x r IH]; [by intros ?%elem_of_nil |].
  cbn. intros [->|Hin]%elem_of_cons; [lia |]. specialize (IH Hin). lia.
Qed.

Lemma filter_todos_menos_nuevo (l : list EjecucionReal) (k : Z) :
  (∀ e, e ∈ l → id e ≠ k) → filter (λ e, id e ≠ k) l = l.
Proof.
  induction l as [|x r IH]; intros H; [done |].
  rewrite filter_cons_True by (apply H; by left).
  f_equal. apply IH. intros e He. apply H. by right.
Qed.

Lemma filter_ninguno_con_id (l : list EjecucionReal) (k : Z) :
  (∀ e, e ∈ l → id e ≠ k) → filter (λ e, id e = k) l = [].
Proof.
  induction l as [|x r IH]; intros H; [done |].
  rewrite filter_cons_False by (apply H; by left).
  apply IH. intros e He. apply H. by right.
Qed.

(** Deleting an id that no row has changes nothing. *)
Lemma eliminar_ejecucion_real_ausente (db : BD) (k : Z) :
  (∀ e, e ∈ ejecucion_real db → id e ≠ k) →
  eliminar_ejecucion_real k db = (db, false).
Proof.
  intros H. unfold eliminar_ejecucion_real, ejecucion_con_id.
  by rewrite filter_ninguno_con_id.
Qed.

(** X5: [eliminar_ejecucion_real] undoes [registrar_ejecucion_real]: deleting
    the id that a registration returned gives back the database as it was
    before the registration. *)
Theorem eliminar_deshace_registrar (db db' : BD) (tp_id inicio fin : Z)
    (maquina : string) (operador : option string) (problemas notas : string)
    (paradas : option Z) (registrador : string) (nuevo : Z) :
  registrar_ejecucion_real tp_id inicio fin maquina operador problemas notas
    paradas registrador db = (db', Devuelve nuevo) →
  eliminar_ejecucion_real nuevo db' = (db, true).
Proof.
  unfold registrar_ejecucion_real.
  destruct (tareas_planificadas db !! tp_id) as [tp|]; [| done].
  destruct (tarea_id tp) as [tid|]; [| done].
  cbn zeta. intros [= <- <-].
  assert (∀ e, e ∈ ejecucion_real db → id e ≠ siguiente_id (ejecucion_real db))
    as Hnuevo.
  { intros e He%siguiente_id_mayor. lia. }
  unfold eliminar_ejecucion_real, ejecucion_con_id. cbn [ejecucion_real].
  rewrite !filter_app, filter_ninguno_con_id by done.
  rewrite filter_todos_menos_nuevo by done.
  rewrite filter_cons_True by done.
  rewrite filter_cons_False by (cbn; tauto).
  cbn. rewrite app_nil_r. by destruct db.
Qed.

Lemma eliminar_deshace_registrar_testigo :
  eliminar_ejecucion_real 2
    (registrar_ejecucion_real 1 0 6000000000 "M1" None "" "" (Some 0) "Operador"
       bd_simulada).1
  = (bd_simulada, true).
Proof.
  apply (eliminar_deshace_registrar bd_simulada _ 1 0 6000000000 "M1" None ""
           "" (Some 0) "Operador" 2).
  unfold registrar_ejecucion_real, bd_simulada. cbn.
  rewrite lookup_singleton_eq. reflexivity.
Defined.

(** X6: after a registration for a planned task, the task is no longer
    pending and every other pending task still is; looking the task up gives
    an execution, the new one when the task had none. *)
Theorem registrar_quita_de_pendientes (db db' : BD) (tp_id inicio fin : Z)
    (maquina : string) (operador : option string) (problemas notas : string)
    (paradas : option Z) (registrador : string) (nuevo : Z) (prog_id : string) :
  registrar_ejecucion_real tp_id inicio fin maquina operador problemas notas
    paradas registrador db = (db', Devuelve nuevo) →
  (∀ fila, fila ∈ pendientes_de db' prog_id
           ↔ fila ∈ pendientes_de db prog_id ∧ fila.1 ≠ tp_id)
  ∧ is_Some (obtener_ejecucion_real tp_id db')
  ∧ (ejecuciones_de db tp_id = [] →
     ∃ e, obtener_ejecucion_real tp_id db' = Some e ∧ id e = nuevo).
Proof.
  unfold registrar_ejecucion_real.
  destruct (tareas_planificadas db !! tp_id) as [tp|]; [| done].
  destruct (tarea_id tp) as [tid|]; [| done].
  cbn zeta. intros [= <- <-].
  set (e := mkEjecucionReal _ _ _ _ _ _ _ _ _ _ _ _ _).
  set (db' := mkBD _ _ _ _).
  assert (∀ k, ejecuciones_de db' k
               = ejecuciones_de db k
                 ++ (if decide (tp_id = k) then [e] else [])) as Hej.
  { intros k. unfold ejecuciones_de, db'. cbn [ejecucion_real].
    by rewrite ejecuciones_de_app. }
  split; [| split].
  - intros fila. unfold pendientes_de.
    rewrite !merge_sort_Permutation, !list_elem_of_filter.
    unfold planificadas_de. cbn [tareas_planificadas db'].
    rewrite !list_elem_of_filter, Hej.
    destruct (decide (tp_id = fila.1)) as [->|Hne].
    + split; [intros [H _]; by apply app_nil in H as [_ ?]
             | intros [_ H]; by destruct H].
    + rewrite app_nil_r. split; [| tauto]. intros (? & ? & ?). repeat split; auto.
  - unfold obtener_ejecucion_real. rewrite Hej, decide_True by done.
    destruct (ejecuciones_de db tp_id); cbn; eauto.
  - intros Hsin. unfold obtener_ejecucion_real.
    rewrite Hej, Hsin, decide_True by done. cbn. by exists e.
Qed.

Lemma registrar_quita_de_pendientes_testigo :
  is_Some
    (obtener_ejecucion_real 2
       (registrar_ejecucion_real 2 0 1800000000 "M1" None "" "" (Some 0)
          "Operador" bd_duplicada).1).
Proof.
  destruct (registrar_quita_de_pendientes bd_duplicada _ 2 0 1800000000 "M1"
              None "" "" (Some 0) "Operador" 3 "PROG-2025-W42-001"
              ltac:(by vm_compute)) as (_ & H & _).
  exact H.
Defined.

(** *** Updating an execution *)

Lemma ejecucion_con_id_Some (db : BD) (k : Z) (e : EjecucionReal) :
  ejecucion_con_id db k = Some e → e ∈ ejecucion_real db ∧ id e = k.
Proof.
  unfold ejecucion_con_id. intros H.
  destruct (filter (λ e, id e = k) (ejecucion_real db)) as [|x r] eqn:E;
    [done |].
  injection H as ->.
  assert (e ∈ filter (λ e, id e = k) (ejecucion_real db)) as Hin
    by (rewrite E; by left).
  apply list_elem_of_filter in Hin. tauto.
Qed.

(** X7: [actualizar_ejecucion_real] with a new start or end time raises
    [TypeError], and changes nothing, whenever the planned task of the
    execution has a planned start or a planned end other than 0: the
    deviation of the start (or of the end) subtracts the integer column from
    a datetime. *)
Theorem actualizar_ejecucion_real_TypeError (db : BD) (ejecucion_id : Z)
    (inicio_real_nuevo fin_real_nuevo : option Z)
    (maquina operador problemas notas : option string) (paradas : option Z)
    (e : EjecucionReal) (tp : TareaPlanificada) :
  ejecucion_con_id db ejecucion_id = Some e →
  is_Some inicio_real_nuevo ∨ is_Some fin_real_nuevo →
  tareas_planificadas db !! tarea_planificada_id e = Some tp →
  inicio_planificado tp ≠ 0 ∨ fin_planificado tp ≠ 0 →
  actualizar_ejecucion_real ejecucion_id inicio_real_nuevo fin_real_nuevo
    maquina operador problemas notas paradas db
  = (db, TypeError).
Proof.
  intros He Htiempo Htp Hplan. unfold actualizar_ejecucion_real. rewrite He.
  assert (actualizar_fila db e inicio_real_nuevo fin_real_nuevo maquina operador
            problemas notas paradas = TypeError) as ->; [| done].
  unfold actualizar_fila. cbn [tarea_planificada_id]. rewrite Htp.
  assert (negb (inicio_planificado tp =? 0) = true
          ∨ (negb (inicio_planificado tp =? 0) = false
             ∧ negb (fin_planificado tp =? 0) = true)) as Hcaso.
  { destruct (Z.eqb_spec (inicio_planificado tp) 0) as [Hi|Hi]; [| by left].
    right. split; [done |].
    destruct (Z.eqb_spec (fin_planificado tp) 0); [lia | done]. }
  destruct Htiempo as [[t ->]|[t ->]], Hcaso as [->|[-> ->]];
    try done; by destruct inicio_real_nuevo.
Qed.

Lemma actualizar_ejecucion_real_TypeError_testigo :
  actualizar_ejecucion_real 1 (Some 60000000) None None None None None None
    bd_simulada
  = (bd_simulada, TypeError).
Proof.
  apply (actualizar_ejecucion_real_TypeError bd_simulada 1 (Some 60000000) None
           None None None None None
           (mkEjecucionReal 1 1 0 3600000000 60 "M1" None COMPLETADA 0 ""
              (Some 0) "" "Operador")
           (mkTareaPlanificada "PROG-2025-W42-001" (Some "A2.P1") 45 0 45)).
  - reflexivity.
  - left. by eexists.
  - unfold bd_simulada. cbn. apply lookup_singleton_eq.
  - right. cbn. lia.
Defined.

(** X8: whatever its outcome, [actualizar_ejecucion_real] keeps the three
    other tables and the number of executions, and every execution afterwards
    has the id, the planned task and the estado of an execution before: the
    estado is never recomputed. It returns [False] exactly when no execution
    has the id, and without new times it cannot fail and leaves the real
    duration and its deviation as they were, even when the stops change. *)
Theorem actualizar_ejecucion_real_conserva (db : BD) (ejecucion_id : Z)
    (inicio_real_nuevo fin_real_nuevo : option Z)
    (maquina operador problemas notas : option string) (paradas : option Z) :
  let r := actualizar_ejecucion_real ejecucion_id inicio_real_nuevo
             fin_real_nuevo maquina operador problemas notas paradas db in
  programaciones r.1 = programaciones db
  ∧ tareas r.1 = tareas db
  ∧ tareas_planificadas r.1 = tareas_planificadas db
  ∧ length (ejecucion_real r.1) = length (ejecucion_real db)
  ∧ (∀ e', e' ∈ ejecucion_real r.1 →
       ∃ e, e ∈ ejecucion_real db ∧ id e' = id e
            ∧ tarea_planificada_id e' = tarea_planificada_id e
            ∧ estado e' = estado e
            ∧ (inicio_real_nuevo = None → fin_real_nuevo = None →
               duracion_real e' = duracion_real e
               ∧ desviacion_duracion e' = desviacion_duracion e))
  ∧ (r.2 = Devuelve false ↔ ejecucion_con_id db ejecucion_id = None)
  ∧ (inicio_real_nuevo = None → fin_real_nuevo = None →
     r.2 = Devuelve (bool_decide (is_Some (ejecucion_con_id db ejecucion_id)))).
Proof.
  cbn zeta. unfold actualizar_ejecucion_real.
  destruct (ejecucion_con_id db ejecucion_id) as [e0|] eqn:E0.
  2:{ cbn. repeat split; try done. intros e' He'. exists e'. by repeat split. }
  apply ejecucion_con_id_Some in E0 as [Hin0 Hid0].
  assert (∀ nueva,
            actualizar_fila db e0 inicio_real_nuevo fin_real_nuevo maquina
              operador problemas notas paradas = Devuelve nueva →
            id nueva = id e0
            ∧ tarea_planificada_id nueva = tarea_planificada_id e0
            ∧ estado nueva = estado e0
            ∧ (inicio_real_nuevo = None → fin_real_nuevo = None →
               duracion_real nueva = duracion_real e0
               ∧ desviacion_duracion nueva = desviacion_duracion e0)) as Hfila.
  { intros nueva. unfold actualizar_fila. cbn [tarea_planificada_id].
    destruct inicio_real_nuevo, fin_real_nuevo;
      try (destruct (tareas_planificadas db !! tarea_planificada_id e0) as [tp|];
           [destruct (negb (inicio_planificado tp =? 0));
            [done | destruct (negb (fin_planificado tp =? 0));
                    [done | destruct (tarea_id tp); [| done]]] |]);
      intros [= <-]; cbn; by repeat split. }
  destruct (actualizar_fila db e0 inicio_real_nuevo fin_real_nuevo maquina
              operador problemas notas paradas) as [nueva|m|] eqn:Ef; cbn.
  - destruct (Hfila nueva eq_refl) as (Hi & Ht & Hs & Hd).
    repeat split; try done.
    + by rewrite length_map.
    + intros e' (e & -> & He)%list_elem_of_fmap.
      destruct (decide (id e = ejecucion_id)) as [Heq|Hne].
      * exists e0. split; [done |]. split; [done |]. split; [done |].
        split; [done |]. exact Hd.
      * exists e. by repeat split.
  - repeat split; try done.
    + intros e' He'. exists e'. by repeat split.
    + intros -> ->. by unfold actualizar_fila in Ef.
  - repeat split; try done.
    + intros e' He'. exists e'. by repeat split.
    + intros -> ->. by unfold actualizar_fila in Ef.
Qed.

(** *** Ids of the parts of a task *)

(** A part id [tarea_id.P<n>] has the base of the task id it was built
    from. *)
Lemma tarea_id_base_primera (tid : string) :
  tarea_id_base tid = hd "" (Cadenas.split "." tid).
Proof.
  unfold tarea_id_base. destruct (Cadenas.contiene "." tid) eqn:Hc.
  - pose proof (CadenasProps.split_no_vacia "." tid).
    by destruct (Cadenas.split "." tid).
  - by rewrite (CadenasProps.split_sin _ _ Hc).
Qed.

Lemma tarea_id_base_de_parte (tid r : string) :
  tarea_id_base (tid +:+ String "." r) = tarea_id_base tid.
Proof.
  rewrite !tarea_id_base_primera. apply CadenasProps.primera_de_split.
Qed.

End RegistroProps.

(** ** Calendar mapper *)

Module CalendarioProps.

Import Calendario.

Lemma dia_contiene (t m : Z) :
  0 < m → (t / m) * m <= t ∧ t < (t / m + 1) * m.
Proof.
  intros Hm. pose proof (Z.mul_div_le t m Hm).
  pose proof (Z.mul_succ_div_gt t m Hm). lia.
Qed.

(** The loop ends within [fin_min - tiempo_actual] iterations and chains the
    parts from [tiempo_actual] to [fin_min]. *)
Lemma bucle_partes_correcto (m fin_min : Z) :
  0 < m →
  ∀ combustible t n,
    t <= fin_min →
    (Z.to_nat (fin_min - t) <= combustible)%nat →
    ∃ partes,
      bucle_partes combustible m fin_min t n = Termina partes
      ∧ encadenadas t partes fin_min
      ∧ Forall (en_un_dia m) partes
      ∧ Forall (λ p, es_dividida p = true) partes
      ∧ numeradas n partes
      ∧ suma_duraciones partes = fin_min - t.
Proof.
  intros Hm. induction combustible as [|c IH]; intros t n Hle Hfuel.
  - assert (t = fin_min) as -> by lia. exists []. cbn.
    rewrite Z.ltb_irrefl. repeat split; auto. unfold suma_duraciones; cbn; lia.
  - cbn [bucle_partes]. destruct (t <? fin_min) eqn:Hlt.
    + apply Z.ltb_lt in Hlt. destruct (dia_contiene t m Hm) as [Hlo Hhi].
      set (fp := Z.min ((t / m + 1) * m) fin_min).
      assert (t < fp ∧ fp <= fin_min ∧ fp <= (t / m + 1) * m) as (H1 & H2 & H3)
        by (unfold fp; lia).
      destruct (IH fp (n + 1)) as (r & Hr & Hch & Hwin & Hdiv & Hnum & Hsum);
        [lia | lia |].
      rewrite Hr. cbn. eexists. split; [reflexivity |].
      split; [by split |]. split.
      { constructor; [| done]. split; [exists (t / m); cbn; lia | cbn; lia]. }
      split; [by constructor |]. split; [by split |].
      unfold suma_duraciones in *. cbn. lia.
    + apply Z.ltb_ge in Hlt. assert (t = fin_min) as -> by lia. exists [].
      repeat split; auto. unfold suma_duraciones; cbn; lia.
Qed.



(** The earlier definition of the same name keeps the same properties; it
    returns no part at all for an empty interval. *)
Lemma bucle_partes_anterior_correcto (m total : Z) :
  0 < m →
  ∀ combustible desde inicio_dia d restante n hechas,
    desde = d * m + inicio_dia →
    0 <= inicio_dia < m →
    0 <= restante →
    (Z.to_nat restante <= combustible)%nat →
    ∃ partes,
      Anterior.bucle_partes combustible m total desde inicio_dia d restante n
        hechas = Termina partes
      ∧ Anterior.encadenadas desde partes (desde + restante)
      ∧ Forall (Anterior.en_un_dia m) partes
      ∧ Anterior.numeradas n partes
      ∧ Anterior.suma_duraciones partes = restante.
Proof.
  intros Hm. induction combustible as [|c IH];
    intros desde inicio_dia d restante n hechas Hdesde Hdia Hres Hfuel.
  - assert (restante = 0) as -> by lia. exists []. cbn.
    repeat split; auto; lia.
  - cbn [Anterior.bucle_partes]. destruct (0 <? restante) eqn:Hpos.
    + apply Z.ltb_lt in Hpos.
      destruct (restante <=? m - inicio_dia) eqn:Hcabe.
      * apply Z.leb_le in Hcabe. eexists. split; [reflexivity |].
        split; [by split |].
        split; [constructor; [repeat split; cbn; nia | done] |].
        split; [by split |].
        unfold Anterior.suma_duraciones. cbn. lia.
      * apply Z.leb_gt in Hcabe.
        destruct (IH ((d + 1) * m) 0 (d + 1) (restante - (m - inicio_dia))
                    (n + 1) (S hechas)) as (r & Hr & Hch & Hwin & Hnum & Hsum);
          [lia | lia | lia | lia |].
        rewrite Hr. cbn. eexists. split; [reflexivity |].
        split.
        { split; [done |]. cbn.
          replace (desde + (m - inicio_dia)) with ((d + 1) * m) by lia.
          replace (desde + restante)
            with ((d + 1) * m + (restante - (m - inicio_dia))) by lia.
          done. }
        split; [constructor; [repeat split; cbn; lia | done] |].
        split; [by split |].
        unfold Anterior.suma_duraciones in *. cbn. lia.
    + apply Z.ltb_ge in Hpos. assert (restante = 0) as -> by lia. exists [].
      cbn. repeat split; auto; lia.
Qed.

Lemma dividir_tarea_en_partes_anterior_correcta (asig : Asignacion)
    (minutos_por_dia : Z) (combustible : nat) :
  asig_inicio asig <= asig_fin asig →
  0 < minutos_por_dia →
  (combustible_suficiente asig <= combustible)%nat →
  ∃ partes,
    Anterior.dividir_tarea_en_partes combustible asig minutos_por_dia
    = Termina partes
    ∧ Anterior.encadenadas (asig_inicio asig) partes (asig_fin asig)
    ∧ Forall (Anterior.en_un_dia minutos_por_dia) partes
    ∧ Anterior.numeradas 1 partes
    ∧ Anterior.suma_duraciones partes = asig_fin asig - asig_inicio asig.
Proof.
  intros Hle Hm Hfuel. unfold Anterior.dividir_tarea_en_partes.
  destruct (minutos_por_dia =? 0) eqn:H0; [apply Z.eqb_eq in H0; lia |].
  destruct (bucle_partes_anterior_correcto minutos_por_dia
              (asig_fin asig - asig_inicio asig) Hm combustible
              (asig_inicio asig) (asig_inicio asig mod minutos_por_dia)
              (asig_inicio asig / minutos_por_dia)
              (asig_fin asig - asig_inicio asig) 1 O)
    as (partes & Hr & Hch & Hwin & Hnum & Hsum).
  - pose proof (Z.div_mod (asig_inicio asig) minutos_por_dia). lia.
  - apply Z.mod_pos_bound. lia.
  - lia.
  - exact Hfuel.
  - exists partes. repeat split; try done.
    by replace (asig_fin asig)
      with (asig_inicio asig + (asig_fin asig - asig_inicio asig)) at 1 by lia.
Qed.

(** C10: an assignment that starts inside day [k] and ends exactly at
    [(k + 1) * minutos_por_dia] takes the split branch and comes back as one
    part over the whole interval, marked [es_dividida] with [parte_numero] 1. *)
Theorem dividir_tarea_en_partes_fin_de_dia (asig : Asignacion)
    (minutos_por_dia k : Z) (combustible : nat) :
  0 < minutos_por_dia →
  k * minutos_por_dia <= asig_inicio asig < (k + 1) * minutos_por_dia →
  asig_fin asig = (k + 1) * minutos_por_dia →
  asig_inicio asig / minutos_por_dia ≠ asig_fin asig / minutos_por_dia
  ∧ dividir_tarea_en_partes (S combustible) asig minutos_por_dia
    = Termina [ {| inicio := asig_inicio asig;
                   fin := asig_fin asig;
                   duracion := asig_fin asig - asig_inicio asig;
                   es_dividida := true;
                   parte_numero := 1 |} ].
Proof.
  intros Hm [Hlo Hhi] Hfin.
  assert (asig_inicio asig / minutos_por_dia = k) as Hk.
  { symmetry. apply (Z.div_unique_pos _ _ k (asig_inicio asig - k * minutos_por_dia)); lia. }
  assert (asig_fin asig / minutos_por_dia = k + 1) as Hk1.
  { rewrite Hfin. apply Z.div_mul. lia. }
  split; [lia |].
  unfold dividir_tarea_en_partes.
  destruct (minutos_por_dia =? 0) eqn:H0; [apply Z.eqb_eq in H0; lia |].
  rewrite Hk, Hk1.
  destruct (Z.eqb k (k + 1)) eqn:Hkk; [apply Z.eqb_eq in Hkk; lia |].
  cbn [bucle_partes].
  assert ((asig_inicio asig <? asig_fin asig) = true) as -> by (apply Z.ltb_lt; lia).
  rewrite Hk.
  assert (Z.min ((k + 1) * minutos_por_dia) (asig_fin asig) = asig_fin asig) as ->
    by lia.
  destruct combustible; cbn [bucle_partes]; rewrite Z.ltb_irrefl; reflexivity.
Qed.

(** C10 on a task from minute 100 to the end of the first 540-minute day. *)
Lemma dividir_tarea_en_partes_fin_de_dia_testigo :
  0 < 540 ∧ 0 * 540 <= 100 < (0 + 1) * 540 ∧ 540 = (0 + 1) * 540
  ∧ dividir_tarea_en_partes 1 (mkAsignacion 100 540) 540
    = Termina [ mkParte 100 540 440 true 1 ].
Proof.
  split; [lia |]. split; [lia |]. split; [lia |].
  apply (dividir_tarea_en_partes_fin_de_dia (mkAsignacion 100 540) 540 0 0);
    cbn; lia.
Defined.

(** The end of a part that falls on a day boundary is printed as 18:00,
    whatever shift end is configured. *)
Lemma fin_real_de_limite (st : SessionState) (fin_parte minutos_por_dia : Z) :
  minutos_por_dia ≠ 0 → 0 < fin_parte → fin_parte mod minutos_por_dia = 0 →
  fin_real_de st fin_parte minutos_por_dia = Termina (mk_time 18 0).
Proof.
  intros Hm Hpos Hmod. unfold fin_real_de.
  destruct (minutos_por_dia =? 0) eqn:H0; [apply Z.eqb_eq in H0; lia |].
  rewrite Hmod. by destruct (0 <? fin_parte) eqn:Hlt; [| apply Z.ltb_ge in Hlt; lia].
Qed.

(** Scenario S2: 600 minutes from minute 0, days of 540 minutes, shift from
    08:00 to 18:00. *)
Example escenario_S2 :
  dividir_tarea_en_partes 600 (mkAsignacion 0 600) 540
  = Termina [ mkParte 0 540 540 true 1; mkParte 540 600 60 true 2 ]
  ∧ detalle_de_asignacion 2
      {| hora_inicio := Some (mk_time 8 0);
         hora_fin := Some (mk_time 18 0);
         minutos_por_dia_laboral := Some 540 |}
      (mkAsignacion 0 600)
    = Termina
        [ mkParteDetallada "08:00" "18:00" 540 true 1 0;
          mkParteDetallada "08:00" "09:00" 60 true 2 1 ].
Proof. split; reflexivity. Qed.

(** C7 at the failing input: with the shift configured 08:00 to 17:00 and
    480 effective minutes per day, a 600-minute task from minute 0 is split
    at minute 480 = (0 + 1) * 480, and the first part is given the end
    ["18:00"], not the configured shift end 17:00. *)
Theorem fin_de_parte_ignora_hora_fin :
  hora_fin turno_hasta_las_17 = Some (mk_time 17 0)
  ∧ fin_real_de turno_hasta_las_17 480 480 = Termina (mk_time 18 0)
  ∧ detalle_de_asignacion 2 turno_hasta_las_17 (mkAsignacion 0 600)
    = Termina
        [ {| inicio_planificado := "08:00";
             fin_planificado := "18:00";
             duracion_planificada := 480;
             det_es_dividida := true;
             det_parte_numero := 1;
             dia_numero := 0 |};
          {| inicio_planificado := "08:00";
             fin_planificado := "10:00";
             duracion_planificada := 120;
             det_es_dividida := true;
             det_parte_numero := 2;
             dia_numero := 1 |} ].
Proof. repeat split. Qed.

(** *** Clock times *)



(** *** The two splitting loops *)

Lemma minutos_a_hora_dia_termina (st : SessionState) (t m : Z) :
  m ≠ 0 → ∃ r, minutos_a_hora_dia st (Some t) (Some m) = Termina r.
Proof.
  intros Hm. unfold minutos_a_hora_dia.
  destruct (Z.eqb_spec m 0); [done |].
  repeat match goal with |- context [if ?b then _ else _] => destruct b end;
    eauto.
Qed.

Lemma fin_real_de_termina (st : SessionState) (t m : Z) :
  m ≠ 0 → ∃ r, fin_real_de st t m = Termina r.
Proof.
  intros Hm. unfold fin_real_de. destruct (Z.eqb_spec m 0); [done |].
  destruct (_ && _); [eauto | by apply minutos_a_hora_dia_termina].
Qed.

(** The loop of the detailed view and the loop of the save helper cut an
    assignment at the same minutes. *)
Lemma bucles_iguales (st : SessionState) (m fin_min : Z) :
  0 < m →
  ∀ combustible t n,
    t <= fin_min →
    (Z.to_nat (fin_min - t) <= combustible)%nat →
    ∃ partes detalle,
      bucle_partes combustible m fin_min t n = Termina partes
      ∧ bucle_detallado combustible st m t (fin_min - t) n = Termina detalle
      ∧ Forall2 (misma_parte st m) partes detalle.
Proof.
  intros Hm. induction combustible as [|c IH]; intros t n Hle Hfuel.
  - assert (t = fin_min) as -> by lia. exists [], []. cbn.
    rewrite Z.ltb_irrefl, Z.sub_diag. cbn. by repeat split.
  - cbn [bucle_partes bucle_detallado].
    destruct (Z.ltb_spec t fin_min) as [Hlt|Hge].
    + destruct (Z.ltb_spec 0 (fin_min - t)); [| lia].
      destruct (Z.eqb_spec m 0); [lia |].
      set (fp := Z.min ((t / m + 1) * m) fin_min).
      assert (t + Z.min (fin_min - t) ((t / m + 1) * m - t) = fp) as Hfp
        by (unfold fp; lia).
      rewrite Hfp.
      assert (fin_min - t - Z.min (fin_min - t) ((t / m + 1) * m - t)
              = fin_min - fp) as -> by (unfold fp; lia).
      destruct (dia_contiene t m Hm) as [Hlo Hhi].
      destruct (IH fp (n + 1)) as (r & det & Hr & Hdet & Hrel);
        [unfold fp; lia | unfold fp; lia |].
      rewrite Hr, Hdet.
      destruct (minutos_a_hora_dia_termina st t m) as [ir Hir]; [lia |].
      destruct (fin_real_de_termina st fp m) as [fr Hfr]; [lia |].
      rewrite Hir, Hfr. cbn. eexists _, _. split; [reflexivity |].
      split; [reflexivity |]. constructor; [| done].
      unfold misma_parte. cbn. repeat split; try lia; eauto.
    + destruct (Z.ltb_spec 0 (fin_min - t)); [lia |].
      exists [], []. by repeat split.
Qed.



(** *** What the save helpers store *)

Lemma bucle_partes_vacio (combustible : nat) (m fin_min n : Z) :
  bucle_partes combustible m fin_min fin_min n = Termina [].
Proof. destruct combustible; cbn; by rewrite Z.ltb_irrefl. Qed.

(** The parts of an assignment: more than one exactly when a day boundary
    falls strictly inside it. *)
Lemma partes_de_asignacion (asig : Asignacion) (m : Z) (combustible : nat) :
  asig_inicio asig <= asig_fin asig →
  0 < m →
  (combustible_suficiente asig <= combustible)%nat →
  ∃ p resto,
    dividir_tarea_en_partes combustible asig m = Termina (p :: resto)
    ∧ encadenadas (asig_inicio asig) (p :: resto) (asig_fin asig)
    ∧ Forall (en_un_dia m) (p :: resto)
    ∧ suma_duraciones (p :: resto) = asig_fin asig - asig_inicio asig
    ∧ (cruza_un_dia asig m → resto ≠ [] ∧ asig_inicio asig < fin p)
    ∧ (¬ cruza_un_dia asig m →
       resto = [] ∧ duracion p = asig_fin asig - asig_inicio asig).
Proof.
  intros Hle Hm Hfuel. unfold dividir_tarea_en_partes, cruza_un_dia.
  unfold combustible_suficiente in Hfuel.
  destruct (Z.eqb_spec m 0); [lia |].
  destruct (dia_contiene (asig_inicio asig) m Hm) as [Hlo Hhi].
  destruct (dia_contiene (asig_fin asig) m Hm) as [Hlo' Hhi'].
  destruct (Z.eqb_spec (asig_inicio asig / m) (asig_fin asig / m)) as [Hd|Hd].
  - eexists _, []. split; [reflexivity |]. cbn.
    split; [done |]. split.
    { constructor; [| done]. split; [| cbn; lia].
      exists (asig_inicio asig / m). cbn. rewrite Hd in Hlo |- *. lia. }
    split; [unfold suma_duraciones; cbn; lia |].
    split; [rewrite Hd; lia | done].
  - assert (asig_inicio asig < asig_fin asig) as Hlt.
    { destruct (decide (asig_inicio asig = asig_fin asig)) as [E|]; [| lia].
      by rewrite E in Hd. }
    destruct combustible as [|c]; [lia |].
    cbn [bucle_partes]. destruct (Z.ltb_spec (asig_inicio asig) (asig_fin asig));
      [| lia].
    set (fp := Z.min ((asig_inicio asig / m + 1) * m) (asig_fin asig)).
    destruct (bucle_partes_correcto m (asig_fin asig) Hm c fp 2)
      as (resto & Hr & Hch & Hwin & _ & _ & Hsum); [unfold fp; lia | unfold fp; lia |].
    change (1 + 1) with 2. rewrite Hr. cbn.
    eexists _, resto. split; [reflexivity |]. cbn.
    split; [done |]. split.
    { constructor; [| done]. split; [| cbn; unfold fp; lia].
      exists (asig_inicio asig / m). cbn. unfold fp. lia. }
    split; [unfold suma_duraciones in *; cbn; lia |].
    split.
    + intros Hc. split; [| unfold fp; lia].
      intros ->. cbn in Hch. unfold fp in Hch. lia.
    + intros Hc. assert (fp = asig_fin asig) as Hfp by (unfold fp; lia).
      rewrite Hfp in Hr. rewrite bucle_partes_vacio in Hr. injection Hr as <-.
      split; [done | lia].
Qed.

Lemma imap_ids_NoDup (tarea_id : string) (partes : list Parte) (k : nat) :
  NoDup (imap (λ i (_ : Parte),
                 tarea_id +:+ ".P" +:+ Cadenas.str_de_entero (Z.of_nat (k + i) + 1))
              partes).
Proof.
  revert k. induction partes as [|p r IH]; intros k; [constructor |].
  cbn [imap]. apply NoDup_cons. split.
  - intros [i Hi]%list_elem_of_lookup_1.
    apply list_lookup_imap_Some in Hi as (? & _ & Hi). cbn in Hi.
    apply CadenasProps.append_cancela, CadenasProps.append_cancela in Hi.
    apply CadenasProps.str_de_entero_inyectiva in Hi. lia.
  - specialize (IH (S k)).
    erewrite imap_ext; [exact IH |]. intros i x _. cbn.
    by replace (k + S i)%nat with (S k + i)%nat by lia.
Qed.



Lemma ultima_parte (m : Z) (l : list Parte) (a b : Z) :
  encadenadas a l b → Forall (en_un_dia m) l → l ≠ [] →
  ∃ p, last l = Some p ∧ a <= inicio p ∧ fin p = b ∧ en_un_dia m p.
Proof.
  revert a. induction l as [|p r IH]; intros a Hch Hwin Hne; [done |].
  cbn in Hch. destruct Hch as [Hi Hch].
  apply Forall_cons in Hwin as [Hp Hr].
  destruct r as [|q r'].
  - exists p. cbn in Hch. cbn. split; [done |]. split; [lia |]. by split.
  - destruct (IH (fin p) Hch Hr ltac:(done)) as (u & Hu & Hle & Hf & Hd).
    exists u. split; [done |]. split; [| by split].
    destruct Hp as (_ & ? & _). lia.
Qed.

Lemma tarea_info_tras_ultima (tarea_id : string) (m : Z) (l : list Parte)
    (anterior : option FilaResultado) (p : Parte) :
  last l = Some p →
  tarea_info_tras tarea_id m l anterior
  = Some {| res_tarea_id := tarea_id;
            res_duracion_planificada := duracion p;
            res_inicio_planificado := inicio p;
            res_fin_planificado := fin p;
            res_dia_semana := inicio p / m;
            res_es_dividida := es_dividida p;
            res_parte_numero := parte_numero p |}.
Proof.
  intros (l' & ->)%last_Some. unfold tarea_info_tras.
  by rewrite fold_left_app.
Qed.



End CalendarioProps.

(** ** KPI calculator *)

Module KPIProps.

Import KPI.

Lemma razon_por_cien (a b : Z) :
  0 < b → (inject_Z a / inject_Z b * Q100 == (a * 100) # (Z.to_pos b))%Q.
Proof.
  intros Hb. destruct b as [|p|p]; try lia.
  unfold Qdiv, Qinv, Qmult, Qeq, Q100, inject_Z. cbn. lia.
Qed.

Lemma razon_no_negativa (a b : Z) :
  0 <= a → 0 < b → (0 <= inject_Z a / inject_Z b * Q100)%Q.
Proof.
  intros Ha Hb. rewrite razon_por_cien by done. unfold Qle. cbn. lia.
Qed.

Lemma razon_hasta_cien (a b : Z) :
  0 < b → (inject_Z a / inject_Z b * Q100 <= Q100)%Q ↔ a <= b.
Proof.
  intros Hb. rewrite razon_por_cien by done. unfold Qle, Q100, inject_Z. cbn.
  rewrite Z2Pos.id by done. lia.
Qed.

Lemma cero_en_porcentaje : en_porcentaje 0%Q.
Proof. split; unfold Qle; cbn; lia. Qed.

Lemma cien_en_porcentaje : en_porcentaje Q100.
Proof. split; unfold Qle; cbn; lia. Qed.

(** A share of a non-empty total is a percentage. *)
Lemma parte_en_porcentaje (a b : Z) :
  0 <= a → a <= b → 0 < b →
  en_porcentaje (inject_Z a / inject_Z b * Q100)%Q.
Proof.
  intros Ha Hab Hb. split; [by apply razon_no_negativa |].
  by apply razon_hasta_cien.
Qed.

Lemma disponibilidad_en_rango (ejecuciones : list Ejecucion) :
  en_porcentaje (_calcular_disponibilidad ejecuciones).
Proof.
  unfold _calcular_disponibilidad.
  destruct ejecuciones as [|e r]; [apply cero_en_porcentaje |].
  destruct (0 <? _); [| apply cien_en_porcentaje].
  split.
  - apply Q.min_glb; [apply cien_en_porcentaje | apply Q.le_max_l].
  - apply Q.le_min_l.
Qed.

Lemma calidad_en_rango (ejecuciones : list Ejecucion) :
  en_porcentaje (_calcular_calidad ejecuciones).
Proof.
  unfold _calcular_calidad.
  destruct ejecuciones as [|e r]; [apply cero_en_porcentaje |].
  destruct (0 <? _) eqn:Hlen; [| apply cien_en_porcentaje].
  apply Z.ltb_lt in Hlen. apply parte_en_porcentaje; [lia | | done].
  apply inj_le, length_filter.
Qed.

Lemma otif_en_rango (ejecuciones : list Ejecucion) tolerancia semana anio :
  en_porcentaje
    (otif_porcentaje
       (calcular_cumplimiento_plazos ejecuciones tolerancia semana anio)).
Proof.
  unfold calcular_cumplimiento_plazos.
  destruct ejecuciones as [|e r]; [apply cero_en_porcentaje |].
  cbn [otif_porcentaje].
  destruct (0 <? _) eqn:Hlen; [| apply cero_en_porcentaje].
  apply Z.ltb_lt in Hlen. apply parte_en_porcentaje; [unfold contar; lia | | done].
  unfold contar. apply inj_le.
  etransitivity; [apply length_filter |]. by rewrite length_map.
Qed.

Lemma suma_no_nulos_no_negativa (campo : Ejecucion → Campo Z) l :
  Forall (λ e, no_negativo (campo e)) l → 0 <= suma_no_nulos campo l.
Proof.
  unfold suma_no_nulos. induction 1 as [|e r He _ IH]; cbn; [lia |].
  destruct (campo e) as [| |v]; cbn in *; lia.
Qed.

Lemma desde_horas_no_negativa semana anio l :
  Forall (bien_formada semana anio) l →
  ∀ acc, 0 <= acc →
    0 <= fold_left (λ acc e, match dur_plan_total e semana anio with
                             | Some d => acc + d
                             | None => acc
                             end) l acc.
Proof.
  induction 1 as [|e r He _ IH]; intros acc Hacc; cbn; [done |].
  apply IH. destruct He as (_ & _ & _ & Hd).
  destruct (dur_plan_total e semana anio); lia.
Qed.

Lemma rendimiento_no_negativo (ejecuciones : list Ejecucion) semana anio :
  Forall (bien_formada semana anio) ejecuciones →
  (0 <= _calcular_rendimiento ejecuciones semana anio)%Q.
Proof.
  intros Hbf. unfold _calcular_rendimiento.
  destruct ejecuciones as [|e r] eqn:He; [apply cero_en_porcentaje |].
  rewrite <- He in *. clear He.
  destruct (0 <? suma_no_nulos duracion_real ejecuciones) eqn:Hreal;
    [| apply cien_en_porcentaje].
  apply Z.ltb_lt in Hreal. apply razon_no_negativa; [| done].
  destruct (_ =? 0).
  - apply suma_no_nulos_no_negativa.
    eapply Forall_impl; [exact Hbf |]. by intros x (_ & ? & _).
  - by apply desde_horas_no_negativa.
Qed.

Lemma oee_no_negativo (d r c : Q) :
  (0 <= d)%Q → (0 <= r)%Q → (0 <= c)%Q → (0 <= calcular_oee d r c)%Q.
Proof.
  intros Hd Hr Hc. unfold calcular_oee.
  apply Qle_shift_div_l; [reflexivity |]. rewrite Qmult_0_l.
  by repeat apply Qmult_le_0_compat.
Qed.

Lemma oee_hasta_cien (d r c : Q) :
  en_porcentaje d → en_porcentaje r → en_porcentaje c →
  (calcular_oee d r c <= Q100)%Q.
Proof.
  intros Hd Hr Hc. unfold calcular_oee.
  apply Qle_shift_div_r; [reflexivity |].
  assert (d * r * c <= Q100 * Q100 * Q100)%Q as H.
  { apply Qmult_le_compat_nonneg; [split |].
    - apply Qmult_le_0_compat; [apply Hd | apply Hr].
    - apply Qmult_le_compat_nonneg; [apply Hd | apply Hr].
    - apply Hc. }
  eapply Qle_trans; [exact H |]. unfold Qle. cbn. lia.
Qed.

Lemma acumular_no_negativo maq dur_real dur_plan paradas maquinas :
  0 <= dur_real → 0 <= paradas →
  Forall tiempos_no_negativos maquinas →
  Forall tiempos_no_negativos (acumular maq dur_real dur_plan paradas maquinas).
Proof.
  intros Hd Hp. induction 1 as [|[k a] r [Ha1 Ha2] Hr IH]; cbn.
  - constructor; [split; cbn; lia | constructor].
  - destruct (String.eqb k maq); constructor; try done.
    split; cbn in *; lia.
Qed.

Lemma get_con_no_negativo (c : Campo Z) v :
  no_negativo c → get_con c 0 = Some v → 0 <= v.
Proof. destruct c; cbn; intros H [=]; subst; lia || done. Qed.

Lemma acumular_todas_no_negativo semana anio ejecuciones :
  Forall (bien_formada semana anio) ejecuciones →
  ∀ maquinas resultado,
    Forall tiempos_no_negativos maquinas →
    acumular_todas ejecuciones maquinas = Some resultado →
    Forall tiempos_no_negativos resultado.
Proof.
  induction 1 as [|e r (Hr & Hp & Hs & _) _ IH]; intros maquinas res Hm Hres;
    cbn in Hres.
  - by injection Hres as <-.
  - destruct (maquina_de e); [| by eapply IH].
    destruct (get_con (duracion_real e) 0) as [dr|] eqn:Hdr; [| done].
    destruct (get_con (duracion_planificada e) 0) as [dp|]; [| done].
    destruct (get_con (tiempo_paradas e) 0) as [pa|] eqn:Hpa; [| done].
    eapply IH; [| exact Hres]. apply acumular_no_negativo.
    + exact (get_con_no_negativo _ _ Hr Hdr).
    + exact (get_con_no_negativo _ _ Hs Hpa).
    + exact Hm.
Qed.

(** The utilization of one machine: never negative, and within 100 exactly
    when the recorded time fits in the configured capacity. *)
Lemma utilizacion_de_completar (k : KPIExporter) (a : Acumulado) :
  0 <= tiempo_productivo a → 0 <= tiempo_setup a →
  (0 <= utilizacion_total (completar k a))%Q
  ∧ ((utilizacion_total (completar k a) <= Q100)%Q
     ↔ (tiempo_total (completar k a) <= 0
        ∨ tiempo_productivo a + tiempo_setup a <= tiempo_total (completar k a))).
Proof.
  intros Hp Hs. unfold completar. cbn.
  destruct (0 <? dias_laborales k * minutos_por_dia k) eqn:Hcap.
  - apply Z.ltb_lt in Hcap. split; [apply razon_no_negativa; lia |].
    rewrite razon_hasta_cien by done. lia.
  - apply Z.ltb_ge in Hcap. split; [apply cero_en_porcentaje |].
    split; [auto | intros _; apply cero_en_porcentaje].
Qed.

(** Scenario S5: nine of ten tasks within five minutes of plan. *)
Example escenario_S5 :
  let c := calcular_cumplimiento_plazos ejecuciones_S5 5 (Some 42) (Some 2025) in
  Qeq (otif_porcentaje c) (inject_Z 90)
  ∧ tareas_a_tiempo c = 9 ∧ tareas_retrasadas c = 1.
Proof. repeat split. Qed.

(** Scenario S6: four tasks of an hour with five minutes stopped each. *)
Example escenario_S6 :
  Qeq (_calcular_disponibilidad ejecuciones_S6) (275 # 3)
  ∧ Qeq (_calcular_rendimiento ejecuciones_S6 (Some 42) (Some 2025)) Q100
  ∧ Qeq (_calcular_calidad ejecuciones_S6) Q100
  ∧ Qeq (oee_global ejecuciones_S6 (Some 42) (Some 2025)) (275 # 3).
Proof. repeat split. Qed.




Import Cadenas.

(** *** Every execution is counted once *)

Lemma contar_cons (p x : Puntualidad) (l : list Puntualidad) :
  contar p (x :: l) = (if decide (x = p) then 1 else 0) + contar p l.
Proof.
  unfold contar. rewrite filter_cons. destruct (decide (x = p)); cbn [length]; lia.
Qed.

Lemma contar_total (l : list Puntualidad) :
  contar A_TIEMPO l + contar CON_RETRASO l + contar ADELANTADA l
  = Z.of_nat (length l).
Proof.
  induction l as [|x l IH]; [done |].
  rewrite !contar_cons. cbn [length].
  destruct x; repeat case_decide; try done; lia.
Qed.

(** X13: [calcular_cumplimiento_plazos] counts every execution in exactly one
    of its three classes: on time, late, early add up to [total_tareas],
    which is the number of executions. *)
Theorem cumplimiento_cuenta_cada_tarea (ejecuciones : list Ejecucion)
    (tolerancia_minutos : Z) (semana_produccion anio : option Z) :
  let c := calcular_cumplimiento_plazos ejecuciones tolerancia_minutos
             semana_produccion anio in
  tareas_a_tiempo c + tareas_retrasadas c + tareas_adelantadas c
  = total_tareas c
  ∧ total_tareas c = Z.of_nat (length ejecuciones)
  ∧ 0 <= tareas_a_tiempo c ∧ 0 <= tareas_retrasadas c
  ∧ 0 <= tareas_adelantadas c.
Proof.
  cbv zeta. unfold calcular_cumplimiento_plazos.
  destruct ejecuciones as [|e l]; [done |].
  cbv zeta. cbn [tareas_a_tiempo tareas_retrasadas tareas_adelantadas total_tareas].
  rewrite contar_total, length_map.
  split; [done |]. split; [done |]. unfold contar. lia.
Qed.

(** *** The planned duration rebuilt from the clock times *)

Lemma construir_datetime_reloj (hora : string) (dia sem an t : Z) :
  _construir_datetime_planificado hora dia sem an = Some t →
  ∃ h m,
    map int_de_cadena (split ":"%char hora) = [Some h; Some m]
    ∧ 0 <= h <= 23 ∧ 0 <= m <= 59
    ∧ t = (dias_antes_de_anio an + 4
           - (dias_antes_de_anio an + 4 + 6) mod 7
           + (sem - 1) * 7 + dia) * 1440 + h * 60 + m.
Proof.
  unfold _construir_datetime_planificado.
  destruct (_ || _); [done |].
  destruct (map int_de_cadena (split ":"%char hora))
    as [|[h|] [|[m|] [|? ?]]]; try done.
  destruct (negb _); [done |].
  cbv zeta.
  destruct (_ && _) eqn:Hok; [| done].
  intros [= <-]. exists h, m. split; [done |].
  repeat (apply andb_prop in Hok as [Hok ?]). lia.
Qed.

(** X14: the planned total duration that the calculator rebuilds from
    [inicio_hora] and [fin_hora] is the difference of the two clock times,
    whatever the day, the week and the year: it lies strictly between minus
    one day and one day, and is negative when [fin_hora] is the earlier
    clock time. *)
Theorem dur_plan_total_es_diferencia_de_reloj (e : Ejecucion)
    (semana_produccion anio : option Z) (d : Z) :
  dur_plan_total e semana_produccion anio = Some d →
  ∃ ih fh h1 m1 h2 m2,
    get (inicio_hora e) = Some ih
    ∧ get (fin_hora e) = Some fh
    ∧ map int_de_cadena (split ":"%char ih) = [Some h1; Some m1]
    ∧ map int_de_cadena (split ":"%char fh) = [Some h2; Some m2]
    ∧ d = (h2 * 60 + m2) - (h1 * 60 + m1)
    ∧ -1440 < d < 1440.
Proof.
  unfold dur_plan_total.
  destruct (cadena_cierta (inicio_hora e)) as [ih|] eqn:Hih; [| done].
  destruct (cadena_cierta (fin_hora e)) as [fh|] eqn:Hfh; [| done].
  destruct (get (dia_semana e)) as [ds|]; [| done].
  destruct semana_produccion as [sem|]; [| done].
  destruct anio as [an|]; [| done].
  destruct (_ && _); [| done].
  destruct (_construir_datetime_planificado ih ds sem an) as [t1|] eqn:H1;
    [| done].
  destruct (_construir_datetime_planificado fh ds sem an) as [t2|] eqn:H2;
    [| done].
  intros [= <-].
  apply construir_datetime_reloj in H1 as (h1 & m1 & Hp1 & ? & ? & ->).
  apply construir_datetime_reloj in H2 as (h2 & m2 & Hp2 & ? & ? & ->).
  exists ih, fh, h1, m1, h2, m2.
  assert (∀ c s, cadena_cierta c = Some s → get c = Some s) as Hget.
  { intros [| |s'] s; cbn; try done. by destruct (String.eqb s' ""). }
  split; [by apply Hget |]. split; [by apply Hget |].
  split; [done |]. split; [done |]. lia.
Qed.

Lemma dur_plan_total_es_diferencia_de_reloj_testigo :
  ∃ ih fh h1 m1 h2 m2,
    get (inicio_hora ejecucion_larga) = Some ih
    ∧ get (fin_hora ejecucion_larga) = Some fh
    ∧ map int_de_cadena (split ":"%char ih) = [Some h1; Some m1]
    ∧ map int_de_cadena (split ":"%char fh) = [Some h2; Some m2]
    ∧ 480 = (h2 * 60 + m2) - (h1 * 60 + m1)
    ∧ -1440 < 480 < 1440.
Proof.
  apply (dur_plan_total_es_diferencia_de_reloj ejecucion_larga
           (Some 42) (Some 2025) 480).
  by vm_compute.
Defined.

(** *** The accumulators per machine *)

Lemma entrada_de_acumular (k maq : string) (r p s : Z)
    (l : list (string * Acumulado)) :
  entrada_de k (acumular maq r p s l)
  = if decide (k = maq)
    then Some (let a := default (mkAcumulado 0 0 0 0) (entrada_de maq l) in
               {| tiempo_productivo := tiempo_productivo a + r;
                  tiempo_planificado := tiempo_planificado a + p;
                  tiempo_setup := tiempo_setup a + s;
                  num_tareas := num_tareas a + 1 |})
    else entrada_de k l.
Proof.
  induction l as [|[k' a] l IH]; cbn [acumular entrada_de].
  - destruct (decide (k = maq)) as [->|Hne].
    + by rewrite String.eqb_refl.
    + destruct (String.eqb_spec maq k); [by subst |]. done.
  - destruct (String.eqb_spec k' maq) as [->|Hk'].
    + cbn [entrada_de]. destruct (decide (k = maq)) as [->|Hne].
      * by rewrite String.eqb_refl.
      * destruct (String.eqb_spec maq k); [by subst |]. done.
    + cbn [entrada_de]. destruct (String.eqb_spec k' k) as [->|Hkk].
      * by rewrite decide_False.
      * exact IH.
Qed.

Lemma claves_acumular (maq : string) (r p s : Z)
    (l : list (string * Acumulado)) :
  (acumular maq r p s l).*1
  = if decide (maq ∈ l.*1) then l.*1 else l.*1 ++ [maq].
Proof.
  induction l as [|[k' a] l IH]; cbn [acumular fmap list_fmap fst].
  - rewrite decide_False; [done |]. apply not_elem_of_nil.
  - destruct (String.eqb_spec k' maq) as [->|Hk'].
    + cbn. rewrite decide_True; [done |]. apply elem_of_cons. by left.
    + cbn. rewrite IH. destruct (decide (maq ∈ l.*1)) as [Hin|Hin].
      * rewrite decide_True; [done |]. apply elem_of_cons. by right.
      * rewrite decide_False; [done |].
        intros [?|?]%elem_of_cons; by subst.
Qed.

Lemma entrada_de_Some (k : string) (a : Acumulado)
    (l : list (string * Acumulado)) :
  NoDup l.*1 → (k, a) ∈ l ↔ entrada_de k l = Some a.
Proof.
  induction l as [|[k' a'] l IH]; cbn [entrada_de]; intros Hnd.
  - split; [by intros ?%elem_of_nil | done].
  - apply NoDup_cons in Hnd as [Hk' Hnd]. cbn in Hk'.
    rewrite elem_of_cons. destruct (String.eqb_spec k' k) as [->|Hne].
    + split.
      * intros [[= ->]|Hin]; [done |].
        destruct Hk'. apply list_elem_of_fmap. by exists (k, a).
      * intros [= ->]. by left.
    + rewrite <- (IH Hnd). split; [| by right].
      intros [[= -> ->]|Hin]; done.
Qed.

Lemma entrada_de_None (k : string) (l : list (string * Acumulado)) :
  k ∉ l.*1 ↔ entrada_de k l = None.
Proof.
  induction l as [|[k' a'] l IH]; cbn [entrada_de fmap list_fmap fst].
  - split; [done | intros _; apply not_elem_of_nil].
  - rewrite not_elem_of_cons. destruct (String.eqb_spec k' k) as [->|Hne].
    + split; [by intros [? _] | done].
    + rewrite <- IH. split; [by intros [_ ?] | by split].
Qed.

Lemma NoDup_claves_acumular (maq : string) (r p s : Z)
    (l : list (string * Acumulado)) :
  NoDup l.*1 → NoDup (acumular maq r p s l).*1.
Proof.
  intros Hnd. rewrite claves_acumular. case_decide; [done |].
  apply NoDup_app. split; [done |]. split; [| apply NoDup_singleton].
  intros x Hx ->%list_elem_of_singleton. done.
Qed.

Lemma NoDup_claves_acumular_todas (ejecuciones : list Ejecucion) :
  ∀ l0 l, acumular_todas ejecuciones l0 = Some l → NoDup l0.*1 → NoDup l.*1.
Proof.
  induction ejecuciones as [|e resto IH]; intros l0 l; cbn [acumular_todas].
  - by intros [= ->].
  - destruct (maquina_de e) as [maq|]; [| apply IH].
    destruct (get_con (duracion_real e) 0) as [r|]; [| done].
    destruct (get_con (duracion_planificada e) 0) as [p|]; [| done].
    destruct (get_con (tiempo_paradas e) 0) as [s|]; [| done].
    intros Hl Hnd. apply (IH _ _ Hl). by apply NoDup_claves_acumular.
Qed.

Lemma suma_no_nulos_cons (campo : Ejecucion → Campo Z) (e : Ejecucion)
    (l : list Ejecucion) (v : Z) :
  get_con (campo e) 0 = Some v →
  suma_no_nulos campo (e :: l) = v + suma_no_nulos campo l.
Proof.
  unfold suma_no_nulos. cbn [omap list_omap].
  destruct (campo e); cbn; [by intros [= <-] | done | by intros [= <-]].
Qed.

Lemma acumular_todas_entrada (ejecuciones : list Ejecucion) :
  ∀ l0 l k,
    acumular_todas ejecuciones l0 = Some l →
    let a := default (mkAcumulado 0 0 0 0) (entrada_de k l) in
    let a0 := default (mkAcumulado 0 0 0 0) (entrada_de k l0) in
    let suyas := filter (λ e, maquina_de e = Some k) ejecuciones in
    (is_Some (entrada_de k l) ↔ is_Some (entrada_de k l0) ∨ suyas ≠ [])
    ∧ tiempo_productivo a
      = tiempo_productivo a0 + suma_no_nulos duracion_real suyas
    ∧ tiempo_planificado a
      = tiempo_planificado a0 + suma_no_nulos duracion_planificada suyas
    ∧ tiempo_setup a = tiempo_setup a0 + suma_no_nulos tiempo_paradas suyas
    ∧ num_tareas a = num_tareas a0 + Z.of_nat (length suyas).
Proof.
  induction ejecuciones as [|e resto IH]; intros l0 l k; cbn [acumular_todas].
  - intros [= ->]. cbn. unfold suma_no_nulos. cbn.
    split; [| lia]. split; [by left | by intros [?|?]].
  - destruct (maquina_de e) as [maq|] eqn:Hmaq.
    2:{ intros Hl. rewrite filter_cons_False by (by rewrite Hmaq).
        by apply IH. }
    destruct (get_con (duracion_real e) 0) as [r|] eqn:Hr; [| done].
    destruct (get_con (duracion_planificada e) 0) as [p|] eqn:Hp; [| done].
    destruct (get_con (tiempo_paradas e) 0) as [s|] eqn:Hs; [| done].
    intros Hl. specialize (IH _ _ k Hl). cbv zeta in IH |- *.
    rewrite entrada_de_acumular in IH.
    destruct (decide (k = maq)) as [->|Hne].
    + rewrite filter_cons_True by exact Hmaq.
      rewrite (suma_no_nulos_cons duracion_real _ _ _ Hr),
        (suma_no_nulos_cons duracion_planificada _ _ _ Hp),
        (suma_no_nulos_cons tiempo_paradas _ _ _ Hs).
      set (a0 := default _ (entrada_de maq l0)) in *.
      set (a := default _ (entrada_de maq l)) in *.
      cbn in IH. cbn [length].
      destruct IH as (Hsome & ? & ? & ? & ?).
      split; [| lia]. split; [by right |].
      intros _. apply Hsome. by left.
    + rewrite filter_cons_False by (rewrite Hmaq; congruence). exact IH.
Qed.

Lemma claves_acumular_todas (ejecuciones : list Ejecucion)
    (l : list (string * Acumulado)) (k : string) :
  acumular_todas ejecuciones [] = Some l →
  k ∈ l.*1 ↔ ∃ e, e ∈ ejecuciones ∧ maquina_de e = Some k.
Proof.
  intros Hl.
  destruct (acumular_todas_entrada ejecuciones [] l k Hl) as [Hsome _].
  cbn [entrada_de] in Hsome.
  destruct (entrada_de k l) as [a|] eqn:Ha.
  - assert (k ∈ l.*1) as Hin.
    { destruct (decide (k ∈ l.*1)) as [|Hno]; [done |].
      apply entrada_de_None in Hno. congruence. }
    split; [| done]. intros _.
    destruct (proj1 Hsome) as [[? [=]]|Hne]; [by eexists |].
    destruct (filter _ ejecuciones) as [|e r] eqn:Hf; [done |].
    assert (e ∈ filter (λ e, maquina_de e = Some k) ejecuciones) as He
      by (rewrite Hf; apply elem_of_cons; by left).
    apply list_elem_of_filter in He as [? ?]. by exists e.
  - apply entrada_de_None in Ha. split; [done |].
    intros (e & He & Hk). exfalso.
    assert (is_Some (@None Acumulado)) as [? [=]].
    apply Hsome. right. intros Hnil.
    assert (e ∈ filter (λ e, maquina_de e = Some k) ejecuciones) as Hin
      by (by apply list_elem_of_filter).
    rewrite Hnil in Hin. by apply elem_of_nil in Hin.
Qed.

(** X15: when [calcular_eficiencia_machines] returns, its dictionary has one
    entry for each machine that some execution names (the machine used, else
    the planned one) and no other; the entry of a machine counts its
    executions and adds up their real durations, planned durations and stop
    times, so no execution with a machine is lost or counted twice. *)
Theorem eficiencia_conserva_por_maquina (k : KPIExporter)
    (ejecuciones : list Ejecucion) (maquinas : list (string * DatosMaquina)) :
  calcular_eficiencia_machines k ejecuciones = Some maquinas →
  NoDup maquinas.*1
  ∧ (∀ maq, maq ∈ maquinas.*1
            ↔ ∃ e, e ∈ ejecuciones ∧ maquina_de e = Some maq)
  ∧ (∀ maq data, (maq, data) ∈ maquinas →
       let suyas := filter (λ e, maquina_de e = Some maq) ejecuciones in
       num_tareas (acumulado data) = Z.of_nat (length suyas)
       ∧ tiempo_productivo (acumulado data)
         = suma_no_nulos duracion_real suyas
       ∧ tiempo_planificado (acumulado data)
         = suma_no_nulos duracion_planificada suyas
       ∧ tiempo_setup (acumulado data)
         = suma_no_nulos tiempo_paradas suyas).
Proof.
  unfold calcular_eficiencia_machines.
  destruct ejecuciones as [|e0 resto] eqn:Hej.
  { intros [= <-]. split; [constructor |]. split.
    - intros maq. split; [by intros ?%elem_of_nil |].
      by intros (e & ?%elem_of_nil & _).
    - by intros maq data ?%elem_of_nil. }
  rewrite <- Hej. clear Hej e0 resto.
  destruct (acumular_todas ejecuciones []) as [l|] eqn:Hl; [| done].
  cbn [mbind option_bind]. intros [= <-].
  assert ((map (λ '(maq, data), (maq, completar k data)) l).*1 = l.*1) as Hk.
  { clear. induction l as [|[? ?] l IH]; [done |]. cbn. by rewrite <- IH. }
  assert (NoDup l.*1) as Hnd.
  { apply (NoDup_claves_acumular_todas _ _ _ Hl). constructor. }
  rewrite Hk. split; [done |]. split.
  - intros maq. by apply claves_acumular_todas.
  - intros maq data Hin.
    apply list_elem_of_fmap in Hin as ([maq' a] & [= -> ->] & Hin).
    apply (entrada_de_Some _ _ _ Hnd) in Hin.
    pose proof (acumular_todas_entrada ejecuciones [] l maq' Hl) as H.
    cbv zeta in H |- *. rewrite Hin in H. cbn in H |- *.
    destruct H as (_ & ? & ? & ? & ?). lia.
Qed.

Lemma eficiencia_conserva_por_maquina_testigo :
  calcular_eficiencia_machines calculadora ejecuciones_S6
  = Some [("M1", completar calculadora (mkAcumulado 240 240 20 4))]
  ∧ NoDup [("M1", completar calculadora (mkAcumulado 240 240 20 4))].*1.
Proof.
  split; [by vm_compute |].
  by apply (eficiencia_conserva_por_maquina calculadora ejecuciones_S6 _
              ltac:(by vm_compute)).
Defined.

Lemma get_con_None (c : Campo Z) : get_con c 0 = None ↔ c = Nulo.
Proof. by destruct c. Qed.

Lemma acumular_todas_None (ejecuciones : list Ejecucion) :
  ∀ l0, acumular_todas ejecuciones l0 = None
        ↔ Exists con_dato_nulo ejecuciones.
Proof.
  induction ejecuciones as [|e resto IH]; intros l0; cbn [acumular_todas].
  - split; [done | by intros ?%Exists_nil].
  - rewrite Exists_cons. unfold con_dato_nulo at 1.
    destruct (maquina_de e) as [maq|].
    2:{ rewrite IH. split; [by right |].
        intros [[[? [=]] _]|?]; done. }
    destruct (get_con (duracion_real e) 0) as [r|] eqn:Hr.
    2:{ apply get_con_None in Hr. split; [| done].
        intros _. left. split; [by eexists | by left]. }
    destruct (get_con (duracion_planificada e) 0) as [p|] eqn:Hp.
    2:{ apply get_con_None in Hp. split; [| done].
        intros _. left. split; [by eexists | right; by left]. }
    destruct (get_con (tiempo_paradas e) 0) as [s|] eqn:Hs.
    2:{ apply get_con_None in Hs. split; [| done].
        intros _. left. split; [by eexists | right; by right]. }
    rewrite IH. split; [by right |].
    intros [[_ [H|[H|H]]]|?]; [| | | done]; apply get_con_None in H; congruence.
Qed.

(** X16: [calcular_eficiencia_machines] raises its [TypeError] exactly when
    some execution that names a machine has its real duration, its planned
    duration or its stop time bound to [None]; an absent key counts as zero,
    and an execution without a machine is skipped whatever it holds. *)
Theorem eficiencia_TypeError (k : KPIExporter) (ejecuciones : list Ejecucion) :
  calcular_eficiencia_machines k ejecuciones = None
  ↔ ∃ e, e ∈ ejecuciones ∧ con_dato_nulo e.
Proof.
  rewrite <- Exists_exists. unfold calcular_eficiencia_machines.
  destruct ejecuciones as [|e0 resto] eqn:Hej.
  { split; [done | by intros ?%Exists_nil]. }
  rewrite <- Hej. clear Hej e0 resto.
  rewrite <- (acumular_todas_None ejecuciones []).
  by destruct (acumular_todas ejecuciones []).
Qed.

(** *** The bottleneck *)

Lemma max_tiempo_productivo_cota (maquinas : list (string * DatosMaquina))
    (x : string * DatosMaquina) :
  x ∈ maquinas →
  tiempo_productivo (acumulado x.2) <= max_tiempo_productivo maquinas.
Proof.
  unfold max_tiempo_productivo. intros Hx.
  assert (tiempo_productivo (acumulado x.2)
          ∈ map (λ x, tiempo_productivo (acumulado x.2)) maquinas) as Hin
    by (by apply (list_elem_of_fmap_2
                    (λ x, tiempo_productivo (acumulado x.2)))).
  clear Hx. revert Hin.
  destruct (map _ maquinas) as [|t r]; intros Hx;
    [by apply elem_of_nil in Hx |].
  destruct (CadenasProps.fold_left_max_cota r t) as [Ht Hr].
  apply elem_of_cons in Hx as [->|Hx]; [done |].
  by apply (proj1 (Forall_forall _ _) Hr).
Qed.

Lemma sobre_85 (k : KPIExporter) (a : Acumulado) :
  negb (Qle_bool (utilizacion_total (completar k a)) (inject_Z 85)) = true
  ↔ 0 < dias_laborales k * minutos_por_dia k
    ∧ 85 * (dias_laborales k * minutos_por_dia k)
      < 100 * (tiempo_productivo a + tiempo_setup a).
Proof.
  rewrite negb_true_iff, <- not_true_iff_false, Qle_bool_iff.
  unfold completar. cbn [utilizacion_total].
  destruct (0 <? dias_laborales k * minutos_por_dia k) eqn:Hcap.
  - apply Z.ltb_lt in Hcap. rewrite razon_por_cien by done.
    unfold Qle, inject_Z. cbn. rewrite Z2Pos.id by done. lia.
  - apply Z.ltb_ge in Hcap. unfold Qle, inject_Z. cbn. lia.
Qed.

Lemma find_primero {A : Type} (P : A → bool) (l : list A) :
  match find P l with
  | Some x =>
      ∃ i, l !! i = Some x ∧ P x = true
           ∧ ∀ j y, (j < i)%nat → l !! j = Some y → P y = false
  | None => ∀ x, x ∈ l → P x = false
  end.
Proof.
  induction l as [|x l IH]; cbn [find].
  - by intros x ?%elem_of_nil.
  - destruct (P x) eqn:Hx.
    + exists 0%nat. split; [done |]. split; [done |]. lia.
    + destruct (find P l) as [y|].
      * destruct IH as (i & Hi & Hy & Hantes). exists (S i).
        split; [done |]. split; [done |].
        intros [|j] z Hj; cbn; [by intros [= <-] |].
        apply Hantes. lia.
      * intros z [->|Hz]%elem_of_cons; [done | by apply IH].
Qed.

(** X17: [identificar_cuellos_botella] names the first machine, in the order
    in which the machines first appear, that has the largest productive
    time of all and whose productive plus stop time is more than 85% of the
    configured capacity; it names none when no machine is both, so a machine
    over 85% is not reported while another one has more productive time, and
    nothing is reported when the capacity is not positive. *)
Theorem cuello_de_botella_primero_y_maximo (k : KPIExporter)
    (ejecuciones : list Ejecucion) (maquinas : list (string * DatosMaquina)) :
  calcular_eficiencia_machines k ejecuciones = Some maquinas →
  let cuello (x : string * DatosMaquina) : Prop :=
    (∀ y, y ∈ maquinas →
          tiempo_productivo (acumulado y.2)
          <= tiempo_productivo (acumulado x.2))
    ∧ 0 < dias_laborales k * minutos_por_dia k
    ∧ 85 * (dias_laborales k * minutos_por_dia k)
      < 100 * (tiempo_productivo (acumulado x.2)
               + tiempo_setup (acumulado x.2)) in
  match identificar_cuellos_botella k ejecuciones with
  | Some (Some maq) =>
      ∃ i data, maquinas !! i = Some (maq, data)
                ∧ cuello (maq, data)
                ∧ ∀ j y, (j < i)%nat → maquinas !! j = Some y → ¬ cuello y
  | Some None => ∀ x, x ∈ maquinas → ¬ cuello x
  | None => False
  end.
Proof.
  intros Hm cuello. unfold identificar_cuellos_botella. rewrite Hm.
  cbn [mbind option_bind].
  assert (∀ x, x ∈ maquinas → ∃ a, x.2 = completar k a) as Hcomp.
  { revert Hm. unfold calcular_eficiencia_machines.
    destruct ejecuciones; [intros [= <-] x ?%elem_of_nil; done |].
    destruct (acumular_todas _ _) as [l|]; [| done].
    cbn [mbind option_bind]. intros [= <-] x.
    intros ([maq a] & -> & _)%list_elem_of_fmap. by exists a. }
  assert (∀ x, x ∈ maquinas →
               es_cuello (max_tiempo_productivo maquinas) x = true ↔ cuello x)
    as Hes.
  { intros x Hx. unfold es_cuello, cuello.
    destruct (Hcomp x Hx) as [a Ha].
    pose proof (max_tiempo_productivo_cota maquinas x Hx) as Hle.
    destruct x as [maq d]. cbn [snd] in *. subst d.
    rewrite andb_true_iff, Z.eqb_eq, sobre_85.
    cbn [acumulado completar] in *.
    split.
    - intros [[? ?] Hmax]. split; [| done]. intros y Hy.
      rewrite Hmax. by apply max_tiempo_productivo_cota.
    - intros (Hmax & ? & ?). split; [done |].
      apply Z.le_antisymm; [done |].
      unfold max_tiempo_productivo.
      assert (Forall (λ v, v <= tiempo_productivo a)
                (map (λ x, tiempo_productivo (acumulado x.2)) maquinas))
        as Hall.
      { apply Forall_fmap, Forall_forall. intros y Hy. cbn. by apply Hmax. }
      destruct (map _ maquinas) as [|t r] eqn:Hmap.
      { destruct maquinas; [by apply elem_of_nil in Hx | done]. }
      apply Forall_cons in Hall as [Ht Hr]. clear -Ht Hr.
      revert t Ht. induction Hr as [|v r Hv Hr IH]; intros t Ht; cbn; [done |].
      apply IH. lia. }
  pose proof (find_primero (es_cuello (max_tiempo_productivo maquinas))
                maquinas) as Hfind.
  cbv zeta.
  replace (match maquinas with
           | [] => Some None
           | _ :: _ =>
               Some (fst <$> find (es_cuello (max_tiempo_productivo maquinas))
                               maquinas)
           end)
    with (Some (fst <$> find (es_cuello (max_tiempo_productivo maquinas))
                          maquinas))
    by (by destruct maquinas).
  destruct (find _ maquinas) as [[maq data]|]; cbn [fmap option_fmap option_map fst].
  - destruct Hfind as (i & Hi & Hc & Hantes). exists i, data.
    split; [done |]. split.
    + apply Hes; [| done]. by apply list_elem_of_lookup_2 in Hi.
    + intros j y Hj Hy Hcy. apply Hes in Hcy;
        [| by apply list_elem_of_lookup_2 in Hy].
      rewrite (Hantes j y Hj Hy) in Hcy. done.
  - intros x Hx Hcx. apply Hes in Hcx; [| done].
    rewrite (Hfind x Hx) in Hcx. done.
Qed.

Lemma cuello_de_botella_primero_y_maximo_testigo :
  identificar_cuellos_botella calculadora [ejecucion_larga] = Some (Some "M1").
Proof.
  pose proof (cuello_de_botella_primero_y_maximo calculadora [ejecucion_larga]
                [("M1", completar calculadora (mkAcumulado 3200 480 0 1))]
                ltac:(by vm_compute)) as H.
  cbv zeta in H.
  destruct (identificar_cuellos_botella calculadora [ejecucion_larga])
    as [[maq|]|]; [| | done].
  - destruct H as (i & data & Hi & _).
    destruct i as [|i]; [| by destruct i].
    by injection Hi as <- _.
  - exfalso. apply (H ("M1", completar calculadora (mkAcumulado 3200 480 0 1))).
    + apply elem_of_cons. by left.
    + split; [| by vm_compute].
      intros y ->%list_elem_of_singleton. by vm_compute.
Defined.

End KPIProps.

(** ** The objective of the CP-SAT model *)

Module OptimizadorProps.

Import Optimizador.

(** *** Feasibility, constraint by constraint *)

Lemma factible_cumple (m : Modelo) (a : Asignacion) :
  factible m a = true ↔ cumple a (restricciones m).
Proof.
  unfold factible, cumple. rewrite forallb_forall, Forall_forall.
  split; intros H c Hc; apply H; by apply list_elem_of_In.
Qed.

Lemma factible_modelo_con tareas_df num_operadores horizon objetivo a :
  factible (modelo_con tareas_df num_operadores horizon objetivo) a = true
  ↔ comunes_ok tareas_df num_operadores horizon (nucleo a)
    ∧ cumple a (restricciones (seleccionar_objetivo tareas_df horizon objetivo)).
Proof.
  rewrite factible_cumple. unfold modelo_con, cumple, comunes_ok. cbn.
  rewrite Forall_app. f_equiv.
  rewrite !Forall_forall. split.
  - intros H c Hc. apply (H (λ a, c (nucleo a))).
    apply list_elem_of_In, in_map_iff. exists c. split; [done |].
    by apply list_elem_of_In.
  - intros H c Hc. apply list_elem_of_In, in_map_iff in Hc as (c' & <- & Hc').
    apply H. by apply list_elem_of_In.
Qed.

Lemma cumple_cotas (a : Asignacion) (n : nat) (v : Asignacion → Z) :
  cumple a (map (λ i a, end_time (nucleo a) i <=? v a) (seq 0 n))
  ↔ acotadas n (nucleo a) (v a).
Proof.
  unfold cumple, acotadas. rewrite Forall_forall. split.
  - intros H i Hi. apply Z.leb_le.
    apply (H (λ a, end_time (nucleo a) i <=? v a)).
    apply list_elem_of_In, in_map_iff. exists i. split; [done |].
    apply in_seq. lia.
  - intros H c Hc. apply list_elem_of_In, in_map_iff in Hc as (i & <- & Hi).
    apply in_seq in Hi. apply Z.leb_le, H. lia.
Qed.

Lemma en_rango_spec (lo hi v : Z) :
  en_rango lo hi v = true ↔ lo <= v ∧ v <= hi.
Proof. unfold en_rango. rewrite andb_true_iff, !Z.leb_le. done. Qed.

Lemma cumple_con_makespan tareas_df horizon a :
  cumple a (con_makespan tareas_df horizon)
  ↔ (0 <= makespan a ∧ makespan a <= horizon)
    ∧ acotadas (num_tareas tareas_df) (nucleo a) (makespan a).
Proof.
  unfold con_makespan, cumple. rewrite Forall_cons, en_rango_spec.
  f_equiv. apply (cumple_cotas a _ makespan).
Qed.

(** *** Two models with the same optimal decisions

    [M2] has the optimal decisions of [M1] when feasible candidates can be
    carried both ways without touching the shared variables, and the
    objectives correspond through a strictly increasing [φ]. *)
Section Correspondencia.

Variables M1 M2 : Modelo.
Variable φ : Z → Z.
Variables F G : Asignacion → Asignacion.

Hypothesis φ_creciente : ∀ u v, φ u <= φ v ↔ u <= v.
Hypothesis ida : ∀ c, factible M1 c = true →
  factible M2 (F c) = true ∧ nucleo (F c) = nucleo c
  ∧ minimizar M2 (F c) <= φ (minimizar M1 c).
Hypothesis vuelta : ∀ a, factible M2 a = true →
  factible M1 (G a) = true ∧ nucleo (G a) = nucleo a
  ∧ φ (minimizar M1 (G a)) <= minimizar M2 a.

Lemma optimos_se_corresponden (x : Nucleo) :
  (∃ a, optimo M2 a ∧ nucleo a = x) ↔ (∃ c, optimo M1 c ∧ nucleo c = x).
Proof.
  split.
  - intros (a & [Hfa Hmin] & Hx).
    destruct (vuelta a Hfa) as (Hfg & Hng & Hog).
    exists (G a). split; [| congruence]. split; [done |].
    intros c Hfc. destruct (ida c Hfc) as (Hff & _ & Hof).
    specialize (Hmin (F c) Hff). apply φ_creciente. lia.
  - intros (c & [Hfc Hmin] & Hx).
    destruct (ida c Hfc) as (Hff & Hnf & Hof).
    exists (F c). split; [| congruence]. split; [done |].
    intros a Hfa. destruct (vuelta a Hfa) as (Hfg & _ & Hog).
    specialize (Hmin (G a) Hfg). apply φ_creciente in Hmin. lia.
Qed.

End Correspondencia.

(** *** Inputs with a single machine *)

Lemma compare_refl (s : string) : String.compare s s = Eq.
Proof.
  pose proof (String.compare_antisym s s) as H.
  destruct (String.compare s s); cbn in H; congruence.
Qed.

Lemma filter_todos {A : Type} (P : A → Prop) `{∀ x, Decision (P x)} (l : list A) :
  (∀ x, In x l → P x) → filter P l = l.
Proof.
  induction l as [|x r IH]; intros Hall; [done |].
  rewrite filter_cons_True by (apply Hall; by left).
  f_equal. apply IH. intros y Hy. apply Hall. by right.
Qed.

Lemma filter_ninguno {A : Type} (P : A → Prop) `{∀ x, Decision (P x)} (l : list A) :
  (∀ x, In x l → ¬ P x) → filter P l = [].
Proof.
  induction l as [|x r IH]; intros Hall; [done |].
  rewrite filter_cons_False by (apply Hall; by left).
  apply IH. intros y Hy. apply Hall. by right.
Qed.

Section UnaMaquina.

Variable tareas_df : list Tarea.
Variable m : string.
Hypothesis una : una_sola_maquina tareas_df m.

Let n : nat := num_tareas tareas_df.

Lemma maquina_de_fila (i : nat) :
  (i < n)%nat → maquina (iloc tareas_df i) = m.
Proof.
  intros Hi. apply una. unfold iloc. by apply nth_In.
Qed.

Lemma tareas_maquina_todas : tareas_maquina tareas_df m = seq 0 n.
Proof.
  unfold tareas_maquina. apply filter_todos.
  intros i Hi. apply in_seq in Hi. apply maquina_de_fila. lia.
Qed.

Lemma unique_constante (l : list string) :
  (∀ x, In x l → x = m) → l ≠ [] → unique l = [m].
Proof.
  induction l as [|x r IH]; intros Hall Hne; [done |].
  cbn. rewrite (Hall x) by (by left). f_equal.
  destruct r as [|y r']; [done |].
  rewrite IH; [| intros z Hz; apply Hall; by right | done].
  by rewrite filter_cons_False by (intros Hc; by apply Hc).
Qed.

Lemma unique_de_maquinas :
  tareas_df ≠ [] → unique (map maquina tareas_df) = [m].
Proof.
  intros Hne. apply unique_constante.
  - intros x Hx. apply in_map_iff in Hx as (t & <- & Ht). by apply una.
  - by destruct tareas_df.
Qed.

Lemma maquinas_con_tareas_una :
  tareas_df ≠ [] → maquinas_con_tareas tareas_df = [m].
Proof.
  intros Hne. unfold maquinas_con_tareas. rewrite unique_de_maquinas by done.
  rewrite filter_cons_True; [done |].
  rewrite tareas_maquina_todas. subst n. unfold num_tareas.
  destruct tareas_df; [done | discriminate].
Qed.

Lemma maquinas_con_varias_una :
  (1 < n)%nat → maquinas_con_varias tareas_df = [m].
Proof.
  intros Hn. unfold maquinas_con_varias.
  rewrite unique_de_maquinas by (intros ->; cbn in Hn; lia).
  rewrite filter_cons_True; [done |].
  by rewrite tareas_maquina_todas, length_seq.
Qed.

Lemma maquinas_con_varias_ninguna :
  (n <= 1)%nat → maquinas_con_varias tareas_df = [].
Proof.
  intros Hn. unfold maquinas_con_varias. apply filter_ninguno.
  intros maq _. unfold tareas_maquina.
  pose proof (length_filter (λ i, maquina (iloc tareas_df i) = maq) (seq 0 n)) as Hl.
  rewrite length_seq in Hl. fold n. lia.
Qed.

Lemma insertar_constante (l : list string) :
  (∀ x, In x l → x = m) → l ≠ [] → fold_right insertar [] l = [m].
Proof.
  induction l as [|x r IH]; intros Hall Hne; [done |].
  cbn. rewrite (Hall x) by (by left).
  destruct r as [|y r']; [done |].
  rewrite IH; [| intros z Hz; apply Hall; by right | done].
  cbn. by rewrite compare_refl.
Qed.

Lemma maquinas_disponibles_una :
  tareas_df ≠ [] → maquinas_disponibles tareas_df = [m].
Proof.
  intros Hne. apply insertar_constante.
  - intros x Hx. apply in_map_iff in Hx as (t & <- & Ht). by apply una.
  - by destruct tareas_df.
Qed.

Lemma maquinas_fijas_una :
  tareas_df ≠ [] → maquinas_fijas tareas_df = [m].
Proof.
  intros Hne. unfold maquinas_fijas. rewrite maquinas_disponibles_una by done.
  destruct una as [Hflex _]. unfold es_flexible in Hflex.
  apply orb_false_iff in Hflex as [Hc Hl]. cbn [fold_left].
  by rewrite Hc, Hl.
Qed.

End UnaMaquina.

(** *** Tasks that do not overlap fit in the span they occupy *)

Lemma suma_cons (x : Z) (l : list Z) : suma (x :: l) = x + suma l.
Proof. reflexivity. Qed.

Lemma suma_particion (f : nat → Z) (P : nat → Prop) `{∀ i, Decision (P i)}
    (l : list nat) :
  suma (map f l)
  = suma (map f (filter P l)) + suma (map f (filter (λ i, ¬ P i) l)).
Proof.
  induction l as [|i r IH]; [done |].
  destruct (decide (P i)) as [Hp|Hp].
  - rewrite (filter_cons_True P) by done.
    rewrite (filter_cons_False (λ i, ¬ P i)) by tauto.
    cbn [map]. rewrite !suma_cons. lia.
  - rewrite (filter_cons_False P) by done.
    rewrite (filter_cons_True (λ i, ¬ P i)) by done.
    cbn [map]. rewrite !suma_cons. lia.
Qed.

Lemma suma_map_le (f g : nat → Z) (l : list nat) :
  (∀ i, In i l → f i <= g i) → suma (map f l) <= suma (map g l).
Proof.
  induction l as [|i r IH]; intros H; [done |].
  pose proof (H i (or_introl eq_refl)) as Hi.
  assert (suma (map f r) <= suma (map g r)) by (apply IH; intros; apply H; by right).
  cbn [map]. rewrite !suma_cons. lia.
Qed.

Lemma suma_map_no_negativa (f : nat → Z) (l : list nat) :
  (∀ i, In i l → 0 <= f i) → 0 <= suma (map f l).
Proof.
  induction l as [|i r IH]; intros H; [done |].
  pose proof (H i (or_introl eq_refl)) as Hi.
  assert (0 <= suma (map f r)) by (apply IH; intros; apply H; by right).
  cbn [map]. rewrite suma_cons. lia.
Qed.

Lemma en_filtro (P : nat → Prop) `{∀ i, Decision (P i)} (l : list nat) (y : nat) :
  In y (filter P l) → In y l ∧ P y.
Proof.
  intros Hy. apply list_elem_of_In, list_elem_of_filter in Hy as [? ?].
  split; [by apply list_elem_of_In | done].
Qed.

Section SinSolape.

Variables s e L : nat → Z.

(** Intervals [[s i, e i]] of length [L i], pairwise one after the other and
    all inside [[A, B]], have total length at most [B - A]. *)
Lemma sin_solape_cabe (k : nat) :
  ∀ idx : list nat,
    (length idx <= k)%nat →
    NoDup idx →
    (∀ i, In i idx → e i = s i + L i) →
    (∀ i j, In i idx → In j idx → i ≠ j → e i <= s j ∨ e j <= s i) →
    ∀ A B, A <= B →
      (∀ i, In i idx → A <= s i ∧ e i <= B) →
      suma (map L idx) <= B - A.
Proof.
  induction k as [|k IH]; intros idx Hlen Hnd Hdur Hord A B HAB Hin.
  - destruct idx; [cbn; lia | cbn in Hlen; lia].
  - destruct idx as [|x r]; [cbn; lia |].
    apply NoDup_cons in Hnd as [Hx Hnd].
    rewrite list_elem_of_In in Hx.
    cbn [map]. rewrite suma_cons.
    rewrite (suma_particion L (λ y, e y <= s x) r).
    destruct (Hin x (or_introl eq_refl)) as [HAx HxB].
    pose proof (Hdur x (or_introl eq_refl)) as Hdx.
    assert (suma (map L (filter (λ y, e y <= s x) r)) <= s x - A) as H1.
    { apply IH; try done.
      - etransitivity; [apply length_filter |]. cbn in Hlen. lia.
      - by apply NoDup_filter.
      - intros i Hi. apply en_filtro in Hi as [Hi _]. apply Hdur. by right.
      - intros i j Hi Hj. apply en_filtro in Hi as [Hi _].
        apply en_filtro in Hj as [Hj _]. apply Hord; by right.
      - intros i Hi. apply en_filtro in Hi as [Hir Hle].
        destruct (Hin i (or_intror Hir)). lia. }
    assert (suma (map L (filter (λ y, ¬ e y <= s x) r)) <= B - e x) as H2.
    { apply IH; try done.
      - etransitivity; [apply length_filter |]. cbn in Hlen. lia.
      - by apply NoDup_filter.
      - intros i Hi. apply en_filtro in Hi as [Hi _]. apply Hdur. by right.
      - intros i j Hi Hj. apply en_filtro in Hi as [Hi _].
        apply en_filtro in Hj as [Hj _]. apply Hord; by right.
      - intros i Hi. apply en_filtro in Hi as [Hir Hle].
        destruct (Hin i (or_intror Hir)).
        destruct (Hord x i (or_introl eq_refl) (or_intror Hir)) as [?|?];
          [intros ->; done | lia | lia]. }
    lia.
Qed.

End SinSolape.

Lemma in_pares {A : Type} (n : nat) (f : nat → nat → list A) (i j : nat) (c : A) :
  (i < j)%nat → (j < n)%nat → In c (f i j) → In c (pares n f).
Proof.
  intros Hij Hjn Hc. unfold pares. apply in_flat_map. exists i.
  split; [apply in_seq; lia |].
  apply in_flat_map. exists j. split; [apply in_seq; lia | done].
Qed.

(** *** What the shared constraints give on a single machine *)

Section UnaMaquinaComunes.

Variable tareas_df : list Tarea.
Variable m : string.
Variable num_operadores : option Z.
Variable horizon : Z.
Hypothesis una : una_sola_maquina tareas_df m.
Hypothesis bien : bien_formadas tareas_df.

Let n : nat := num_tareas tareas_df.

Variable x : Nucleo.
Hypothesis comunes : comunes_ok tareas_df num_operadores horizon x.

Lemma comunes_en (c : Restriccion) :
  In c (restricciones_comunes tareas_df num_operadores horizon) → c x = true.
Proof.
  intros Hc. unfold comunes_ok in comunes. rewrite Forall_forall in comunes.
  by apply comunes, list_elem_of_In.
Qed.

Lemma comunes_dominio (i : nat) :
  (i < n)%nat → 0 <= start_time x i ∧ end_time x i <= horizon.
Proof.
  intros Hi.
  assert (en_rango 0 horizon (start_time x i) = true) as H1.
  { apply (comunes_en (λ x, en_rango 0 horizon (start_time x i))).
    unfold restricciones_comunes. apply in_or_app. left.
    apply in_flat_map. exists i. split; [apply in_seq; fold n; lia |].
    unfold variables_de. apply in_or_app. left. cbn. auto. }
  assert (en_rango 0 horizon (end_time x i) = true) as H2.
  { apply (comunes_en (λ x, en_rango 0 horizon (end_time x i))).
    unfold restricciones_comunes. apply in_or_app. left.
    apply in_flat_map. exists i. split; [apply in_seq; fold n; lia |].
    unfold variables_de. apply in_or_app. left. cbn. auto. }
  apply en_rango_spec in H1, H2. lia.
Qed.

Lemma comunes_duracion (i : nat) :
  (i < n)%nat →
  end_time x i
  = start_time x i
    + (duracion (iloc tareas_df i) + tiempo_setup (iloc tareas_df i)).
Proof.
  intros Hi. apply Z.eqb_eq.
  apply (comunes_en (duracion_de tareas_df i)).
  unfold restricciones_comunes. apply in_or_app. right. apply in_or_app. left.
  apply in_map_iff. exists i. split; [done | apply in_seq; fold n; lia].
Qed.

Lemma comunes_orden (i j : nat) :
  (i < j)%nat → (j < n)%nat →
  end_time x i <= start_time x j ∨ end_time x j <= start_time x i.
Proof.
  intros Hij Hjn.
  assert (∀ c, In c (no_superposicion_maquinas tareas_df i j) → c x = true) as Hpar.
  { intros c Hc. apply comunes_en. unfold restricciones_comunes.
    apply in_or_app. right. apply in_or_app. right. apply in_or_app. left.
    by apply (in_pares _ _ i j). }
  unfold no_superposicion_maquinas in Hpar.
  rewrite !(maquina_de_fila tareas_df m una) in Hpar by (fold n; lia).
  destruct una as [Hflex _]. rewrite String.eqb_refl, Hflex in Hpar.
  cbn [negb andb app] in Hpar.
  pose proof (Hpar _ (or_introl eq_refl)) as H1.
  pose proof (Hpar _ (or_intror (or_introl eq_refl))) as H2.
  pose proof (Hpar _ (or_intror (or_intror (or_intror (or_intror
                        (or_introl eq_refl)))))) as H5.
  pose proof (Hpar _ (or_intror (or_intror (or_intror (or_intror (or_intror
                        (or_introl eq_refl))))))) as H6.
  cbn beta in H1, H2, H5, H6. unfold solo_si in *.
  destruct (same_machine x i j); [| discriminate].
  destruct (task_i_before_j x i j), (task_j_before_i x i j);
    cbn in H2, H5, H6; try discriminate.
  - left. by apply Z.leb_le.
  - right. by apply Z.leb_le.
Qed.

(** The work on the machine fits before any bound on the ends. *)
Lemma trabajo_cabe (v : Z) :
  0 <= v → acotadas n x v → tiempo_trabajo_maquina tareas_df m <= v.
Proof.
  intros Hv Hcota. unfold tiempo_trabajo_maquina.
  rewrite (tareas_maquina_todas tareas_df m una). fold n.
  assert (∀ i, In i (seq 0 n) → (i < n)%nat) as Hseq
    by (intros i Hi; apply in_seq in Hi; lia).
  etransitivity.
  - apply (suma_map_le _
             (λ i, duracion (iloc tareas_df i) + tiempo_setup (iloc tareas_df i))).
    intros i Hi. apply Hseq in Hi.
    destruct (bien (iloc tareas_df i)) as [_ Hs]; [| lia].
    unfold iloc. by apply nth_In.
  - replace v with (v - 0) by lia.
    apply (sin_solape_cabe (start_time x) (end_time x) _ n (seq 0 n)).
    + by rewrite length_seq.
    + apply NoDup_ListNoDup, seq_NoDup.
    + intros i Hi. by apply comunes_duracion, Hseq.
    + intros i j Hi Hj Hne. apply Hseq in Hi, Hj.
      destruct (decide (i < j)%nat).
      * by apply comunes_orden.
      * destruct (comunes_orden j i); [lia | done | by right | by left].
    + done.
    + intros i Hi. apply Hseq in Hi.
      destruct (comunes_dominio i Hi). split; [done | by apply Hcota].
Qed.

Lemma trabajo_no_negativo : 0 <= tiempo_trabajo_maquina tareas_df m.
Proof.
  unfold tiempo_trabajo_maquina. apply suma_map_no_negativa.
  intros i Hi. unfold tareas_maquina in Hi.
  apply en_filtro in Hi as [Hi _]. apply in_seq in Hi.
  destruct (bien (iloc tareas_df i)) as [Hd _]; [| done].
  unfold iloc. apply nth_In. fold (num_tareas tareas_df). lia.
Qed.

End UnaMaquinaComunes.

(** *** The cost objective on a single machine *)

Lemma cumple_makespan_modelo tareas_df horizon a :
  cumple a (restricciones (objetivo_makespan tareas_df horizon))
  ↔ (0 <= makespan a ∧ makespan a <= horizon)
    ∧ acotadas (num_tareas tareas_df) (nucleo a) (makespan a).
Proof. apply cumple_con_makespan. Qed.

Section Costos.

Variable tareas_df : list Tarea.
Variable m : string.
Variable horizon : Z.
Hypothesis una : una_sola_maquina tareas_df m.
Hypothesis hay_tareas : tareas_df ≠ [].

Let n : nat := num_tareas tareas_df.

Lemma cumple_costos a :
  cumple a (restricciones (objetivo_minimizar_costos tareas_df horizon))
  ↔ cumple a (con_makespan tareas_df horizon)
    ∧ (0 <= tiempo_total_ocupacion a ∧ tiempo_total_ocupacion a <= horizon * 1000)
    ∧ (0 <= tiempo_ocupacion_maquina a m
       ∧ tiempo_ocupacion_maquina a m <= horizon)
    ∧ acotadas n (nucleo a) (tiempo_ocupacion_maquina a m)
    ∧ tiempo_total_ocupacion a = tiempo_ocupacion_maquina a m.
Proof.
  unfold objetivo_minimizar_costos. cbn [restricciones].
  rewrite (maquinas_con_tareas_una tareas_df m una hay_tareas).
  cbn [flat_map]. rewrite (tareas_maquina_todas tareas_df m una).
  unfold cumple at 1. rewrite !Forall_app, !Forall_cons, !Forall_nil.
  rewrite !en_rango_spec, Z.eqb_eq.
  fold (cumple a (con_makespan tareas_df horizon)).
  pose proof (cumple_cotas a n (λ a, tiempo_ocupacion_maquina a m)) as Hc.
  unfold cumple in Hc. cbn beta in Hc. fold n. rewrite Hc.
  cbn [map suma fold_right]. rewrite Z.add_0_r. tauto.
Qed.

Lemma minimizar_costos :
  minimizar (objetivo_minimizar_costos tareas_df horizon) = tiempo_total_ocupacion.
Proof.
  unfold objetivo_minimizar_costos. cbn [minimizar].
  by rewrite (maquinas_con_tareas_una tareas_df m una hay_tareas).
Qed.

End Costos.

Lemma seleccionar_makespan tareas_df horizon :
  seleccionar_objetivo tareas_df horizon "Minimizar tiempo total"
  = objetivo_makespan tareas_df horizon.
Proof. reflexivity. Qed.

Lemma seleccionar_utilizacion tareas_df horizon :
  seleccionar_objetivo tareas_df horizon "Maximizar utilización"
  = objetivo_maximizar_utilizacion tareas_df horizon.
Proof. reflexivity. Qed.

Lemma seleccionar_costos tareas_df horizon :
  seleccionar_objetivo tareas_df horizon "Minimizar costos"
  = objetivo_minimizar_costos tareas_df horizon.
Proof. reflexivity. Qed.

Lemma seleccionar_balanceado tareas_df horizon :
  seleccionar_objetivo tareas_df horizon "Balanceado"
  = objetivo_balanceado_modelo tareas_df horizon.
Proof. reflexivity. Qed.

Lemma costos_colapsa tareas_df m num_operadores horizon :
  una_sola_maquina tareas_df m →
  ∀ x, decisiones_optimas tareas_df num_operadores horizon "Minimizar costos" x
       ↔ decisiones_optimas tareas_df num_operadores horizon
           "Minimizar tiempo total" x.
Proof.
  intros una x. unfold decisiones_optimas.
  destruct (decide (tareas_df = [])) as [->|Hne].
  - apply (optimos_se_corresponden _ _ (λ v, v) para_costos (λ a, a));
      [done | |].
    + intros c Hc. apply factible_modelo_con in Hc as [Hcom Hobj].
      rewrite seleccionar_makespan in Hobj.
      apply cumple_makespan_modelo in Hobj as [Hmk Hcot].
      split; [| split; [done | cbn; lia]].
      apply factible_modelo_con. split; [done |].
      rewrite seleccionar_costos. unfold objetivo_minimizar_costos.
      cbn. unfold cumple. rewrite !Forall_cons, Forall_nil, !en_rango_spec.
      cbn. lia.
    + intros a Ha. apply factible_modelo_con in Ha as [Hcom Hobj].
      rewrite seleccionar_costos in Hobj.
      unfold objetivo_minimizar_costos in Hobj. cbn in Hobj.
      unfold cumple in Hobj. rewrite !Forall_cons, Forall_nil, !en_rango_spec in Hobj.
      split; [| split; [done | cbn; lia]].
      apply factible_modelo_con. split; [done |].
      rewrite seleccionar_makespan. apply cumple_makespan_modelo.
      split; [lia |]. intros i Hi. cbn in Hi. lia.
  - apply (optimos_se_corresponden _ _ (λ v, v) para_costos
             (λ a, con_valor_makespan (tiempo_ocupacion_maquina a m) a));
      [done | |].
    + intros c Hc. apply factible_modelo_con in Hc as [Hcom Hobj].
      rewrite seleccionar_makespan in Hobj.
      pose proof Hobj as Hobj'.
      apply cumple_makespan_modelo in Hobj as [Hmk Hcot].
      split; [| split; [done |]].
      * apply factible_modelo_con. split; [done |].
        rewrite seleccionar_costos. apply (cumple_costos _ m); try done.
        split; [apply cumple_con_makespan; by split |].
        cbn. repeat split; try done; lia.
      * cbn [modelo_con minimizar]. rewrite seleccionar_costos, seleccionar_makespan.
        rewrite (minimizar_costos _ m) by done. cbn. lia.
    + intros a Ha. apply factible_modelo_con in Ha as [Hcom Hobj].
      rewrite seleccionar_costos in Hobj.
      apply (cumple_costos _ m) in Hobj as (Hmk & HTT & HTo & Hcot & Heq);
        try done.
      split; [| split; [done |]].
      * apply factible_modelo_con. split; [done |].
        rewrite seleccionar_makespan. apply cumple_makespan_modelo.
        cbn. split; done.
      * cbn [modelo_con minimizar]. rewrite seleccionar_costos, seleccionar_makespan.
        rewrite (minimizar_costos _ m) by done. cbn. lia.
Qed.

(** *** The balanced objective on a single machine *)

Section Balanceado.

Variable tareas_df : list Tarea.
Variable m : string.
Variable horizon : Z.
Hypothesis una : una_sola_maquina tareas_df m.

Let n : nat := num_tareas tareas_df.

Lemma cumple_balanceado a :
  (1 < n)%nat →
  cumple a (restricciones (objetivo_balanceado_modelo tareas_df horizon))
  ↔ cumple a (con_makespan tareas_df horizon)
    ∧ (0 <= tiempo_ocioso_total a
       ∧ tiempo_ocioso_total a <= horizon * Z.of_nat n)
    ∧ (0 <= tiempo_total_maquina a m ∧ tiempo_total_maquina a m <= horizon)
    ∧ acotadas n (nucleo a) (tiempo_total_maquina a m)
    ∧ (0 <= tiempo_ocioso_maquina a m ∧ tiempo_ocioso_maquina a m <= horizon)
    ∧ tiempo_ocioso_maquina a m
      = tiempo_total_maquina a m - tiempo_trabajo_maquina tareas_df m
    ∧ tiempo_ocioso_total a = tiempo_ocioso_maquina a m
    ∧ (0 <= objetivo_balanceado a ∧ objetivo_balanceado a <= horizon * 1000)
    ∧ objetivo_balanceado a = makespan a * 7 + tiempo_ocioso_total a * 3.
Proof.
  intros Hn. unfold objetivo_balanceado_modelo. cbn [restricciones].
  rewrite (maquinas_con_varias_una tareas_df m una Hn).
  cbn [flat_map]. rewrite (tareas_maquina_todas tareas_df m una).
  unfold cumple at 1. rewrite !Forall_app, !Forall_cons, !Forall_app,
    !Forall_cons, !Forall_nil.
  rewrite !en_rango_spec, !Z.eqb_eq.
  fold (cumple a (con_makespan tareas_df horizon)).
  pose proof (cumple_cotas a n (λ a, tiempo_total_maquina a m)) as Hc.
  unfold cumple in Hc. cbn beta in Hc. fold n. rewrite Hc.
  cbn [map suma fold_right]. rewrite Z.add_0_r. tauto.
Qed.

Lemma minimizar_balanceado :
  (1 < n)%nat →
  minimizar (objetivo_balanceado_modelo tareas_df horizon) = objetivo_balanceado.
Proof.
  intros Hn. unfold objetivo_balanceado_modelo. cbn [minimizar].
  by rewrite (maquinas_con_varias_una tareas_df m una Hn).
Qed.

Lemma cumple_balanceado_pocas a :
  (n <= 1)%nat →
  cumple a (restricciones (objetivo_balanceado_modelo tareas_df horizon))
  ↔ cumple a (con_makespan tareas_df horizon)
    ∧ (0 <= tiempo_ocioso_total a
       ∧ tiempo_ocioso_total a <= horizon * Z.of_nat n).
Proof.
  intros Hn. unfold objetivo_balanceado_modelo. cbn [restricciones].
  rewrite (maquinas_con_varias_ninguna tareas_df Hn).
  cbn [flat_map]. unfold cumple at 1.
  rewrite !Forall_app, !Forall_cons, !Forall_nil, en_rango_spec.
  fold (cumple a (con_makespan tareas_df horizon)). fold n. tauto.
Qed.

Lemma minimizar_balanceado_pocas :
  (n <= 1)%nat →
  minimizar (objetivo_balanceado_modelo tareas_df horizon) = makespan.
Proof.
  intros Hn. unfold objetivo_balanceado_modelo. cbn [minimizar].
  by rewrite (maquinas_con_varias_ninguna tareas_df Hn).
Qed.

End Balanceado.

Lemma balanceado_colapsa tareas_df m num_operadores horizon :
  una_sola_maquina tareas_df m →
  bien_formadas tareas_df →
  ∀ x, decisiones_optimas tareas_df num_operadores horizon "Balanceado" x
       ↔ decisiones_optimas tareas_df num_operadores horizon
           "Minimizar tiempo total" x.
Proof.
  intros una bien x. unfold decisiones_optimas.
  set (n := num_tareas tareas_df).
  destruct (le_lt_dec n 1) as [Hn|Hn].
  - apply (optimos_se_corresponden _ _ (λ v, v) sin_ocio_total (λ a, a));
      [done | |].
    + intros c Hc. apply factible_modelo_con in Hc as [Hcom Hobj].
      rewrite seleccionar_makespan in Hobj.
      apply cumple_makespan_modelo in Hobj as [Hmk Hcot].
      split; [| split; [done |]].
      * apply factible_modelo_con. split; [done |].
        rewrite seleccionar_balanceado. apply cumple_balanceado_pocas; [done |].
        split; [apply cumple_con_makespan; by split |]. cbn. nia.
      * cbn [modelo_con minimizar].
        rewrite seleccionar_balanceado, seleccionar_makespan.
        rewrite minimizar_balanceado_pocas by done. cbn. lia.
    + intros a Ha. apply factible_modelo_con in Ha as [Hcom Hobj].
      rewrite seleccionar_balanceado in Hobj.
      apply cumple_balanceado_pocas in Hobj as [Hmk _]; [| done].
      split; [| split; [done |]].
      * apply factible_modelo_con. split; [done |].
        by rewrite seleccionar_makespan.
      * cbn [modelo_con minimizar].
        rewrite seleccionar_balanceado, seleccionar_makespan.
        rewrite minimizar_balanceado_pocas by done. cbn. lia.
  - set (w := tiempo_trabajo_maquina tareas_df m).
    apply (optimos_se_corresponden _ _ (λ v, v * 10 - 3 * w)
             (para_balanceado w)
             (λ a, con_valor_makespan
                     (Z.min (makespan a) (tiempo_total_maquina a m)) a));
      [intros; lia | |].
    + intros c Hc. apply factible_modelo_con in Hc as [Hcom Hobj].
      rewrite seleccionar_makespan in Hobj.
      apply cumple_makespan_modelo in Hobj as [Hmk Hcot].
      assert (w <= makespan c) as Hw
        by (apply (trabajo_cabe tareas_df m num_operadores horizon una bien
                     (nucleo c) Hcom); [lia | done]).
      assert (0 <= w) as Hw0 by (by apply trabajo_no_negativo).
      split; [| split; [done |]].
      * apply factible_modelo_con. split; [done |].
        rewrite seleccionar_balanceado. apply (cumple_balanceado _ m); try done.
        split; [apply cumple_con_makespan; by split |].
        cbn. fold w. fold n. repeat split; try done; nia.
      * cbn [modelo_con minimizar].
        rewrite seleccionar_balanceado, seleccionar_makespan.
        rewrite (minimizar_balanceado _ m) by done. cbn. lia.
    + intros a Ha. apply factible_modelo_con in Ha as [Hcom Hobj].
      rewrite seleccionar_balanceado in Hobj.
      apply (cumple_balanceado _ m) in Hobj
        as (Hmk & HOT & HT & Hcot & HO & HOeq & HOTeq & Hobj & Hobjeq);
        try done.
      apply cumple_con_makespan in Hmk as [Hmk Hcotmk].
      split; [| split; [done |]].
      * apply factible_modelo_con. split; [done |].
        rewrite seleccionar_makespan. apply cumple_makespan_modelo.
        cbn. split; [lia |]. intros i Hi.
        specialize (Hcot i Hi). specialize (Hcotmk i Hi). lia.
      * cbn [modelo_con minimizar].
        rewrite seleccionar_balanceado, seleccionar_makespan.
        rewrite (minimizar_balanceado _ m) by done. cbn. fold w in HOeq. lia.
Qed.

(** *** The utilization objective *)

Lemma utilizacion_una tareas_df m horizon :
  una_sola_maquina tareas_df m → tareas_df ≠ [] →
  objetivo_maximizar_utilizacion tareas_df horizon
  = objetivo_makespan tareas_df horizon.
Proof.
  intros una Hne. unfold objetivo_maximizar_utilizacion.
  by rewrite (maquinas_fijas_una tareas_df m una Hne).
Qed.

Lemma cumple_utilizacion_sin_tareas horizon a :
  cumple a (restricciones (objetivo_maximizar_utilizacion [] horizon))
  ↔ (0 <= makespan a ∧ makespan a <= horizon)
    ∧ (∀ k, (k < 3)%nat → 0 <= tiempo_maq a k ∧ tiempo_maq a k <= horizon
                          ∧ tiempo_min a <= tiempo_maq a k
                          ∧ tiempo_maq a k <= tiempo_max a)
    ∧ (0 <= tiempo_max a ∧ tiempo_max a <= horizon)
    ∧ (0 <= tiempo_min a ∧ tiempo_min a <= horizon)
    ∧ (0 <= objetivo_utilizacion a ∧ objetivo_utilizacion a <= horizon * 100)
    ∧ objetivo_utilizacion a
      = makespan a * 5 + (tiempo_max a - tiempo_min a) * 10.
Proof.
  cbn. unfold cumple. rewrite !Forall_cons, Forall_nil.
  rewrite !en_rango_spec, !Z.leb_le, Z.eqb_eq. split.
  - intros H. repeat split; try lia.
    all: destruct k as [|[|[|k]]]; lia.
  - intros (Hmk & Hk & Hmax & Hmin & Hobj & Heq).
    pose proof (Hk 0%nat). pose proof (Hk 1%nat). pose proof (Hk 2%nat). lia.
Qed.

Lemma utilizacion_colapsa tareas_df m num_operadores horizon :
  una_sola_maquina tareas_df m →
  ∀ x, decisiones_optimas tareas_df num_operadores horizon
         "Maximizar utilización" x
       ↔ decisiones_optimas tareas_df num_operadores horizon
           "Minimizar tiempo total" x.
Proof.
  intros una x. unfold decisiones_optimas.
  destruct (decide (tareas_df = [])) as [->|Hne].
  - apply (optimos_se_corresponden _ _ (λ v, v * 5) para_utilizacion (λ a, a));
      [intros; lia | |].
    + intros c Hc. apply factible_modelo_con in Hc as [Hcom Hobj].
      rewrite seleccionar_makespan in Hobj.
      apply cumple_makespan_modelo in Hobj as [Hmk Hcot].
      split; [| split; [done | cbn; lia]].
      apply factible_modelo_con. split; [done |].
      rewrite seleccionar_utilizacion. apply cumple_utilizacion_sin_tareas.
      cbn. repeat split; lia.
    + intros a Ha. apply factible_modelo_con in Ha as [Hcom Hobj].
      rewrite seleccionar_utilizacion in Hobj.
      apply cumple_utilizacion_sin_tareas in Hobj
        as (Hmk & Hk & Hmax & Hmin & Hobj & Heq).
      split; [| split; [done |]].
      * apply factible_modelo_con. split; [done |].
        rewrite seleccionar_makespan. apply cumple_makespan_modelo.
        split; [done |]. intros i Hi. cbn in Hi. lia.
      * cbn. pose proof (Hk 0%nat). lia.
  - unfold modelo_con.
    by rewrite seleccionar_utilizacion, seleccionar_makespan,
      (utilizacion_una tareas_df m horizon una Hne).
Qed.

(** *** The reference objective is the largest end *)

Lemma alcanza_o_sobra (n : nat) (f : nat → Z) (v : Z) :
  (∀ i, (i < n)%nat → f i <= v) →
  (∃ i, (i < n)%nat ∧ f i = v) ∨ (∀ i, (i < n)%nat → f i <= v - 1).
Proof.
  induction n as [|k IH]; intros H; [right; intros; lia |].
  destruct IH as [(i & Hi & Hv) | Hall]; [intros; apply H; lia | |].
  - left. exists i. split; [lia | done].
  - destruct (decide (f k = v)) as [Hk|Hk].
    + left. exists k. split; [lia | done].
    + right. intros i Hi. destruct (decide (i = k)) as [->|Hne].
      * specialize (H k). lia.
      * apply Hall. lia.
Qed.

Lemma makespan_optimo_es_el_maximo tareas_df num_operadores horizon a :
  tareas_df ≠ [] →
  optimo (modelo_con tareas_df num_operadores horizon "Minimizar tiempo total") a →
  acotadas (num_tareas tareas_df) (nucleo a) (makespan a)
  ∧ ∃ i, (i < num_tareas tareas_df)%nat ∧ end_time (nucleo a) i = makespan a.
Proof.
  intros Hne [Hfa Hmin]. pose proof Hfa as Hfa'.
  apply factible_modelo_con in Hfa as [Hcom Hobj].
  rewrite seleccionar_makespan in Hobj.
  apply cumple_makespan_modelo in Hobj as [Hmk Hcot].
  split; [done |].
  destruct (alcanza_o_sobra _ (end_time (nucleo a)) _ Hcot) as [Hex | Hall];
    [done |]. exfalso.
  assert (0 < num_tareas tareas_df)%nat as Hn
    by (destruct tareas_df; [done | cbn; lia]).
  assert (0 <= end_time (nucleo a) 0) as H0.
  { assert (en_rango 0 horizon (end_time (nucleo a) 0) = true) as Hr.
    { unfold comunes_ok in Hcom. rewrite Forall_forall in Hcom.
      apply (Hcom (λ x, en_rango 0 horizon (end_time x 0))).
      apply list_elem_of_In. unfold restricciones_comunes.
      apply in_or_app. left. apply in_flat_map. exists 0%nat.
      split; [apply in_seq; lia |].
      unfold variables_de. apply in_or_app. left. cbn. auto. }
    apply en_rango_spec in Hr. lia. }
  specialize (Hmin (con_valor_makespan (makespan a - 1) a)).
  assert (makespan a <= makespan a - 1); [| lia].
  apply Hmin. apply factible_modelo_con. split; [done |].
  rewrite seleccionar_makespan. apply cumple_makespan_modelo.
  pose proof (Hall 0%nat Hn) as H00.
  split; [cbn; lia | exact Hall].
Qed.

(** C9: when every task names the same single machine, each of the
    objectives Maximizar utilización, Minimizar costos and Balanceado has
    exactly the optimal decisions (start, end, machine and operator of every
    task) of Minimizar tiempo total, whose objective is the makespan, the
    largest end of a task. *)
Theorem una_maquina_colapsa_a_makespan (tareas_df : list Tarea) (m : string)
    (num_operadores : option Z) (dias_laborales : option (list string))
    (horas_por_dia : Q) (objetivo : string) :
  una_sola_maquina tareas_df m →
  bien_formadas tareas_df →
  In objetivo ["Maximizar utilización"; "Minimizar costos"; "Balanceado"] →
  let referencia :=
    crear_modelo tareas_df num_operadores dias_laborales
      "Minimizar tiempo total" horas_por_dia in
  minimizar referencia = makespan
  ∧ (∀ a, tareas_df ≠ [] → optimo referencia a →
          acotadas (num_tareas tareas_df) (nucleo a) (makespan a)
          ∧ ∃ i, (i < num_tareas tareas_df)%nat
                 ∧ end_time (nucleo a) i = makespan a)
  ∧ ∀ x : Nucleo,
      (∃ a, optimo (crear_modelo tareas_df num_operadores dias_laborales
                      objetivo horas_por_dia) a
            ∧ nucleo a = x)
      ↔ (∃ a, optimo referencia a ∧ nucleo a = x).
Proof.
  intros una bien Hobj. cbn zeta. unfold crear_modelo.
  set (horizon := horizonte tareas_df dias_laborales horas_por_dia).
  split; [reflexivity |]. split.
  - intros a Hne Ha. by eapply makespan_optimo_es_el_maximo.
  - intros x. destruct Hobj as [<- | [<- | [<- | []]]].
    + by apply (utilizacion_colapsa tareas_df m).
    + by apply (costos_colapsa tareas_df m).
    + by apply (balanceado_colapsa tareas_df m).
Qed.

Lemma una_sola_maquina_S1 : una_sola_maquina tareas_S1 "M1".
Proof. split; [reflexivity |]. intros t [<- | [<- | []]]; reflexivity. Qed.

Lemma bien_formadas_S1 : bien_formadas tareas_S1.
Proof. intros t [<- | [<- | []]]; cbn; lia. Qed.

(** The schedule of S1 is optimal for the makespan objective: it is
    feasible, and 90 minutes of work on one machine cannot end earlier. *)
Lemma solucion_S1_optima :
  optimo (crear_modelo tareas_S1 (Some 1) (Some ["Lunes"])
            "Minimizar tiempo total" (inject_Z 9)) solucion_S1.
Proof.
  split; [by vm_compute |].
  intros b Hb. unfold crear_modelo in *.
  set (horizon := horizonte tareas_S1 (Some ["Lunes"]) (inject_Z 9)) in *.
  apply factible_modelo_con in Hb as [Hcom Hobj].
  rewrite seleccionar_makespan in Hobj.
  apply cumple_makespan_modelo in Hobj as [Hmk Hcot].
  change (90 <= makespan b).
  change 90 with (tiempo_trabajo_maquina tareas_S1 "M1").
  apply (trabajo_cabe tareas_S1 "M1" (Some 1) horizon una_sola_maquina_S1
           bien_formadas_S1 (nucleo b) Hcom); [lia | done].
Qed.

(** C9 on scenario S1 with one operator and one labor day of nine hours:
    the schedule that is optimal for the makespan is an optimal decision of
    the balanced model. *)
Lemma una_maquina_colapsa_a_makespan_testigo :
  una_sola_maquina tareas_S1 "M1"
  ∧ bien_formadas tareas_S1
  ∧ ∃ a, optimo (crear_modelo tareas_S1 (Some 1) (Some ["Lunes"])
                   "Balanceado" (inject_Z 9)) a
         ∧ nucleo a = plan_S1.
Proof.
  split; [exact una_sola_maquina_S1 |]. split; [exact bien_formadas_S1 |].
  destruct (una_maquina_colapsa_a_makespan tareas_S1 "M1" (Some 1)
              (Some ["Lunes"]) (inject_Z 9) "Balanceado"
              una_sola_maquina_S1 bien_formadas_S1)
    as (_ & _ & H); [cbn; auto |].
  apply H. exists solucion_S1. split; [apply solucion_S1_optima | reflexivity].
Defined.

(** *** The plan extracted from a solution *)

Import Cadenas.

(** *** The sorted list of machines *)


Lemma antes_trans a b c : antes a b → antes b c → antes a c.
Proof.
  unfold antes. intros H1 H2.
  apply OrderedTypeEx.String_as_OT.cmp_lt. apply OrderedTypeEx.String_as_OT.cmp_lt in H1, H2.
  by eapply OrderedTypeEx.String_as_OT.lt_trans.
Qed.

Lemma antes_distintas a b : antes a b → a ≠ b.
Proof. unfold antes. intros H ->. by rewrite compare_refl in H. Qed.

Lemma elem_of_insertar (x y : string) (l : list string) :
  y ∈ insertar x l ↔ y = x ∨ y ∈ l.
Proof.
  induction l as [|z r IH]; cbn.
  - rewrite list_elem_of_singleton, elem_of_nil. tauto.
  - destruct (String.compare x z) eqn:Hc.
    + apply String.compare_eq_iff in Hc as ->. rewrite elem_of_cons. tauto.
    + rewrite !elem_of_cons. tauto.
    + rewrite !elem_of_cons, IH. tauto.
Qed.

Lemma insertar_ordenada (x : string) (l : list string) :
  StronglySorted antes l → StronglySorted antes (insertar x l).
Proof.
  induction 1 as [|z r Hr IH Hz]; cbn.
  - repeat constructor.
  - destruct (String.compare x z) eqn:Hc.
    + by constructor.
    + constructor; [by constructor |].
      constructor; [done |].
      eapply Forall_impl; [exact Hz |]. intros w Hw. by eapply antes_trans.
    + constructor; [done |].
      apply Forall_forall. intros w Hw. apply elem_of_insertar in Hw as [->|Hw].
      * unfold antes. by rewrite String.compare_antisym, Hc.
      * rewrite Forall_forall in Hz. by apply Hz.
Qed.

Lemma ordenada_NoDup (l : list string) : StronglySorted antes l → NoDup l.
Proof.
  induction 1 as [|z r Hr IH Hz]; constructor; [| done].
  intros Hin. rewrite Forall_forall in Hz. by apply (antes_distintas z z); [apply Hz |].
Qed.

Lemma insertar_varios_ordenada (xs l : list string) :
  StronglySorted antes l → StronglySorted antes (fold_right insertar l xs).
Proof. induction xs; cbn; [done |]. intros. by apply insertar_ordenada, IHxs. Qed.

Lemma elem_of_insertar_varios (y : string) (xs l : list string) :
  y ∈ fold_right insertar l xs ↔ y ∈ xs ∨ y ∈ l.
Proof.
  induction xs as [|x xs IH]; cbn.
  - rewrite elem_of_nil. tauto.
  - rewrite elem_of_insertar, IH, elem_of_cons. tauto.
Qed.


Lemma paso_ordenada todas maq :
  StronglySorted antes todas → StronglySorted antes (paso todas maq).
Proof.
  intros H. unfold paso. destruct (es_comodin maq); [done |].
  destruct (tiene_coma maq);
    [by apply insertar_varios_ordenada | by apply insertar_ordenada].
Qed.

Lemma paso_conserva todas maq y : y ∈ todas → y ∈ paso todas maq.
Proof.
  intros H. unfold paso. destruct (es_comodin maq); [done |].
  destruct (tiene_coma maq).
  - apply elem_of_insertar_varios. by right.
  - apply elem_of_insertar. by right.
Qed.

Lemma pasos_ordenada (maqs todas : list string) :
  StronglySorted antes todas → StronglySorted antes (fold_left paso maqs todas).
Proof.
  revert todas. induction maqs as [|m r IH]; intros todas H; cbn; [done |].
  by apply IH, paso_ordenada.
Qed.

Lemma pasos_conserva (maqs todas : list string) y :
  y ∈ todas → y ∈ fold_left paso maqs todas.
Proof.
  revert todas. induction maqs as [|m r IH]; intros todas H; cbn; [done |].
  by apply IH, paso_conserva.
Qed.


Lemma pasos_agrega (maqs todas : list string) spec y :
  spec ∈ maqs → nombra spec y → y ∈ fold_left paso maqs todas.
Proof.
  revert todas. induction maqs as [|m r IH]; intros todas Hin [Hc Hy].
  - by apply elem_of_nil in Hin.
  - cbn. apply elem_of_cons in Hin as [<-|Hin].
    + apply pasos_conserva. unfold paso. rewrite Hc.
      destruct (tiene_coma spec).
      * apply elem_of_insertar_varios. by left.
      * apply elem_of_insertar. by left.
    + by apply IH.
Qed.

Lemma maquinas_fijas_pasos tareas_df :
  maquinas_fijas tareas_df
  = match fold_left paso (maquinas_disponibles tareas_df) [] with
    | [] => ["M1"; "M2"; "M3"]
    | l => l
    end.
Proof.
  unfold maquinas_fijas. fold paso.
  by destruct (fold_left paso (maquinas_disponibles tareas_df) []).
Qed.

Lemma maquinas_fijas_ordenada tareas_df :
  StronglySorted antes (maquinas_fijas tareas_df).
Proof.
  rewrite maquinas_fijas_pasos.
  pose proof (pasos_ordenada (maquinas_disponibles tareas_df) [] (SSorted_nil _)) as H.
  destruct (fold_left paso _ _); [| done].
  repeat constructor.
Qed.

Lemma maquinas_fijas_NoDup tareas_df : NoDup (maquinas_fijas tareas_df).
Proof. apply ordenada_NoDup, maquinas_fijas_ordenada. Qed.

Lemma maquinas_fijas_no_vacia tareas_df : maquinas_fijas tareas_df ≠ [].
Proof.
  rewrite maquinas_fijas_pasos. by destruct (fold_left paso _ _).
Qed.

Lemma maquinas_fijas_nombra tareas_df i y :
  (i < num_tareas tareas_df)%nat →
  nombra (maquina (iloc tareas_df i)) y → y ∈ maquinas_fijas tareas_df.
Proof.
  intros Hi Hy. rewrite maquinas_fijas_pasos.
  assert (y ∈ fold_left paso (maquinas_disponibles tareas_df) []) as H.
  { apply (pasos_agrega _ _ (maquina (iloc tareas_df i))); [| done].
    unfold maquinas_disponibles. apply elem_of_insertar_varios. left.
    apply list_elem_of_In, in_map, nth_In. exact Hi. }
  destruct (fold_left paso _ _); [by apply elem_of_nil in H | done].
Qed.

(** *** Indices of machines *)

Lemma indice_Some (m : string) (l : list string) (k : Z) :
  indice m l = Some k →
  0 <= k < Z.of_nat (length l) ∧ l !! Z.to_nat k = Some m.
Proof.
  revert k. induction l as [|y r IH]; intros k; cbn; [done |].
  destruct (String.eqb y m) eqn:E.
  - intros [= <-]. apply String.eqb_eq in E as ->. split; [lia | done].
  - destruct (indice m r) as [k'|]; [| done]. cbn. intros [= <-].
    destruct (IH k' eq_refl) as [? ?]. split; [lia |].
    by replace (Z.to_nat (Z.succ k')) with (S (Z.to_nat k')) by lia.
Qed.

Lemma indice_de_elemento (m : string) (l : list string) :
  m ∈ l → is_Some (indice m l).
Proof.
  induction l as [|y r IH]; [by intros ?%elem_of_nil |].
  intros Hin. cbn. destruct (String.eqb y m) eqn:E; [done |].
  apply elem_of_cons in Hin as [->|Hin]; [by rewrite String.eqb_refl in E |].
  destruct (IH Hin) as [k ->]. done.
Qed.

Lemma todos_los_indices_spec (fijas : list string) (k : Z) :
  k ∈ todos_los_indices fijas ↔ 0 <= k < Z.of_nat (length fijas).
Proof.
  unfold todos_los_indices. rewrite list_elem_of_fmap. split.
  - intros (i & -> & Hi). apply elem_of_seq in Hi. lia.
  - intros Hk. exists (Z.to_nat k). split; [lia |]. apply elem_of_seq. lia.
Qed.

Lemma elem_of_omap_indice (fijas nombres : list string) (k : Z) :
  k ∈ omap (λ m, indice m fijas) nombres →
  ∃ m, m ∈ nombres ∧ indice m fijas = Some k.
Proof. intros (m & ? & ?)%list_elem_of_omap. eauto. Qed.

Lemma permitidas_validas (fijas : list string) (spec : string) (k : Z) :
  k ∈ maquinas_permitidas fijas spec → 0 <= k < Z.of_nat (length fijas).
Proof.
  unfold maquinas_permitidas.
  destruct (es_comodin spec); [by intros ?%todos_los_indices_spec |].
  destruct (tiene_coma spec).
  - destruct (omap _ _) as [|p ps] eqn:E; [by intros ?%todos_los_indices_spec |].
    rewrite <- E. intros (m & _ & Hm)%elem_of_omap_indice.
    by apply indice_Some in Hm as [? _].
  - destruct (indice spec fijas) as [k'|] eqn:E;
      [| by intros ?%todos_los_indices_spec].
    intros ->%list_elem_of_singleton. by apply indice_Some in E as [? _].
Qed.

(** A task is given one of the machines its column names. *)
Lemma permitidas_nombradas (fijas : list string) (spec : string) (k : Z) :
  es_comodin spec = false →
  (∀ y, nombra spec y → y ∈ fijas) →
  k ∈ maquinas_permitidas fijas spec →
  ∃ y, nombra spec y ∧ fijas !! Z.to_nat k = Some y.
Proof.
  intros Hc Hfijas. unfold maquinas_permitidas. rewrite Hc.
  destruct (tiene_coma spec) eqn:Ht.
  - assert (∀ m, m ∈ lista_de spec → nombra spec m) as Hnom.
    { intros m Hm. split; [done |]. by rewrite Ht. }
    destruct (omap _ _) as [|p ps] eqn:E.
    + destruct (lista_de spec) as [|m ms] eqn:El.
      { unfold lista_de in El. apply fmap_nil_inv in El.
        by apply CadenasProps.split_no_vacia in El. }
      destruct (indice_de_elemento m fijas) as [j Hj].
      { apply Hfijas, Hnom. by left. }
      cbn in E. by rewrite Hj in E.
    + rewrite <- E. intros (m & Hm & Hk)%elem_of_omap_indice.
      exists m. split; [by apply Hnom |]. by apply indice_Some in Hk as [_ ?].
  - assert (nombra spec spec) as Hnom by (split; [done | by rewrite Ht]).
    destruct (indice_de_elemento spec fijas) as [j Hj]; [by apply Hfijas |].
    rewrite Hj. intros ->%list_elem_of_singleton.
    exists spec. split; [done |]. by apply indice_Some in Hj as [_ ?].
Qed.

Lemma elemento_no_negativo (l : list string) (k : Z) :
  0 <= k → elemento l k = l !! Z.to_nat k.
Proof. intros Hk. unfold elemento. by destruct (Z.leb_spec 0 k); [| lia]. Qed.

(** *** What every feasible candidate satisfies *)

Section Factibles.

Variable tareas_df : list Tarea.
Variable num_operadores : option Z.
Variable horizon : Z.
Variable x : Nucleo.
Hypothesis comunes : comunes_ok tareas_df num_operadores horizon x.

Let n : nat := num_tareas tareas_df.

Lemma comunes_variables (i : nat) (c : Restriccion) :
  (i < n)%nat → In c (variables_de tareas_df num_operadores horizon i) →
  c x = true.
Proof.
  intros Hi Hc. apply (comunes_en _ _ _ _ comunes).
  unfold restricciones_comunes. apply in_or_app. left.
  apply in_flat_map. exists i. split; [apply in_seq; fold n; lia | done].
Qed.

Lemma maquina_permitida (i : nat) :
  (i < n)%nat →
  machine_assignment (permitidas tareas_df i) x i ∈ permitidas tareas_df i.
Proof.
  intros Hi.
  pose proof (comunes_variables i) as Hv. unfold variables_de in Hv.
  unfold machine_assignment.
  destruct (permitidas tareas_df i) as [|k [|k' r]] eqn:Ep.
  - exfalso.
    assert (bool_decide (machine_var x i ∈ @nil Z) = true) as H.
    { apply (Hv (λ x, bool_decide (machine_var x i ∈ @nil Z))); [done |].
      apply in_or_app. right. apply in_or_app. right. cbn. auto. }
    apply bool_decide_eq_true_1 in H. by apply elem_of_nil in H.
  - by left.
  - apply (bool_decide_eq_true_1 _).
    apply (Hv (λ x, bool_decide (machine_var x i ∈ k :: k' :: r))); [done |].
    apply in_or_app. right. apply in_or_app. right. cbn. auto.
Qed.

Lemma comunes_par_maquinas (i j : nat) (c : Restriccion) :
  (i < j)%nat → (j < n)%nat →
  In c (no_superposicion_maquinas tareas_df i j) → c x = true.
Proof.
  intros Hij Hjn Hc. apply (comunes_en _ _ _ _ comunes).
  unfold restricciones_comunes.
  apply in_or_app. right. apply in_or_app. right. apply in_or_app. left.
  by apply (in_pares _ _ i j).
Qed.

(** Two tasks with the same value of [machine_assignment] are one after
    the other. *)
Lemma misma_maquina_en_orden (i j : nat) :
  (i < j)%nat → (j < n)%nat →
  machine_assignment (permitidas tareas_df i) x i
  = machine_assignment (permitidas tareas_df j) x j →
  end_time x i <= start_time x j ∨ end_time x j <= start_time x i.
Proof.
  intros Hij Hjn Hm.
  pose proof (comunes_par_maquinas i j) as Hpar.
  unfold no_superposicion_maquinas in Hpar.
  assert (same_machine x i j = true) as Hsame.
  { destruct (String.eqb _ _ && negb _ && negb _).
    - specialize (Hpar _ Hij Hjn (or_introl eq_refl)). cbn beta in Hpar.
      by destruct (same_machine x i j).
    - specialize (Hpar _ Hij Hjn (or_intror (or_introl eq_refl))).
      cbn beta in Hpar. rewrite Hm, Z.eqb_refl in Hpar.
      by destruct (same_machine x i j). }
  assert (∀ c, In c [ (λ x : Nucleo, solo_si (same_machine x i j)
               (Z_de_bool (task_i_before_j x i j)
                + Z_de_bool (task_j_before_i x i j) =? 1));
       (λ x, solo_si (negb (same_machine x i j))
               (Z_de_bool (task_i_before_j x i j) =? 0));
       (λ x, solo_si (negb (same_machine x i j))
               (Z_de_bool (task_j_before_i x i j) =? 0));
       (λ x, solo_si (task_i_before_j x i j) (end_time x i <=? start_time x j));
       (λ x, solo_si (task_j_before_i x i j) (end_time x j <=? start_time x i)) ]
          → c x = true) as Hresto.
  { intros c Hc. apply Hpar; [done | done |]. apply in_or_app. by right. }
  pose proof (Hresto _ (or_introl eq_refl)) as H1.
  pose proof (Hresto _ (or_intror (or_intror (or_intror (or_introl eq_refl))))) as H4.
  pose proof (Hresto _ (or_intror (or_intror (or_intror (or_intror
                          (or_introl eq_refl)))))) as H5.
  cbn beta in H1, H4, H5. unfold solo_si in *. rewrite Hsame in H1.
  destruct (task_i_before_j x i j), (task_j_before_i x i j);
    cbn in H1, H4, H5; try discriminate.
  - left. by apply Z.leb_le.
  - right. by apply Z.leb_le.
Qed.

Lemma misma_maquina_sin_solape (i j : nat) :
  (i < n)%nat → (j < n)%nat → i ≠ j →
  machine_assignment (permitidas tareas_df i) x i
  = machine_assignment (permitidas tareas_df j) x j →
  end_time x i <= start_time x j ∨ end_time x j <= start_time x i.
Proof.
  intros Hi Hj Hne Hm. destruct (decide (i < j)%nat).
  - by apply misma_maquina_en_orden.
  - destruct (misma_maquina_en_orden j i); [lia | done | done | by right | by left].
Qed.

End Factibles.

(** *** The plan read off a feasible candidate *)

Lemma cumple_app (a : Asignacion) (l1 l2 : list (Asignacion → bool)) :
  cumple a (l1 ++ l2) ↔ cumple a l1 ∧ cumple a l2.
Proof. unfold cumple. apply Forall_app. Qed.

Lemma objetivo_con_makespan tareas_df horizon objetivo a :
  cumple a (restricciones (seleccionar_objetivo tareas_df horizon objetivo)) →
  cumple a (con_makespan tareas_df horizon).
Proof.
  unfold seleccionar_objetivo.
  repeat match goal with |- context [String.eqb ?a ?b] => destruct (String.eqb a b) end;
    try done.
  - unfold objetivo_maximizar_utilizacion.
    destruct (1 <? _)%nat; cbn [restricciones]; [| done].
    by intros [? _]%cumple_app.
  - unfold objetivo_minimizar_costos. cbn [restricciones].
    by intros [? _]%cumple_app.
  - unfold objetivo_balanceado_modelo. cbn [restricciones].
    by intros [? _]%cumple_app.
Qed.

Lemma factible_crear_modelo tareas_df num_operadores dias_laborales objetivo
    horas_por_dia a :
  factible (crear_modelo tareas_df num_operadores dias_laborales objetivo
              horas_por_dia) a = true →
  let horizon := horizonte tareas_df dias_laborales horas_por_dia in
  comunes_ok tareas_df num_operadores horizon (nucleo a)
  ∧ (0 <= makespan a ∧ makespan a <= horizon)
  ∧ acotadas (num_tareas tareas_df) (nucleo a) (makespan a).
Proof.
  unfold crear_modelo. intros [Hc Ho]%factible_modelo_con. cbn zeta.
  split; [done |]. by apply objetivo_con_makespan, cumple_con_makespan in Ho.
Qed.

Lemma entrada_del_plan tareas_df num_operadores dias_laborales horas_por_dia x
    (i : nat) (p : TareaInfo) :
  programacion (_extraer_solucion tareas_df num_operadores dias_laborales
                  horas_por_dia x) !! i = Some p →
  (i < num_tareas tareas_df)%nat
  ∧ sol_tarea_indice p = i
  ∧ sol_tarea_id p = id (iloc tareas_df i)
  ∧ sol_inicio p = start_time x i
  ∧ sol_fin p = end_time x i
  ∧ sol_duracion p = end_time x i - start_time x i
  ∧ sol_maquina p
    = (let machine_val := machine_assignment (permitidas tareas_df i) x i in
       if machine_val <? Z.of_nat (length (maquinas_fijas tareas_df))
       then default "N/A" (elemento (maquinas_fijas tareas_df) machine_val)
       else "N/A")
  ∧ sol_operador p
    = match hay_operadores num_operadores with
      | Some _ => "OP" +:+ str_de_entero (operator_assignment x i + 1)
      | None => "N/A"
      end.
Proof.
  unfold _extraer_solucion. cbn [programacion]. rewrite list_lookup_fmap.
  destruct (seq 0 (num_tareas tareas_df) !! i) as [i'|] eqn:E; [| done].
  apply lookup_seq in E as [-> Hi]. cbn. intros [= <-]. cbn. done.
Qed.

Section Plan.

Variable tareas_df : list Tarea.
Variable num_operadores : option Z.
Variable dias_laborales : option (list string).
Variable objetivo : string.
Variable horas_por_dia : Q.
Variable a : Asignacion.
Hypothesis Hfactible :
  factible (crear_modelo tareas_df num_operadores dias_laborales objetivo
              horas_por_dia) a = true.

Let horizon : Z := horizonte tareas_df dias_laborales horas_por_dia.
Let x : Nucleo := nucleo a.
Let n : nat := num_tareas tareas_df.
Let fijas : list string := maquinas_fijas tareas_df.

Lemma plan_comunes : comunes_ok tareas_df num_operadores horizon x.
Proof. by destruct (factible_crear_modelo _ _ _ _ _ _ Hfactible) as [? _]. Qed.

(** The machine written for task [i] is the element of [maquinas_fijas] at
    the value of [machine_assignment[i]], an index the task allows. *)
Lemma plan_maquina (i : nat) (p : TareaInfo) :
  programacion (_extraer_solucion tareas_df num_operadores dias_laborales
                  horas_por_dia x) !! i = Some p →
  let v := machine_assignment (permitidas tareas_df i) x i in
  v ∈ permitidas tareas_df i
  ∧ 0 <= v
  ∧ fijas !! Z.to_nat v = Some (sol_maquina p).
Proof.
  intros (Hi & _ & _ & _ & _ & _ & Hm & _)%entrada_del_plan. cbn zeta.
  pose proof (maquina_permitida _ _ _ _ plan_comunes i Hi) as Hperm.
  pose proof (permitidas_validas _ _ _ Hperm) as Hval.
  split; [done |]. split; [lia |]. rewrite Hm. cbn zeta.
  destruct (Z.ltb_spec (machine_assignment (permitidas tareas_df i) x i)
              (Z.of_nat (length (maquinas_fijas tareas_df)))); [| lia].
  rewrite elemento_no_negativo by lia.
  destruct (lookup_lt_is_Some_2 (maquinas_fijas tareas_df)
              (Z.to_nat (machine_assignment (permitidas tareas_df i) x i)))
    as [m Hm']; [lia |].
  unfold fijas. by rewrite Hm'.
Qed.

End Plan.

(** *** Largest element *)

Lemma maximo_cons (y : Z) (l : list Z) :
  l ≠ [] → maximo (y :: l) = Z.max y (maximo l).
Proof. by destruct l. Qed.

Lemma maximo_cota (l : list Z) (y : Z) : y ∈ l → y <= maximo l.
Proof.
  induction l as [|z r IH]; [by intros ?%elem_of_nil |].
  destruct r as [|z' r'].
  - intros ->%list_elem_of_singleton. cbn. lia.
  - rewrite maximo_cons by done. intros [->|Hin]%elem_of_cons; [lia |].
    specialize (IH Hin). lia.
Qed.

Lemma maximo_alcanzado (l : list Z) : l ≠ [] → maximo l ∈ l.
Proof.
  induction l as [|z r IH]; [done |]. intros _.
  destruct r as [|z' r'].
  - cbn. by left.
  - rewrite maximo_cons by done.
    destruct (Z.max_spec z (maximo (z' :: r'))) as [[_ ->]|[_ ->]].
    + right. by apply IH.
    + by left.
Qed.

Section Operadores.

Variable tareas_df : list Tarea.
Variable num_operadores : option Z.
Variable horizon : Z.
Variable x : Nucleo.
Variable k : Z.
Hypothesis comunes : comunes_ok tareas_df num_operadores horizon x.
Hypothesis hay : hay_operadores num_operadores = Some k.

Let n : nat := num_tareas tareas_df.

Lemma operador_en_rango (i : nat) :
  (i < n)%nat → 0 <= operator_assignment x i <= k - 1.
Proof.
  intros Hi. apply en_rango_spec.
  apply (comunes_variables _ _ _ _ comunes i
           (λ x, en_rango 0 (k - 1) (operator_assignment x i)) Hi).
  unfold variables_de. rewrite hay.
  apply in_or_app. right. apply in_or_app. left. cbn. auto.
Qed.

Lemma mismo_operador_en_orden (i j : nat) :
  (i < j)%nat → (j < n)%nat →
  operator_assignment x i = operator_assignment x j →
  end_time x i <= start_time x j ∨ end_time x j <= start_time x i.
Proof.
  intros Hij Hjn Ho.
  assert (∀ c, In c (no_superposicion_operadores i j) → c x = true) as Hpar.
  { intros c Hc. apply (comunes_en _ _ _ _ comunes).
    unfold restricciones_comunes. rewrite hay.
    apply in_or_app. right. apply in_or_app. right. apply in_or_app. right.
    apply in_or_app. left. by apply (in_pares _ _ i j). }
  unfold no_superposicion_operadores in Hpar.
  pose proof (Hpar _ (or_intror (or_introl eq_refl))) as H2.
  pose proof (Hpar _ (or_intror (or_intror (or_introl eq_refl)))) as H3.
  pose proof (Hpar _ (or_intror (or_intror (or_intror (or_introl eq_refl))))) as H4.
  pose proof (Hpar _ (or_intror (or_intror (or_intror (or_intror
                        (or_introl eq_refl)))))) as H5.
  cbn beta in H2, H3, H4, H5. unfold solo_si in *.
  rewrite Ho, Z.eqb_refl in H2.
  destruct (same_operator x i j); [| discriminate].
  destruct (before x i j), (after x i j); cbn in H3, H4, H5; try discriminate.
  - left. by apply Z.leb_le.
  - right. by apply Z.leb_le.
Qed.

End Operadores.

(** *** The plan of a feasible candidate is a valid schedule *)

(** X18: in the plan extracted from any feasible candidate of the model, for
    any objective, two tasks written on the same machine never overlap in
    time. *)
Theorem plan_sin_solape_por_maquina (tareas_df : list Tarea)
    (num_operadores : option Z) (dias_laborales : option (list string))
    (objetivo : string) (horas_por_dia : Q) (a : Asignacion)
    (i j : nat) (p q : TareaInfo) :
  factible (crear_modelo tareas_df num_operadores dias_laborales objetivo
              horas_por_dia) a = true →
  programacion (_extraer_solucion tareas_df num_operadores dias_laborales
                  horas_por_dia (nucleo a)) !! i = Some p →
  programacion (_extraer_solucion tareas_df num_operadores dias_laborales
                  horas_por_dia (nucleo a)) !! j = Some q →
  i ≠ j →
  sol_maquina p = sol_maquina q →
  sol_fin p <= sol_inicio q ∨ sol_fin q <= sol_inicio p.
Proof.
  intros Hf Hp Hq Hne Hm.
  pose proof (plan_comunes _ _ _ _ _ _ Hf) as Hcom.
  destruct (plan_maquina _ _ _ _ _ _ Hf i p Hp) as (_ & Hvi & Hmi).
  destruct (plan_maquina _ _ _ _ _ _ Hf j q Hq) as (_ & Hvj & Hmj).
  apply entrada_del_plan in Hp as (Hi & _ & _ & -> & -> & _).
  apply entrada_del_plan in Hq as (Hj & _ & _ & -> & -> & _).
  rewrite <- Hm in Hmj.
  pose proof (NoDup_lookup _ _ _ _ (maquinas_fijas_NoDup tareas_df) Hmi Hmj) as He.
  eapply misma_maquina_sin_solape; [exact Hcom | done | done | done | lia].
Qed.

Lemma plan_sin_solape_por_maquina_testigo :
  ∃ p q,
    programacion (_extraer_solucion tareas_S1 (Some 1) (Some ["Lunes"])
                    (inject_Z 9) plan_S1) !! 0%nat = Some p
    ∧ programacion (_extraer_solucion tareas_S1 (Some 1) (Some ["Lunes"])
                      (inject_Z 9) plan_S1) !! 1%nat = Some q
    ∧ sol_maquina p = "M1" ∧ sol_maquina q = "M1"
    ∧ (sol_fin p <= sol_inicio q ∨ sol_fin q <= sol_inicio p).
Proof.
  eexists _, _. split; [reflexivity |]. split; [reflexivity |].
  split; [reflexivity |]. split; [reflexivity |].
  apply (plan_sin_solape_por_maquina tareas_S1 (Some 1) (Some ["Lunes"])
           "Minimizar tiempo total" (inject_Z 9) solucion_S1 0 1);
    [by vm_compute | reflexivity | reflexivity | lia | reflexivity].
Defined.

(** X19: the machine written for a task in the plan of a feasible candidate
    is a machine of [maquinas_fijas]; unless the task's column is a wildcard
    it is the machine the column names, or one of those it lists. *)
Theorem plan_maquina_permitida (tareas_df : list Tarea)
    (num_operadores : option Z) (dias_laborales : option (list string))
    (objetivo : string) (horas_por_dia : Q) (a : Asignacion)
    (i : nat) (p : TareaInfo) :
  factible (crear_modelo tareas_df num_operadores dias_laborales objetivo
              horas_por_dia) a = true →
  programacion (_extraer_solucion tareas_df num_operadores dias_laborales
                  horas_por_dia (nucleo a)) !! i = Some p →
  let spec := maquina (iloc tareas_df i) in
  sol_maquina p ∈ maquinas_fijas tareas_df
  ∧ (es_comodin spec = false →
     if tiene_coma spec then sol_maquina p ∈ lista_de spec
     else sol_maquina p = spec).
Proof.
  intros Hf Hp spec.
  destruct (plan_maquina _ _ _ _ _ _ Hf i p Hp) as (Hperm & Hv & Hm).
  apply entrada_del_plan in Hp as (Hi & _).
  split; [by eapply list_elem_of_lookup_2 |].
  intros Hc.
  destruct (permitidas_nombradas (maquinas_fijas tareas_df) spec
              (machine_assignment (permitidas tareas_df i) (nucleo a) i) Hc)
    as (y & [_ Hy] & Hl); [| exact Hperm |].
  - intros y Hy. by apply (maquinas_fijas_nombra tareas_df i).
  - rewrite Hm in Hl. by injection Hl as <-.
Qed.

Lemma plan_maquina_permitida_testigo :
  ∃ p,
    programacion (_extraer_solucion tareas_S1 (Some 1) (Some ["Lunes"])
                    (inject_Z 9) plan_S1) !! 1%nat = Some p
    ∧ sol_maquina p ∈ maquinas_fijas tareas_S1
    ∧ sol_maquina p = "M1".
Proof.
  eexists. split; [reflexivity |].
  destruct (plan_maquina_permitida tareas_S1 (Some 1) (Some ["Lunes"])
              "Minimizar tiempo total" (inject_Z 9) solucion_S1 1 _
              ltac:(by vm_compute) eq_refl) as [H1 H2].
  split; [exact H1 | exact (H2 eq_refl)].
Defined.



(** X21: with operators, the operator written for a task is one of
    [OP1 .. OPk], and two tasks of the plan with the same operator never
    overlap in time. *)
Theorem plan_sin_solape_por_operador (tareas_df : list Tarea)
    (num_operadores : option Z) (dias_laborales : option (list string))
    (objetivo : string) (horas_por_dia : Q) (a : Asignacion) (k : Z)
    (i j : nat) (p q : TareaInfo) :
  factible (crear_modelo tareas_df num_operadores dias_laborales objetivo
              horas_por_dia) a = true →
  hay_operadores num_operadores = Some k →
  programacion (_extraer_solucion tareas_df num_operadores dias_laborales
                  horas_por_dia (nucleo a)) !! i = Some p →
  programacion (_extraer_solucion tareas_df num_operadores dias_laborales
                  horas_por_dia (nucleo a)) !! j = Some q →
  (∃ v, 1 <= v <= k ∧ sol_operador p = "OP" +:+ str_de_entero v)
  ∧ (i ≠ j → sol_operador p = sol_operador q →
     sol_fin p <= sol_inicio q ∨ sol_fin q <= sol_inicio p).
Proof.
  intros Hf Hk Hp Hq.
  pose proof (plan_comunes _ _ _ _ _ _ Hf) as Hcom.
  apply entrada_del_plan in Hp as (Hi & _ & _ & -> & -> & _ & _ & ->).
  apply entrada_del_plan in Hq as (Hj & _ & _ & -> & -> & _ & _ & ->).
  rewrite Hk. split.
  - exists (operator_assignment (nucleo a) i + 1). split; [| done].
    pose proof (operador_en_rango _ _ _ _ _ Hcom Hk i Hi). lia.
  - intros Hne [= Ho]. apply CadenasProps.str_de_entero_inyectiva in Ho.
    assert (operator_assignment (nucleo a) i = operator_assignment (nucleo a) j)
      as Ho' by lia.
    destruct (decide (i < j)%nat).
    + by eapply mismo_operador_en_orden.
    + destruct (mismo_operador_en_orden _ _ _ _ _ Hcom Hk j i);
        [lia | done | done | by right | by left].
Qed.

Lemma plan_sin_solape_por_operador_testigo :
  ∃ p q,
    programacion (_extraer_solucion tareas_S1 (Some 1) (Some ["Lunes"])
                    (inject_Z 9) plan_S1) !! 0%nat = Some p
    ∧ programacion (_extraer_solucion tareas_S1 (Some 1) (Some ["Lunes"])
                      (inject_Z 9) plan_S1) !! 1%nat = Some q
    ∧ sol_operador p = "OP1" ∧ sol_operador q = "OP1"
    ∧ (sol_fin p <= sol_inicio q ∨ sol_fin q <= sol_inicio p).
Proof.
  eexists _, _. split; [reflexivity |]. split; [reflexivity |].
  split; [reflexivity |]. split; [reflexivity |].
  destruct (plan_sin_solape_por_operador tareas_S1 (Some 1) (Some ["Lunes"])
              "Minimizar tiempo total" (inject_Z 9) solucion_S1 1 0 1 _ _
              ltac:(by vm_compute) eq_refl eq_refl eq_refl) as [_ H].
  apply H; [lia | reflexivity].
Defined.

(** *** The groups of [trabajos] *)

Lemma buscar_agregar (k k' : string) (i : nat) (g : list (string * list nat)) :
  buscar k' (agregar k i g)
  = if decide (k' = k) then Some (default [] (buscar k g) ++ [i])
    else buscar k' g.
Proof.
  induction g as [|[k0 l0] r IH]; cbn.
  - destruct (decide (k' = k)) as [->|Hne].
    + by rewrite String.eqb_refl.
    + destruct (String.eqb k k') eqn:E; [| done].
      by apply String.eqb_eq in E.
  - destruct (String.eqb k0 k) eqn:E; cbn.
    + apply String.eqb_eq in E as ->.
      destruct (decide (k' = k)) as [->|Hne].
      * by rewrite String.eqb_refl.
      * destruct (String.eqb k k') eqn:E'; [| done].
        by apply String.eqb_eq in E'.
    + destruct (String.eqb k0 k') eqn:E'.
      * apply String.eqb_eq in E' as ->.
        destruct (decide (k' = k)) as [->|Hne]; [| done].
        by rewrite String.eqb_refl in E.
      * exact IH.
Qed.

Lemma buscar_elem_of (k : string) (l : list nat) (g : list (string * list nat)) :
  buscar k g = Some l → (k, l) ∈ g.
Proof.
  induction g as [|[k0 l0] r IH]; cbn; [done |].
  destruct (String.eqb k0 k) eqn:E.
  - apply String.eqb_eq in E as ->. intros [= ->]. by left.
  - intros H. right. by apply IH.
Qed.

Lemma claves_agregar (k : string) (i : nat) (g : list (string * list nat)) :
  map fst (agregar k i g)
  = if decide (k ∈ map fst g) then map fst g else map fst g ++ [k].
Proof.
  induction g as [|[k0 l0] r IH]; cbn.
  - destruct (decide (k ∈ [])) as [H|H]; [by apply elem_of_nil in H | done].
  - destruct (String.eqb k0 k) eqn:E; cbn.
    + apply String.eqb_eq in E as ->.
      destruct (decide (k ∈ k :: map fst r)) as [H|H]; [done |].
      exfalso. apply H. by left.
    + rewrite IH.
      destruct (decide (k ∈ map fst r)) as [H|H];
        destruct (decide (k ∈ k0 :: map fst r)) as [H'|H']; try done.
      * exfalso. apply H'. by right.
      * apply elem_of_cons in H' as [->|H']; [| done].
        by rewrite String.eqb_refl in E.
Qed.

Lemma elem_of_buscar (k : string) (l : list nat) (g : list (string * list nat)) :
  NoDup (map fst g) → (k, l) ∈ g → buscar k g = Some l.
Proof.
  induction g as [|[k0 l0] r IH]; cbn; [by intros _ ?%elem_of_nil |].
  intros [Hk0 Hr]%NoDup_cons [[= -> ->]|Hin]%elem_of_cons.
  - by rewrite String.eqb_refl.
  - destruct (String.eqb k0 k) eqn:E; [| by apply IH].
    apply String.eqb_eq in E as ->. exfalso. apply Hk0.
    apply list_elem_of_fmap. by exists (k, l).
Qed.

Section Grupos.

Variable clave_de : nat → option string.


Lemma agrupadas_paso (hechas : list nat) (g : list (string * list nat)) (i : nat) :
  agrupadas clave_de hechas g →
  agrupadas clave_de (hechas ++ [i])
            (match clave_de i with Some k => agregar k i g | None => g end).
Proof.
  intros [Hnd Hb]. destruct (clave_de i) as [k|] eqn:Ek.
  - split.
    + rewrite claves_agregar. destruct (decide _) as [H|H]; [done |].
      apply NoDup_app. split; [done |]. split; [| apply NoDup_singleton].
      intros y Hy ->%list_elem_of_singleton. done.
    + intros k'. rewrite buscar_agregar, filter_app.
      destruct (decide (k' = k)) as [->|Hne].
      * rewrite (filter_cons_True _ i []) by done. rewrite filter_nil, Hb.
        by destruct (filter _ hechas).
      * rewrite (filter_cons_False _ i []) by congruence.
        rewrite filter_nil, app_nil_r. apply Hb.
  - split; [done |]. intros k. rewrite filter_app.
    rewrite (filter_cons_False _ i []) by congruence.
    rewrite filter_nil, app_nil_r. apply Hb.
Qed.

Lemma agrupadas_todas (resto hechas : list nat) (g : list (string * list nat)) :
  agrupadas clave_de hechas g →
  agrupadas clave_de (hechas ++ resto)
    (fold_left (λ g i, match clave_de i with
                       | Some k => agregar k i g
                       | None => g
                       end) resto g).
Proof.
  revert hechas g. induction resto as [|i r IH]; intros hechas g H; cbn.
  - by rewrite app_nil_r.
  - replace (hechas ++ i :: r) with ((hechas ++ [i]) ++ r)
      by (by rewrite <- app_assoc).
    by apply IH, agrupadas_paso.
Qed.

End Grupos.

Lemma trabajos_agrupadas (tareas_df : list Tarea) :
  agrupadas (λ i, trabajo_id_de (iloc tareas_df i))
            (seq 0 (num_tareas tareas_df)) (trabajos tareas_df).
Proof.
  apply (agrupadas_todas _ (seq 0 (num_tareas tareas_df)) [] []).
  split; [constructor | done].
Qed.

(** *** Order inside a job *)

Lemma filtradas_crecientes (P : nat → Prop) `{∀ i, Decision (P i)} (a n : nat) :
  StronglySorted lt (filter P (seq a n)).
Proof.
  revert a. induction n as [|n IH]; intros a; cbn [seq]; [constructor |].
  destruct (decide (P a)).
  - rewrite filter_cons_True by done. constructor; [apply IH |].
    apply Forall_forall. intros j [_ Hj]%list_elem_of_filter.
    apply elem_of_seq in Hj. lia.
  - rewrite filter_cons_False by done. apply IH.
Qed.

Section Orden.

Variable clave : nat → Z.

Let antes_de (i j : nat) : Prop :=
  clave i < clave j ∨ (clave i = clave j ∧ (i < j)%nat).

Lemma elem_of_insertar_por (i j : nat) (l : list nat) :
  j ∈ insertar_por clave i l ↔ j = i ∨ j ∈ l.
Proof.
  induction l as [|y r IH]; cbn.
  - rewrite list_elem_of_singleton, elem_of_nil. tauto.
  - destruct (clave i <=? clave y).
    + rewrite !elem_of_cons. tauto.
    + rewrite !elem_of_cons, IH. tauto.
Qed.

Lemma elem_of_ordenar_por (j : nat) (l : list nat) :
  j ∈ ordenar_por clave l ↔ j ∈ l.
Proof.
  unfold ordenar_por. induction l as [|y r IH]; cbn; [done |].
  rewrite elem_of_insertar_por, IH, elem_of_cons. tauto.
Qed.

Lemma length_insertar_por (i : nat) (l : list nat) :
  length (insertar_por clave i l) = S (length l).
Proof.
  induction l as [|y r IH]; cbn; [done |].
  destruct (clave i <=? clave y); cbn; [done | by rewrite IH].
Qed.

Lemma insertar_por_ordenada (i : nat) (l : list nat) :
  StronglySorted antes_de l →
  (∀ j, j ∈ l → (i < j)%nat) →
  StronglySorted antes_de (insertar_por clave i l).
Proof.
  induction 1 as [|y r Hr IH Hy]; intros Hmenor; cbn.
  - repeat constructor.
  - rewrite Forall_forall in Hy.
    destruct (Z.leb_spec (clave i) (clave y)) as [Hle|Hgt].
    + constructor; [by constructor; [| apply Forall_forall] |].
      apply Forall_forall. intros j Hj.
      assert (i < j)%nat by (by apply Hmenor).
      assert (clave y <= clave j) as Hyj.
      { apply elem_of_cons in Hj as [->|Hj]; [lia |].
        destruct (Hy j Hj) as [?|[? _]]; lia. }
      unfold antes_de. lia.
    + constructor.
      * apply IH. intros j Hj. apply Hmenor. by right.
      * apply Forall_forall. intros j [->|Hj]%elem_of_insertar_por.
        -- left. lia.
        -- by apply Hy.
Qed.

Lemma ordenar_por_ordenada (l : list nat) :
  StronglySorted lt l → StronglySorted antes_de (ordenar_por clave l).
Proof.
  unfold ordenar_por. induction 1 as [|y r Hr IH Hy]; cbn; [apply SSorted_nil |].
  apply insertar_por_ordenada; [done |].
  intros j Hj. apply (proj1 (elem_of_ordenar_por j r)) in Hj.
  rewrite Forall_forall in Hy. by apply Hy.
Qed.

End Orden.

Lemma ordenada_par {A : Type} (R : A → A → Prop) (l : list A) (x y : A) :
  StronglySorted R l → x ∈ l → y ∈ l → x = y ∨ R x y ∨ R y x.
Proof.
  induction 1 as [|z r Hr IH Hz]; [by intros ?%elem_of_nil |].
  rewrite Forall_forall in Hz.
  intros [->|Hx]%elem_of_cons [->|Hy]%elem_of_cons; auto.
Qed.

Lemma ordenada_ambas {A : Type} (R1 R2 : A → A → Prop) (l : list A) :
  StronglySorted R1 l → StronglySorted R2 l →
  StronglySorted (λ a b, R1 a b ∧ R2 a b) l.
Proof.
  induction l as [|a r IH]; [constructor |].
  intros [H1 H1']%StronglySorted_inv [H2 H2']%StronglySorted_inv.
  constructor; [by apply IH |].
  rewrite Forall_forall in *. intros y Hy. split; [by apply H1' | by apply H2'].
Qed.

(** *** The chain of precedence constraints *)

Section Cadena.

Variable x : Nucleo.

Lemma consecutivas_en_cadena (l : list nat) :
  (∀ c, In c (consecutivas l) → c x = true) →
  (∀ b, b ∈ l → start_time x b <= end_time x b) →
  StronglySorted (λ a b, end_time x a <= start_time x b) l.
Proof.
  induction l as [|a r IH]; intros Hc Hd; [constructor |].
  assert (StronglySorted (λ a b, end_time x a <= start_time x b) r) as Hr.
  { apply IH.
    - intros c Hin. apply Hc. destruct r; [done |]. cbn. by right.
    - intros b Hb. apply Hd. by right. }
  constructor; [done |].
  destruct r as [|b r']; [constructor |].
  assert (end_time x a <= start_time x b) as Hab.
  { apply Z.leb_le.
    apply (Hc (λ x, end_time x a <=? start_time x b)). cbn. by left. }
  constructor; [done |].
  apply StronglySorted_inv in Hr as [_ Hb].
  eapply Forall_impl; [exact Hb |]. intros y Hy. cbn in Hy.
  pose proof (Hd b ltac:(right; left)). lia.
Qed.

End Cadena.

(** *** Precedence in the plan *)

Lemma comunes_precedencia (tareas_df : list Tarea) (num_operadores : option Z)
    (horizon : Z) (x : Nucleo) (i j : nat) :
  bien_formadas tareas_df →
  comunes_ok tareas_df num_operadores horizon x →
  (i < num_tareas tareas_df)%nat → (j < num_tareas tareas_df)%nat →
  is_Some (trabajo_id_de (iloc tareas_df i)) →
  trabajo_id_de (iloc tareas_df i) = trabajo_id_de (iloc tareas_df j) →
  precede tareas_df i j →
  end_time x i <= start_time x j.
Proof.
  intros Hbien Hcom Hi Hj [k Hk] Hkj Hprec.
  destruct (trabajos_agrupadas tareas_df) as [Hnd Hb].
  specialize (Hb k).
  set (l := filter (λ i, trabajo_id_de (iloc tareas_df i) = Some k)
                   (seq 0 (num_tareas tareas_df))) in *.
  assert (i ∈ l) as Hil.
  { apply list_elem_of_filter. split; [done | apply elem_of_seq; lia]. }
  assert (j ∈ l) as Hjl.
  { apply list_elem_of_filter. split; [congruence | apply elem_of_seq; lia]. }
  assert (i ≠ j) as Hne.
  { intros ->. unfold precede in Hprec. lia. }
  assert (1 < length l)%nat as Hlen.
  { destruct l as [|a [|b r]]; cbn; [by apply elem_of_nil in Hil | | lia].
    apply list_elem_of_singleton in Hil, Hjl. congruence. }
  assert (buscar k (trabajos tareas_df) = Some l) as Hbl.
  { rewrite Hb. destruct l; [by apply elem_of_nil in Hil | done]. }
  apply buscar_elem_of in Hbl.
  set (clave := λ i, extraer_subindice (id (iloc tareas_df i))).
  set (ordenadas := ordenar_por clave l).
  assert (∀ c, In c (consecutivas ordenadas) → c x = true) as Hcons.
  { intros c Hc. apply (comunes_en _ _ _ _ Hcom).
    unfold restricciones_comunes.
    do 4 (apply in_or_app; right).
    unfold precedencias. apply in_flat_map. exists (k, l).
    split; [by apply list_elem_of_In |].
    destruct (Nat.ltb_spec 1 (length l)); [done | lia]. }
  assert (∀ b, b ∈ ordenadas → start_time x b <= end_time x b) as Hdur.
  { intros b [_ Hb']%elem_of_ordenar_por%list_elem_of_filter.
    apply elem_of_seq in Hb'.
    rewrite (comunes_duracion _ _ _ _ Hcom b) by lia.
    destruct (Hbien (iloc tareas_df b)); [| lia].
    unfold iloc. apply nth_In. unfold num_tareas in Hb'. lia. }
  pose proof (consecutivas_en_cadena x ordenadas Hcons Hdur) as Hcad.
  pose proof (ordenar_por_ordenada clave l (filtradas_crecientes _ 0 _)) as Hord.
  pose proof (ordenada_ambas _ _ _ Hord Hcad) as Hambas.
  destruct (ordenada_par _ ordenadas i j Hambas) as [?|[[_ ?]|[Hji _]]];
    [by apply elem_of_ordenar_por | by apply elem_of_ordenar_por | done | done |].
  unfold precede in Hprec. subst clave. cbv beta zeta in Hprec, Hji. lia.
Qed.

(** X22: in the plan of a feasible candidate, for tasks with durations and
    setups that are not negative, a task ends before any task of the same
    job that follows it in the job's order (by subindex, then by row) starts. *)
Theorem plan_respeta_precedencias (tareas_df : list Tarea)
    (num_operadores : option Z) (dias_laborales : option (list string))
    (objetivo : string) (horas_por_dia : Q) (a : Asignacion)
    (i j : nat) (p q : TareaInfo) :
  bien_formadas tareas_df →
  factible (crear_modelo tareas_df num_operadores dias_laborales objetivo
              horas_por_dia) a = true →
  programacion (_extraer_solucion tareas_df num_operadores dias_laborales
                  horas_por_dia (nucleo a)) !! i = Some p →
  programacion (_extraer_solucion tareas_df num_operadores dias_laborales
                  horas_por_dia (nucleo a)) !! j = Some q →
  is_Some (trabajo_id_de (iloc tareas_df i)) →
  trabajo_id_de (iloc tareas_df i) = trabajo_id_de (iloc tareas_df j) →
  precede tareas_df i j →
  sol_fin p <= sol_inicio q.
Proof.
  intros Hbien Hf Hp Hq Hk Hkj Hprec.
  pose proof (plan_comunes _ _ _ _ _ _ Hf) as Hcom.
  apply entrada_del_plan in Hp as (Hi & _ & _ & _ & -> & _).
  apply entrada_del_plan in Hq as (Hj & _ & _ & -> & _).
  by eapply comunes_precedencia.
Qed.

Lemma plan_respeta_precedencias_testigo :
  ∃ p q,
    programacion (_extraer_solucion tareas_S1 (Some 1) (Some ["Lunes"])
                    (inject_Z 9) plan_S1) !! 0%nat = Some p
    ∧ programacion (_extraer_solucion tareas_S1 (Some 1) (Some ["Lunes"])
                      (inject_Z 9) plan_S1) !! 1%nat = Some q
    ∧ sol_tarea_id p = "A1" ∧ sol_tarea_id q = "A2"
    ∧ sol_fin p <= sol_inicio q.
Proof.
  eexists _, _. split; [reflexivity |]. split; [reflexivity |].
  split; [reflexivity |]. split; [reflexivity |].
  apply (plan_respeta_precedencias tareas_S1 (Some 1) (Some ["Lunes"])
           "Minimizar tiempo total" (inject_Z 9) solucion_S1 0 1);
    [exact bien_formadas_S1 | by vm_compute | reflexivity | reflexivity
     | by eexists | reflexivity | left; by vm_compute].
Defined.

End OptimizadorProps.
